(** * Ballot system: anonymous vote ledger, tally and election lifecycle

    A shallow embedding of the voting core of the application
    (app/core/security.py, app/services/vote_service.py,
    app/repositories/vote_repository.py, app/services/election_service.py,
    app/repositories/election_repository.py,
    app/services/organization_service.py,
    app/repositories/organization_repository.py and the models they use),
    followed by the properties of that code.

    Conventions of the embedding.
    - A Python [str] is represented by its UTF-8 encoding, a Rocq [string]
      (a sequence of 8-bit characters); [s.encode("utf-8")] is then the
      sequence of its bytes and string concatenation is byte concatenation.
    - A stored [datetime] (a DateTime column) is the integer number of ticks
      of its wall-clock fields; [.replace(tzinfo=timezone.utc)] reads it as
      a time on the UTC time line, on which the clock readings lie. A
      [datetime] of a request body may carry a UTC offset (module
      [datetime]); the column stores its wall-clock fields.
    - A table is the list of its rows in insertion order. An INSERT is
      checked against the constraints the models declare (primary key,
      unique constraint, foreign keys); a violation is the [IntegrityError]
      that [db.commit()] raises, and leaves the table as it was.
    - A service call is a computation over the database that either returns a
      value or raises ([HTTPException], the [IntegrityError] of a rejected
      commit, or another exception that no code of the application
      catches).
    - What a call takes from its environment is an explicit argument: the
      clock readings, the [uuid4] drawn for a new row, the commits of other
      sessions between the duplicate check and the INSERT of [cast_vote]
      and between the checks and the UPDATE of [activate_election] and
      [close_election], and the order in which the storage engine hands the
      groups of the tally query to its ORDER BY. *)

From Stdlib Require Import ZArith List String Ascii Bool Lia Arith.
From Stdlib Require Import Permutation Sorted.
Import ListNotations.

Local Open Scope Z_scope.

(** ** hashlib.sha256 and hmac (the library functions security.py calls) *)

Module hashlib.

(** 32-bit words are integers reduced modulo 2^32. *)
Definition wrap32 (x : Z) : Z := x mod 2 ^ 32.

Definition add32 (x y : Z) : Z := wrap32 (x + y).

Definition rotr (n x : Z) : Z :=
  Z.lor (Z.shiftr x n) (wrap32 (Z.shiftl x (32 - n))).

Definition not32 (x : Z) : Z := Z.lxor x 0xffffffff.

Definition Ch (x y z : Z) : Z := Z.lxor (Z.land x y) (Z.land (not32 x) z).

Definition Maj (x y z : Z) : Z :=
  Z.lxor (Z.lxor (Z.land x y) (Z.land x z)) (Z.land y z).

Definition Sigma0 (x : Z) : Z := Z.lxor (Z.lxor (rotr 2 x) (rotr 13 x)) (rotr 22 x).
Definition Sigma1 (x : Z) : Z := Z.lxor (Z.lxor (rotr 6 x) (rotr 11 x)) (rotr 25 x).
Definition sigma0 (x : Z) : Z := Z.lxor (Z.lxor (rotr 7 x) (rotr 18 x)) (Z.shiftr x 3).
Definition sigma1 (x : Z) : Z := Z.lxor (Z.lxor (rotr 17 x) (rotr 19 x)) (Z.shiftr x 10).

(** The constants are fractional parts of roots of the first primes:
    32 bits of the cube roots of the first 64 primes for the rounds, of
    the square roots of the first 8 for the initial chaining value. *)
Definition primes : list Z :=
  [ 2; 3; 5; 7; 11; 13; 17; 19; 23; 29; 31; 37; 41; 43; 47; 53;
    59; 61; 67; 71; 73; 79; 83; 89; 97; 101; 103; 107; 109; 113; 127; 131;
    137; 139; 149; 151; 157; 163; 167; 173; 179; 181; 191; 193; 197; 199; 211; 223;
    227; 229; 233; 239; 241; 251; 257; 263; 269; 271; 277; 281; 283; 293; 307; 311 ].

(** The integer cube root, one bit at a time from the top. *)
Fixpoint cube_root (bits : nat) (n r : Z) : Z :=
  match bits with
  | O => r
  | S b =>
      let c := r + 2 ^ Z.of_nat b in
      cube_root b n (if c * c * c <=? n then c else r)
  end.

Definition K : list Z :=
  Eval vm_compute in map (fun p => cube_root 40 (p * 2 ^ 96) 0 mod 2 ^ 32) primes.

(** The chaining value: eight 32-bit words. *)
Record state := State
  { h0 : Z; h1 : Z; h2 : Z; h3 : Z; h4 : Z; h5 : Z; h6 : Z; h7 : Z }.

Definition square_root_bits (p : Z) : Z := Z.sqrt (p * 2 ^ 64) mod 2 ^ 32.

Definition initial : state :=
  Eval vm_compute in
    State (square_root_bits 2) (square_root_bits 3) (square_root_bits 5)
          (square_root_bits 7) (square_root_bits 11) (square_root_bits 13)
          (square_root_bits 17) (square_root_bits 19).

(** Big-endian packing of bytes into words and back. *)
Fixpoint words_of_bytes (bs : list Z) : list Z :=
  match bs with
  | b3 :: b2 :: b1 :: b0 :: rest =>
      (b3 * 2 ^ 24 + b2 * 2 ^ 16 + b1 * 2 ^ 8 + b0) :: words_of_bytes rest
  | _ => []
  end.

Definition bytes_of_word (w : Z) : list Z :=
  [ Z.shiftr w 24 mod 256; Z.shiftr w 16 mod 256; Z.shiftr w 8 mod 256; w mod 256 ].

(** Padding: a 1 bit, zeros up to 56 modulo 64 bytes, the bit length on 64 bits. *)
Definition pad (msg : list Z) : list Z :=
  let len := Z.of_nat (List.length msg) in
  let zeros := Z.to_nat ((55 - len) mod 64) in
  let bits := 8 * len in
  msg ++ [128] ++ repeat 0 zeros
      ++ bytes_of_word (Z.shiftr bits 32 mod 2 ^ 32) ++ bytes_of_word (bits mod 2 ^ 32).

Fixpoint blocks (n : nat) (bs : list Z) : list (list Z) :=
  match n with
  | O => []
  | S n' => firstn 64 bs :: blocks n' (skipn 64 bs)
  end.

(** Message schedule: [w] holds W_0 .. W_(t-1); each step appends W_t. *)
Fixpoint schedule (steps : nat) (w : list Z) : list Z :=
  match steps with
  | O => w
  | S steps' =>
      let t := List.length w in
      let at_ (k : nat) := nth (t - k) w 0 in
      let wt := add32 (add32 (sigma1 (at_ 2%nat)) (at_ 7%nat))
                      (add32 (sigma0 (at_ 15%nat)) (at_ 16%nat)) in
      schedule steps' (w ++ [wt])
  end.

Definition round (s : state) (kw : Z * Z) : state :=
  let '(k, w) := kw in
  let t1 := add32 (add32 (add32 (h7 s) (Sigma1 (h4 s))) (Ch (h4 s) (h5 s) (h6 s)))
                  (add32 k w) in
  let t2 := add32 (Sigma0 (h0 s)) (Maj (h0 s) (h1 s) (h2 s)) in
  State (add32 t1 t2) (h0 s) (h1 s) (h2 s) (add32 (h3 s) t1) (h4 s) (h5 s) (h6 s).

Definition compress (s : state) (block : list Z) : state :=
  let w := schedule 48 (words_of_bytes block) in
  let r := fold_left round (combine K w) s in
  State (add32 (h0 s) (h0 r)) (add32 (h1 s) (h1 r)) (add32 (h2 s) (h2 r))
        (add32 (h3 s) (h3 r)) (add32 (h4 s) (h4 r)) (add32 (h5 s) (h5 r))
        (add32 (h6 s) (h6 r)) (add32 (h7 s) (h7 r)).

(** [hashlib.sha256(data)]: the final chaining value. *)
Definition sha256 (data : list Z) : state :=
  let padded := pad data in
  fold_left compress (blocks (List.length padded / 64) padded) initial.

(** [.digest()]: 32 bytes. *)
Definition digest (s : state) : list Z :=
  bytes_of_word (h0 s) ++ bytes_of_word (h1 s) ++ bytes_of_word (h2 s)
  ++ bytes_of_word (h3 s) ++ bytes_of_word (h4 s) ++ bytes_of_word (h5 s)
  ++ bytes_of_word (h6 s) ++ bytes_of_word (h7 s).

Definition hex_digit (n : Z) : ascii :=
  match n with
  | 0 => "0" | 1 => "1" | 2 => "2" | 3 => "3" | 4 => "4" | 5 => "5"
  | 6 => "6" | 7 => "7" | 8 => "8" | 9 => "9" | 10 => "a" | 11 => "b"
  | 12 => "c" | 13 => "d" | 14 => "e" | _ => "f"
  end%char.

Definition hex_byte (b : Z) (rest : string) : string :=
  String (hex_digit (b / 16 mod 16)) (String (hex_digit (b mod 16)) rest).

(** [.hexdigest()]: two lowercase hexadecimal digits per digest byte. *)
Definition hexdigest (s : state) : string :=
  fold_right hex_byte EmptyString (digest s).

End hashlib.

(** [str.encode("utf-8")] on the byte representation of strings. *)
Definition encode (s : string) : list Z :=
  map (fun c => Z.of_N (N_of_ascii c)) (list_ascii_of_string s).

Module hmac.

Definition block_size : nat := 64.

Definition xor_pad (p : Z) (key : list Z) : list Z :=
  map (fun b => Z.lxor b p) key.

(** [hmac.new(key, msg, hashlib.sha256)]: a key longer than a block is
    hashed first, then the key is zero-padded to a block. *)
Definition new (key msg : list Z) : hashlib.state :=
  let key0 := if (block_size <? List.length key)%nat
              then hashlib.digest (hashlib.sha256 key) else key in
  let key1 := key0 ++ repeat 0 (block_size - List.length key0) in
  let inner := hashlib.digest (hashlib.sha256 (xor_pad 0x36 key1 ++ msg)) in
  hashlib.sha256 (xor_pad 0x5c key1 ++ inner).

End hmac.

Local Open Scope string_scope.

(** ** datetime values of a request *)

(** A [datetime] as a request body carries it: its wall-clock fields, as a
    number of ticks, and the UTC offset of its [tzinfo] when it has one
    (an aware value). Its place on the time line is [wall - utcoffset]. *)
Module datetime.
Record t := mk { wall : Z; utcoffset : option Z }.

(** [a <= b]: two naive values compare by their wall-clock fields, two aware
    values by their places on the time line; comparing a naive with an
    aware value raises [TypeError] ([None]). *)
Definition le (a b : t) : option bool :=
  match utcoffset a, utcoffset b with
  | None, None => Some (wall a <=? wall b)%Z
  | Some offset_a, Some offset_b => Some (wall a - offset_a <=? wall b - offset_b)%Z
  | _, _ => None
  end.
End datetime.

(** ** Data model (app/models) *)

Module Election.
Record t := mk
  { id : string;
    organization_id : string;
    title : string;
    description : option string;
    start_time : Z;               (* DateTime columns hold wall-clock fields *)
    end_time : Z;
    status : string;              (* draft, active, closed *)
    created_by : string;
    created_at : Z }.
End Election.

Module Candidate.
Record t := mk
  { id : string;
    election_id : string;
    name : string;
    description : option string;
    created_at : Z }.
End Candidate.

(** A vote row carries no user column. *)
Module Vote.
Record t := mk
  { id : string;
    election_id : string;
    candidate_id : string;
    hashed_voter_token : string;
    created_at : Z }.
End Vote.

Module User.
Record t := mk
  { id : string;
    email : string;
    emp_id : option string;
    password_hash : string;
    full_name : option string;
    is_active : bool;
    created_at : Z }.
End User.

Module Organization.
Record t := mk
  { id : string;
    name : string;
    description : option string;
    created_by : string;
    created_at : Z }.
End Organization.

(** The tables the voting core reads and writes. *)
Record Database := mkDatabase
  { organizations : list Organization.t;
    users : list User.t;
    elections : list Election.t;
    candidates : list Candidate.t;
    votes : list Vote.t }.

Definition set_elections (db : Database) (es : list Election.t) : Database :=
  mkDatabase (organizations db) (users db) es (candidates db) (votes db).

Definition set_candidates (db : Database) (cs : list Candidate.t) : Database :=
  mkDatabase (organizations db) (users db) (elections db) cs (votes db).

Definition set_votes (db : Database) (vs : list Vote.t) : Database :=
  mkDatabase (organizations db) (users db) (elections db) (candidates db) vs.

(** ** Sessions: database state and exceptions *)

Inductive exception :=
| HTTPException (status_code : nat) (detail : string)
| IntegrityError (constraint : string)
(* comparing an offset-naive with an offset-aware datetime *)
| TypeError
(* the UPDATE of a flush matched no row *)
| StaleDataError
(* db.refresh() of an object whose row is gone *)
| InvalidRequestError.

Inductive outcome (A : Type) :=
| Return (a : A)
| Raise (e : exception).
Arguments Return {A} a.
Arguments Raise {A} e.

(** A call runs against the database and leaves a database behind; a raised
    exception leaves the database as the last successful commit left it. *)
Definition Session (A : Type) : Type := Database -> outcome A * Database.

Definition ret {A} (a : A) : Session A := fun db => (Return a, db).

Definition raise {A} (e : exception) : Session A := fun db => (Raise e, db).

Definition bind {A B} (m : Session A) (k : A -> Session B) : Session B :=
  fun db =>
    match m db with
    | (Return a, db') => k a db'
    | (Raise e, db') => (Raise e, db')
    end.

(** A read-only query. *)
Definition query {A} (q : Database -> A) : Session A := fun db => (Return (q db), db).

(** A committed write. *)
Definition commit (w : Database -> Database) : Session unit :=
  fun db => (Return tt, w db).

Declare Scope session_scope.
Delimit Scope session_scope with session.
Notation "x <- m ;; k" := (bind m (fun x => k))
  (at level 61, m at next level, right associativity) : session_scope.
Notation "m ;; k" := (bind m (fun _ => k))
  (at level 61, right associativity) : session_scope.
Local Open Scope session_scope.

(** [if cond: raise e] followed by the rest of the function body. *)
Definition raise_if (cond : bool) (e : exception) : Session unit :=
  if cond then raise e else ret tt.

Definition HTTP_400_BAD_REQUEST : nat := 400.
Definition HTTP_404_NOT_FOUND : nat := 404.
Definition HTTP_409_CONFLICT : nat := 409.

(** What the environment supplies to one call. *)
Record Runtime := mkRuntime
  { (* datetime.now(timezone.utc) as the service reads it *)
    now : Z;
    (* str(uuid.uuid4()), the primary-key default of a row inserted by the call *)
    uuid4 : string;
    (* datetime.now(timezone.utc) as the created_at default reads it at insert *)
    created_now : Z;
    (* what other sessions commit to the shared store after this call's
       duplicate check and before its INSERT; the identity when the call runs
       alone *)
    concurrent : Database -> Database }.

Definition alone (now : Z) (uuid4 : string) (created_now : Z) : Runtime :=
  mkRuntime now uuid4 created_now (fun db => db).

(** ** app/core/config.py and app/core/security.py *)

Record Settings := mkSettings
  { HMAC_SECRET_KEY : string }.

(** The value used when the environment does not override it. *)
Definition default_settings : Settings :=
  mkSettings "change-this-hmac-secret-key-in-production".

(** Generate a deterministic HMAC token for a voter+election pair. *)
Definition generate_vote_token (settings : Settings) (user_id election_id : string) : string :=
  let message := encode (user_id ++ ":" ++ election_id) in
  hashlib.hexdigest (hmac.new (encode (HMAC_SECRET_KEY settings)) message).

(** SHA256 hash a vote token for storage. *)
Definition hash_vote_token (token : string) : string :=
  hashlib.hexdigest (hashlib.sha256 (encode token)).

(** ** Repositories *)

Module UserRepository.

Definition get_by_id (user_id : string) : Session (option User.t) :=
  query (fun db => find (fun u => User.id u =? user_id) (users db)).

End UserRepository.

Module OrganizationRepository.

Definition get_by_id (org_id : string) : Session (option Organization.t) :=
  query (fun db => find (fun o => Organization.id o =? org_id) (organizations db)).

End OrganizationRepository.

(** Python values that reach [setattr] through [**kwargs]. *)
Inductive value :=
| PyNone
| PyStr (s : string)
(* the wall-clock fields of the value: what a DateTime column stores of it *)
| PyDatetime (t : Z).

Definition kwargs : Type := list (string * value).

Module ElectionRepository.

Definition set_status (e : Election.t) (status : string) : Election.t :=
  Election.mk (Election.id e) (Election.organization_id e) (Election.title e)
    (Election.description e) (Election.start_time e) (Election.end_time e)
    status (Election.created_by e) (Election.created_at e).

(** [setattr(election, key, value)] on the mapped columns; the schema types
    the values, so a value of another type than the column's leaves the row
    as it is. *)
Definition setattr (e : Election.t) (key : string) (v : value) : Election.t :=
  let '(Election.mk id org title descr start_ end_ st by_ at_) := e in
  match v with
  | PyNone => e
  | PyStr s =>
      if key =? "id" then Election.mk s org title descr start_ end_ st by_ at_
      else if key =? "organization_id" then Election.mk id s title descr start_ end_ st by_ at_
      else if key =? "title" then Election.mk id org s descr start_ end_ st by_ at_
      else if key =? "description" then Election.mk id org title (Some s) start_ end_ st by_ at_
      else if key =? "status" then Election.mk id org title descr start_ end_ s by_ at_
      else if key =? "created_by" then Election.mk id org title descr start_ end_ st s at_
      else e
  | PyDatetime t =>
      if key =? "start_time" then Election.mk id org title descr t end_ st by_ at_
      else if key =? "end_time" then Election.mk id org title descr start_ t st by_ at_
      else if key =? "created_at" then Election.mk id org title descr start_ end_ st by_ t
      else e
  end.

(** The rows matching the primary key of [target] are rewritten by [f]. *)
Definition update_row (target : Election.t) (f : Election.t -> Election.t)
    (db : Database) : Database :=
  set_elections db
    (map (fun e => if Election.id e =? Election.id target then f e else e) (elections db)).

Definition get_by_id (election_id : string) : Session (option Election.t) :=
  query (fun db => find (fun e => Election.id e =? election_id) (elections db)).

(** Primary key, and foreign keys to organizations and users. *)
Definition violated (db : Database) (e : Election.t) : option string :=
  if existsb (fun x => Election.id x =? Election.id e) (elections db)
  then Some "elections.id"
  else if negb (existsb (fun o => Organization.id o =? Election.organization_id e)
                        (organizations db))
  then Some "elections.organization_id"
  else if negb (existsb (fun u => User.id u =? Election.created_by e) (users db))
  then Some "elections.created_by"
  else None.

(** The DateTime columns store the wall-clock fields of the values they are
    given; an offset is not stored. *)
Definition create (rt : Runtime) (organization_id title : string)
    (description : option string) (start_time end_time : datetime.t) (created_by : string)
    : Session Election.t :=
  fun db =>
    let election := Election.mk (uuid4 rt) organization_id title description
                      (datetime.wall start_time) (datetime.wall end_time)
                      "draft" created_by (created_now rt) in
    match violated db election with
    | Some c => (Raise (IntegrityError c), db)
    | None => (Return election, set_elections db (elections db ++ [election]))
    end.

Definition update (election : Election.t) (kw : kwargs) : Session Election.t :=
  let patch (e : Election.t) :=
    fold_left (fun e kv =>
                 match snd kv with
                 | PyNone => e
                 | v => setattr e (fst kv) v
                 end) kw e in
  commit (update_row election patch) ;;
  ret (patch election).

(** [election.status = status; db.commit(); db.refresh(election)], where
    [election] is the object the session loaded earlier. When the value
    differs from the loaded one the flush emits
    [UPDATE elections SET status = ? WHERE id = ?], with no condition on the
    status the row has by then, and raises [StaleDataError] when no row
    matches; when the value is the loaded one nothing is written. The
    refresh reads the row back. *)
Definition update_status (election : Election.t) (status : string) : Session Election.t :=
  fun db =>
    let stored := find (fun e => Election.id e =? Election.id election) (elections db) in
    if Election.status election =? status
    then match stored with
         | Some row => (Return row, db)
         | None => (Raise InvalidRequestError, db)
         end
    else match stored with
         | Some row =>
             (Return (set_status row status),
              update_row election (fun e => set_status e status) db)
         | None => (Raise StaleDataError, db)
         end.

(** Deleting the row cascades to its candidates and to the votes that
    reference the election or one of those candidates. *)
Definition delete (election : Election.t) : Session unit :=
  commit (fun db =>
    let gone_e (eid : string) := eid =? Election.id election in
    let gone_c (cid : string) :=
      existsb (fun c => (Candidate.id c =? cid) && gone_e (Candidate.election_id c))
              (candidates db) in
    mkDatabase (organizations db) (users db)
      (filter (fun e => negb (gone_e (Election.id e))) (elections db))
      (filter (fun c => negb (gone_e (Candidate.election_id c))) (candidates db))
      (filter (fun v => negb (gone_e (Vote.election_id v) || gone_c (Vote.candidate_id v)))
              (votes db))).

End ElectionRepository.

Module CandidateRepository.

(** Primary key, and the foreign key to elections. *)
Definition violated (db : Database) (c : Candidate.t) : option string :=
  if existsb (fun x => Candidate.id x =? Candidate.id c) (candidates db)
  then Some "candidates.id"
  else if negb (existsb (fun e => Election.id e =? Candidate.election_id c) (elections db))
  then Some "candidates.election_id"
  else None.

Definition create (rt : Runtime) (election_id name : string) (description : option string)
    : Session Candidate.t :=
  fun db =>
    let candidate := Candidate.mk (uuid4 rt) election_id name description (created_now rt) in
    match violated db candidate with
    | Some c => (Raise (IntegrityError c), db)
    | None => (Return candidate, set_candidates db (candidates db ++ [candidate]))
    end.

Definition get_by_id (candidate_id : string) : Session (option Candidate.t) :=
  query (fun db => find (fun c => Candidate.id c =? candidate_id) (candidates db)).

Definition get_by_election (election_id : string) : Session (list Candidate.t) :=
  query (fun db => filter (fun c => Candidate.election_id c =? election_id) (candidates db)).

(** Deleting the row cascades to the votes that reference it. *)
Definition delete (candidate : Candidate.t) : Session unit :=
  commit (fun db =>
    mkDatabase (organizations db) (users db) (elections db)
      (filter (fun c => negb (Candidate.id c =? Candidate.id candidate)) (candidates db))
      (filter (fun v => negb (Vote.candidate_id v =? Candidate.id candidate)) (votes db))).

End CandidateRepository.

Module VoteRepository.

(** Constraints of the votes table: primary key, the unique constraint
    uq_vote_election_token on (election_id, hashed_voter_token), and the
    foreign keys to elections and candidates. *)
Definition violated (db : Database) (v : Vote.t) : option string :=
  if existsb (fun x => Vote.id x =? Vote.id v) (votes db)
  then Some "votes.id"
  else if existsb (fun x => (Vote.election_id x =? Vote.election_id v)
                            && (Vote.hashed_voter_token x =? Vote.hashed_voter_token v))
                  (votes db)
  then Some "uq_vote_election_token"
  else if negb (existsb (fun e => Election.id e =? Vote.election_id v) (elections db))
  then Some "votes.election_id"
  else if negb (existsb (fun c => Candidate.id c =? Vote.candidate_id v) (candidates db))
  then Some "votes.candidate_id"
  else None.

Definition cast_vote (rt : Runtime) (election_id candidate_id hashed_voter_token : string)
    : Session Vote.t :=
  fun db =>
    let vote := Vote.mk (uuid4 rt) election_id candidate_id hashed_voter_token
                  (created_now rt) in
    match violated db vote with
    | Some c => (Raise (IntegrityError c), db)
    | None => (Return vote, set_votes db (votes db ++ [vote]))
    end.

(** Check if a vote with this token already exists for this election. *)
Definition check_duplicate (election_id hashed_voter_token : string) : Session bool :=
  query (fun db =>
    let existing :=
      find (fun v => (Vote.election_id v =? election_id)
                     && (Vote.hashed_voter_token v =? hashed_voter_token))
           (votes db) in
    match existing with Some _ => true | None => false end).

(** A result row: Candidate.id, Candidate.name, count(Vote.id). *)
Definition row : Type := string * string * nat.

Definition vote_count (r : row) : nat := snd r.

(** The joined rows of one candidate: one per vote that references it, or
    one with NULL on the vote side. *)
Definition joined_rows (vs : list Vote.t) (c : Candidate.t)
    : list (Candidate.t * option Vote.t) :=
  match filter (fun v => Vote.candidate_id v =? Candidate.id c) vs with
  | [] => [(c, None)]
  | matches => map (fun v => (c, Some v)) matches
  end.

(** candidates LEFT OUTER JOIN votes ON votes.candidate_id = candidates.id *)
Definition outerjoin (cs : list Candidate.t) (vs : list Vote.t)
    : list (Candidate.t * option Vote.t) :=
  flat_map (joined_rows vs) cs.

Definition key_eqb (k1 k2 : string * string) : bool :=
  (fst k1 =? fst k2) && (snd k1 =? snd k2).

Definition key (c : Candidate.t) : string * string :=
  (Candidate.id c, Candidate.name c).

Definition group_key (r : Candidate.t * option Vote.t) : string * string :=
  key (fst r).

(** The distinct keys, each at its first occurrence. *)
Fixpoint distinct (keys : list (string * string)) : list (string * string) :=
  match keys with
  | [] => []
  | k :: rest => k :: filter (fun k' => negb (key_eqb k k')) (distinct rest)
  end.

(** A joined row counts for count(votes.id) in the group of key [k] when
    it belongs to the group and its vote side is not NULL. *)
Definition counted (k : string * string) (r : Candidate.t * option Vote.t) : bool :=
  key_eqb (group_key r) k && match snd r with Some _ => true | None => false end.

(** GROUP BY candidates.id, candidates.name with count(votes.id) *)
Definition group_by (rows : list (Candidate.t * option Vote.t)) : list row :=
  map (fun k => (k, List.length (filter (counted k) rows)))
      (distinct (map group_key rows)).

Fixpoint insert_desc (r : row) (sorted : list row) : list row :=
  match sorted with
  | [] => [r]
  | x :: rest =>
      if (vote_count x <=? vote_count r)%nat then r :: x :: rest
      else x :: insert_desc r rest
  end.

(** ORDER BY count(votes.id) DESC. The statement names no further sort key:
    rows with equal counts stay in the order in which they reach the sort. *)
Definition order_by_count_desc (rows : list row) : list row :=
  fold_right insert_desc [] rows.

(** Get vote counts per candidate for an election. [scan] is the order in
    which the storage engine hands the groups to the final sort; SQL leaves
    it to the engine. *)
Definition get_results (scan : list row -> list row) (election_id : string)
    : Session (list row) :=
  query (fun db =>
    let joined :=
      filter (fun r => Candidate.election_id (fst r) =? election_id)
             (outerjoin (candidates db) (votes db)) in
    order_by_count_desc (scan (group_by joined))).

Definition get_total_votes (election_id : string) : Session nat :=
  query (fun db => List.length (filter (fun v => Vote.election_id v =? election_id) (votes db))).

End VoteRepository.

(** ** app/schemas/vote_schema.py *)

Module VoteConfirmation.
Record t := mk { message : string; election_id : string; voted_at : Z }.
End VoteConfirmation.

Module CandidateResult.
Record t := mk { candidate_id : string; candidate_name : string; vote_count : nat }.
End CandidateResult.

Module ElectionResults.
Record t := mk
  { election_id : string;
    title : string;
    status : string;
    total_votes : nat;
    results : list CandidateResult.t }.
End ElectionResults.

Module VoteStatusResponse.
Record t := mk { election_id : string; has_voted : bool }.
End VoteStatusResponse.

(** ** app/services/vote_service.py *)

Module VoteService.

Section WithSettings.

Variable settings : Settings.

(** Cast a vote with full validation. *)
Definition cast_vote (rt : Runtime) (user_id election_id candidate_id : string)
    : Session VoteConfirmation.t :=
  (* 1. Election exists? *)
  election <- ElectionRepository.get_by_id election_id ;;
  match election with
  | None => raise (HTTPException HTTP_404_NOT_FOUND "Election not found")
  | Some election =>
      (* 2. Election status check *)
      raise_if (negb (Election.status election =? "active"))
        (HTTPException HTTP_400_BAD_REQUEST
           ("Election is not active (current status: " ++ Election.status election ++ ")")) ;;
      (* 3. Time window check *)
      raise_if (now rt <? Election.start_time election)%Z
        (HTTPException HTTP_400_BAD_REQUEST "Election has not started yet") ;;
      raise_if (now rt >? Election.end_time election)%Z
        (HTTPException HTTP_400_BAD_REQUEST "Election has ended") ;;
      (* 5. Candidate belongs to election? *)
      candidate <- CandidateRepository.get_by_id candidate_id ;;
      raise_if (match candidate with
                | None => true
                | Some c => negb (Candidate.election_id c =? election_id)
                end)
        (HTTPException HTTP_400_BAD_REQUEST "Invalid candidate for this election") ;;
      (* 6. Determine identifier for anonymous token *)
      user <- UserRepository.get_by_id user_id ;;
      let identifier :=
        match user with
        | Some u =>
            match User.emp_id u with
            | Some emp_id => if emp_id =? "" then user_id else emp_id
            | None => user_id
            end
        | None => user_id
        end in
      (* 7. Generate anonymous vote token *)
      let vote_token := generate_vote_token settings identifier election_id in
      let hashed_token := hash_vote_token vote_token in
      (* 7. Duplicate check (backend validation) *)
      duplicate <- VoteRepository.check_duplicate election_id hashed_token ;;
      raise_if duplicate
        (HTTPException HTTP_409_CONFLICT "You have already voted in this election") ;;
      (* commits of other sessions that land before the INSERT below *)
      commit (concurrent rt) ;;
      (* 8. Cast the anonymous vote *)
      vote <- VoteRepository.cast_vote rt election_id candidate_id hashed_token ;;
      ret (VoteConfirmation.mk "Vote cast successfully" election_id (Vote.created_at vote))
  end.

(** Get election results, only available for closed elections. *)
Definition get_results (scan : list VoteRepository.row -> list VoteRepository.row)
    (election_id : string) : Session ElectionResults.t :=
  election <- ElectionRepository.get_by_id election_id ;;
  match election with
  | None => raise (HTTPException HTTP_404_NOT_FOUND "Election not found")
  | Some election =>
      raise_if (negb (Election.status election =? "closed"))
        (HTTPException HTTP_400_BAD_REQUEST
           "Results are only available after the election is closed") ;;
      results <- VoteRepository.get_results scan election_id ;;
      total_votes <- VoteRepository.get_total_votes election_id ;;
      ret (ElectionResults.mk election_id (Election.title election)
             (Election.status election) total_votes
             (map (fun r => CandidateResult.mk (fst (fst r)) (snd (fst r)) (snd r)) results))
  end.

(** Check if a user has already voted in an election. *)
Definition check_vote_status (user_id election_id : string) : Session VoteStatusResponse.t :=
  user <- UserRepository.get_by_id user_id ;;
  let identifier :=
    match user with
    | Some u =>
        match User.emp_id u with
        | Some emp_id => if emp_id =? "" then user_id else emp_id
        | None => user_id
        end
    | None => user_id
    end in
  let vote_token := generate_vote_token settings identifier election_id in
  let hashed_token := hash_vote_token vote_token in
  has_voted <- VoteRepository.check_duplicate election_id hashed_token ;;
  ret (VoteStatusResponse.mk election_id has_voted).

End WithSettings.

End VoteService.

(** ** app/schemas/election_schema.py *)

(** A field of an update request is unset ([None]), set to null
    ([Some None]) or set to a value. *)
Module ElectionUpdate.
Record t := mk
  { title : option (option string);
    description : option (option string);
    start_time : option (option Z);
    end_time : option (option Z) }.

Definition dump_str (key : string) (field : option (option string)) : kwargs :=
  match field with
  | None => []
  | Some None => [(key, PyNone)]
  | Some (Some s) => [(key, PyStr s)]
  end.

Definition dump_datetime (key : string) (field : option (option Z)) : kwargs :=
  match field with
  | None => []
  | Some None => [(key, PyNone)]
  | Some (Some t) => [(key, PyDatetime t)]
  end.

(** [data.model_dump(exclude_unset=True)] *)
Definition model_dump (data : t) : kwargs :=
  (dump_str "title" (title data) ++ dump_str "description" (description data)
   ++ dump_datetime "start_time" (start_time data)
   ++ dump_datetime "end_time" (end_time data))%list.
End ElectionUpdate.

(** ** app/services/election_service.py *)

Module ElectionService.

Definition create_election (rt : Runtime) (organization_id title : string)
    (description : option string) (start_time end_time : datetime.t) (created_by : string)
    : Session Election.t :=
  org <- OrganizationRepository.get_by_id organization_id ;;
  match org with
  | None => raise (HTTPException HTTP_404_NOT_FOUND "Organization not found")
  | Some _ =>
      (* if end_time <= start_time *)
      match datetime.le end_time start_time with
      | None => raise TypeError
      | Some not_after =>
          raise_if not_after
            (HTTPException HTTP_400_BAD_REQUEST "End time must be after start time") ;;
          ElectionRepository.create rt organization_id title description
            start_time end_time created_by
      end
  end.

Definition update_election (election_id : string) (kw : kwargs) : Session Election.t :=
  election <- ElectionRepository.get_by_id election_id ;;
  match election with
  | None => raise (HTTPException HTTP_404_NOT_FOUND "Election not found")
  | Some election =>
      raise_if (negb (Election.status election =? "draft"))
        (HTTPException HTTP_400_BAD_REQUEST "Can only update elections in draft status") ;;
      ElectionRepository.update election kw
  end.

(** [activate_election] among other sessions: [concurrent] is what they
    commit after the call has read the election and its candidates and
    before its UPDATE. *)
Definition activate_election_among (concurrent : Database -> Database)
    (election_id : string) : Session Election.t :=
  election <- ElectionRepository.get_by_id election_id ;;
  match election with
  | None => raise (HTTPException HTTP_404_NOT_FOUND "Election not found")
  | Some election =>
      raise_if (negb (Election.status election =? "draft"))
        (HTTPException HTTP_400_BAD_REQUEST "Can only activate elections in draft status") ;;
      candidates <- CandidateRepository.get_by_election election_id ;;
      raise_if (List.length candidates <? 2)%nat
        (HTTPException HTTP_400_BAD_REQUEST
           "Election must have at least 2 candidates to activate") ;;
      (* commits of other sessions that land before the UPDATE below *)
      commit concurrent ;;
      ElectionRepository.update_status election "active"
  end.

(** The call served alone. *)
Definition activate_election (election_id : string) : Session Election.t :=
  activate_election_among (fun db => db) election_id.

(** [close_election] among other sessions, as [activate_election_among]. *)
Definition close_election_among (concurrent : Database -> Database)
    (election_id : string) : Session Election.t :=
  election <- ElectionRepository.get_by_id election_id ;;
  match election with
  | None => raise (HTTPException HTTP_404_NOT_FOUND "Election not found")
  | Some election =>
      raise_if (negb (Election.status election =? "active"))
        (HTTPException HTTP_400_BAD_REQUEST "Can only close active elections") ;;
      (* commits of other sessions that land before the UPDATE below *)
      commit concurrent ;;
      ElectionRepository.update_status election "closed"
  end.

(** The call served alone. *)
Definition close_election (election_id : string) : Session Election.t :=
  close_election_among (fun db => db) election_id.

Definition delete_election (election_id : string) : Session string :=
  election <- ElectionRepository.get_by_id election_id ;;
  match election with
  | None => raise (HTTPException HTTP_404_NOT_FOUND "Election not found")
  | Some election =>
      (* only closed elections may be removed *)
      raise_if (negb (Election.status election =? "closed"))
        (HTTPException HTTP_400_BAD_REQUEST "Only closed elections can be deleted") ;;
      ElectionRepository.delete election ;;
      ret "Election deleted"
  end.

Definition add_candidate (rt : Runtime) (election_id name : string)
    (description : option string) : Session Candidate.t :=
  election <- ElectionRepository.get_by_id election_id ;;
  match election with
  | None => raise (HTTPException HTTP_404_NOT_FOUND "Election not found")
  | Some election =>
      raise_if (negb (Election.status election =? "draft"))
        (HTTPException HTTP_400_BAD_REQUEST "Can only add candidates to draft elections") ;;
      CandidateRepository.create rt election_id name description
  end.

Definition delete_candidate (candidate_id : string) : Session string :=
  candidate <- CandidateRepository.get_by_id candidate_id ;;
  match candidate with
  | None => raise (HTTPException HTTP_404_NOT_FOUND "Candidate not found")
  | Some candidate =>
      election <- ElectionRepository.get_by_id (Candidate.election_id candidate) ;;
      raise_if (match election with
                | Some e => negb (Election.status e =? "draft")
                | None => false
                end)
        (HTTPException HTTP_400_BAD_REQUEST
           "Can only remove candidates from draft elections") ;;
      CandidateRepository.delete candidate ;;
      ret "Candidate removed"
  end.

End ElectionService.

(** ** The operations of the API (app/api/election_routes.py, vote_routes.py)

    Every route that reaches the election, candidate or vote tables, with
    the arguments the route passes to the service. *)

Inductive operation :=
| op_create_election (rt : Runtime) (organization_id title : string)
    (description : option string) (start_time end_time : datetime.t) (created_by : string)
| op_update_election (election_id : string) (data : ElectionUpdate.t)
| op_activate_election (election_id : string)
| op_close_election (election_id : string)
| op_delete_election (election_id : string)
| op_add_candidate (rt : Runtime) (election_id name : string) (description : option string)
| op_remove_candidate (candidate_id : string)
| op_cast_vote (rt : Runtime) (user_id election_id candidate_id : string)
| op_get_results (scan : list VoteRepository.row -> list VoteRepository.row)
    (election_id : string)
| op_check_vote_status (user_id election_id : string).

(** The database an operation leaves behind when the operations run one
    after the other. *)
Definition exec (settings : Settings) (op : operation) (db : Database) : Database :=
  match op with
  | op_create_election rt o t d s e c =>
      snd (ElectionService.create_election rt o t d s e c db)
  | op_update_election eid data =>
      snd (ElectionService.update_election eid (ElectionUpdate.model_dump data) db)
  | op_activate_election eid => snd (ElectionService.activate_election eid db)
  | op_close_election eid => snd (ElectionService.close_election eid db)
  | op_delete_election eid => snd (ElectionService.delete_election eid db)
  | op_add_candidate rt eid n d => snd (ElectionService.add_candidate rt eid n d db)
  | op_remove_candidate cid => snd (ElectionService.delete_candidate cid db)
  | op_cast_vote rt uid eid cid =>
      snd (VoteService.cast_vote settings (alone (now rt) (uuid4 rt) (created_now rt))
             uid eid cid db)
  | op_get_results scan eid => snd (VoteService.get_results scan eid db)
  | op_check_vote_status uid eid => snd (VoteService.check_vote_status settings uid eid db)
  end.

Definition run (settings : Settings) (ops : list operation) (db : Database) : Database :=
  fold_left (fun db op => exec settings op db) ops db.

(** ** Vocabulary of the specification *)

(** The identifier-selection policy of the specification (data model,
    VoterIdentity): the employee identifier when the user has one, the
    account identifier otherwise. An empty employee identifier counts as
    none, as in the registration service. *)
Definition voter_identifier (db : Database) (user_id : string) : string :=
  match find (fun u => User.id u =? user_id) (users db) with
  | Some u =>
      match User.emp_id u with
      | Some emp_id => if emp_id =? "" then user_id else emp_id
      | None => user_id
      end
  | None => user_id
  end.

(** hashedToken = Hash(KeyedHash(secretKey, voterIdentifier || ":" || electionId)) *)
Definition hashed_token_of (settings : Settings) (identifier election_id : string) : string :=
  hash_vote_token (generate_vote_token settings identifier election_id).

(** Ledger membership: a vote row of the election carries the hashed token. *)
Definition recorded (db : Database) (election_id hashed_token : string) : bool :=
  existsb (fun v => (Vote.election_id v =? election_id)
                    && (Vote.hashed_voter_token v =? hashed_token))
          (votes db).

Definition lookup_election (db : Database) (election_id : string) : option Election.t :=
  find (fun e => Election.id e =? election_id) (elections db).

Definition lookup_candidate (db : Database) (candidate_id : string) : option Candidate.t :=
  find (fun c => Candidate.id c =? candidate_id) (candidates db).

Definition lookup_user (db : Database) (user_id : string) : option User.t :=
  find (fun u => User.id u =? user_id) (users db).

(** The error taxonomy of the specification, as the services raise it. *)
Definition NotFound (e : exception) : Prop :=
  exists detail, e = HTTPException HTTP_404_NOT_FOUND detail.

Definition InvalidCandidate : exception :=
  HTTPException HTTP_400_BAD_REQUEST "Invalid candidate for this election".

Definition DuplicateVote : exception :=
  HTTPException HTTP_409_CONFLICT "You have already voted in this election".

(** The election is open for voting at the call's clock reading and the
    candidate stands in it: the call reaches token computation. *)
Definition ballot_accepted (rt : Runtime) (election_id candidate_id : string)
    (db : Database) : Prop :=
  exists election candidate,
    lookup_election db election_id = Some election
    /\ Election.status election = "active"
    /\ (Election.start_time election <= now rt <= Election.end_time election)%Z
    /\ lookup_candidate db candidate_id = Some candidate
    /\ Candidate.election_id candidate = election_id.

(** The number of votes a candidate received. *)
Definition votes_for (db : Database) (candidate_id : string) : nat :=
  List.length (filter (fun v => Vote.candidate_id v =? candidate_id) (votes db)).

(** The candidates of an election, in creation order. *)
Definition candidates_of (db : Database) (election_id : string) : list Candidate.t :=
  filter (fun c => Candidate.election_id c =? election_id) (candidates db).


(** Step 8 of [cast_vote] and its return value: the insert of the vote row
    and the confirmation built from it. *)
Definition insert_and_confirm (rt : Runtime) (election_id candidate_id hashed_token : string)
    (shared : Database) : outcome VoteConfirmation.t * Database :=
  match VoteRepository.cast_vote rt election_id candidate_id hashed_token shared with
  | (Return vote, db') =>
      (Return (VoteConfirmation.mk "Vote cast successfully" election_id
                 (Vote.created_at vote)), db')
  | (Raise e, db') => (Raise e, db')
  end.

(** The database with one more user row, in front of the others. *)
Definition with_user (u : User.t) (db : Database) : Database :=
  mkDatabase (organizations db) (u :: users db) (elections db) (candidates db) (votes db).

(** The entry of the tally for a candidate. *)
Definition tally_entry (db : Database) (c : Candidate.t) : CandidateResult.t :=
  CandidateResult.mk (Candidate.id c) (Candidate.name c) (votes_for db (Candidate.id c)).



(** The status of an election, if the row exists. *)
Definition status_of (db : Database) (election_id : string) : option string :=
  option_map Election.status (lookup_election db election_id).




(** Lowercase hexadecimal digits, and strings made of them. *)
Definition lower_hex (c : ascii) : bool :=
  existsb (Ascii.eqb c) (list_ascii_of_string "0123456789abcdef").

Fixpoint all_chars (p : ascii -> bool) (s : string) : bool :=
  match s with
  | EmptyString => true
  | String c rest => p c && all_chars p rest
  end.

(** ** A small organization, used to run the services on concrete data *)

Module Sample.

Definition user (id : string) (emp_id : option string) : User.t :=
  User.mk id (id ++ "@example.org") emp_id "$2b$12$hash" None true 0.

Definition election (id status : string) (start_time end_time : Z) : Election.t :=
  Election.mk id "o1" ("Board " ++ id) None start_time end_time status "u1" 0.

Definition candidate (id election_id : string) (created_at : Z) : Candidate.t :=
  Candidate.mk id election_id ("Candidate " ++ id) None created_at.

(** Account u1 has the employee identifier E42, u2 has E43, u3 none, u4
    an empty one. Election e1 is active from 100 to 200 with candidates c1
    and c2, e2 is a draft with the single candidate c9, e3 is closed with
    candidates c5 and c4 (created in that order). *)
Definition db : Database :=
  mkDatabase
    [ Organization.mk "o1" "Org" None "u1" 0 ]
    [ user "u1" (Some "E42"); user "u2" (Some "E43"); user "u3" None; user "u4" (Some "") ]
    [ election "e1" "active" 100 200; election "e2" "draft" 100 200;
      election "e3" "closed" 100 200 ]
    [ candidate "c1" "e1" 1; candidate "c2" "e1" 2; candidate "c9" "e2" 3;
      candidate "c5" "e3" 4; candidate "c4" "e3" 5 ]
    [].

Definition settings : Settings := default_settings.

(** The ledger after u1 voted for c1 in e1 at time 150. *)
Definition db_after_u1 : Database :=
  snd (VoteService.cast_vote settings (alone 150 "v1" 151) "u1" "e1" "c1" db).

(** A second request of the same account u1 whose INSERT is overtaken by
    the first request of u1, which commits in between. *)
Definition racing : Runtime :=
  mkRuntime 150 "v2" 152
    (fun shared => snd (VoteService.cast_vote settings (alone 150 "v1" 151)
                          "u1" "e1" "c1" shared)).

(** The same organization with a users table in which a second account, u5,
    carries the employee identifier of u1, after u1 voted for c1 in e1. *)
Definition two_accounts : Database :=
  with_user (user "u5" (Some "E42")) db_after_u1.

(** The closed election e3 with one vote for each of its candidates. *)
Definition db_closed : Database :=
  set_votes db
    [ Vote.mk "v1" "e3" "c5" "aa" 160; Vote.mk "v2" "e3" "c4" "bb" 161 ].

End Sample.

(** ** Two sessions on one election *)

Module Overlap.

(** The organization of [Sample] after the draft e2 got a second candidate. *)
Definition db : Database :=
  snd (ElectionService.add_candidate (alone 10 "c8" 10) "e2" "Second" None Sample.db).

(** What another session commits: it activates e2 and closes it. *)
Definition other (shared : Database) : Database :=
  run Sample.settings [op_activate_election "e2"; op_close_election "e2"] shared.

End Overlap.

(** ** Organizations (app/repositories/organization_repository.py,
    app/services/organization_service.py) and the read side of the
    election service *)

Definition HTTP_403_FORBIDDEN : nat := 403.

Definition set_organizations (db : Database) (os : list Organization.t) : Database :=
  mkDatabase os (users db) (elections db) (candidates db) (votes db).

Module Organizations.

Module OrganizationRepository.

(** Primary key, and the foreign key to users. *)
Definition violated (db : Database) (o : Organization.t) : option string :=
  if existsb (fun x => Organization.id x =? Organization.id o) (organizations db)
  then Some "organizations.id"
  else if negb (existsb (fun u => User.id u =? Organization.created_by o) (users db))
  then Some "organizations.created_by"
  else None.

Definition create (rt : Runtime) (name : string) (description : option string)
    (created_by : string) : Session Organization.t :=
  fun db =>
    let org := Organization.mk (uuid4 rt) name description created_by (created_now rt) in
    match violated db org with
    | Some c => (Raise (IntegrityError c), db)
    | None => (Return org, set_organizations db (organizations db ++ [org]))
    end.

Definition get_by_id (org_id : string) : Session (option Organization.t) :=
  query (fun db => find (fun o => Organization.id o =? org_id) (organizations db)).

Definition get_by_creator (user_id : string) : Session (list Organization.t) :=
  query (fun db => filter (fun o => Organization.created_by o =? user_id) (organizations db)).

(** Deleting the row cascades to the elections of the organization, to
    their candidates, and to the votes that reference one of these
    elections or candidates. *)
Definition delete (org : Organization.t) : Session unit :=
  commit (fun db =>
    let gone_e (eid : string) :=
      existsb (fun e => (Election.id e =? eid)
                        && (Election.organization_id e =? Organization.id org))
              (elections db) in
    let gone_c (cid : string) :=
      existsb (fun c => (Candidate.id c =? cid) && gone_e (Candidate.election_id c))
              (candidates db) in
    mkDatabase
      (filter (fun o => negb (Organization.id o =? Organization.id org)) (organizations db))
      (users db)
      (filter (fun e => negb (Election.organization_id e =? Organization.id org))
              (elections db))
      (filter (fun c => negb (gone_e (Candidate.election_id c))) (candidates db))
      (filter (fun v => negb (gone_e (Vote.election_id v) || gone_c (Vote.candidate_id v)))
              (votes db))).

End OrganizationRepository.

Module OrganizationService.

Definition create_organization (rt : Runtime) (name : string) (description : option string)
    (created_by : string) : Session Organization.t :=
  OrganizationRepository.create rt name description created_by.

Definition get_organization (org_id : string) : Session Organization.t :=
  org <- OrganizationRepository.get_by_id org_id ;;
  match org with
  | None => raise (HTTPException HTTP_404_NOT_FOUND "Organization not found")
  | Some org => ret org
  end.

Definition get_my_organizations (user_id : string) : Session (list Organization.t) :=
  OrganizationRepository.get_by_creator user_id.

Definition delete_organization (org_id user_id : string) : Session string :=
  org <- OrganizationRepository.get_by_id org_id ;;
  match org with
  | None => raise (HTTPException HTTP_404_NOT_FOUND "Organization not found")
  | Some org =>
      raise_if (negb (Organization.created_by org =? user_id))
        (HTTPException HTTP_403_FORBIDDEN "Only the organization creator can delete it") ;;
      OrganizationRepository.delete org ;;
      ret "Organization deleted"
  end.

End OrganizationService.

End Organizations.

Module Elections.

Module ElectionService.

Definition get_election (election_id : string) : Session Election.t :=
  election <- ElectionRepository.get_by_id election_id ;;
  match election with
  | None => raise (HTTPException HTTP_404_NOT_FOUND "Election not found")
  | Some election => ret election
  end.

Definition get_candidates (election_id : string) : Session (list Candidate.t) :=
  CandidateRepository.get_by_election election_id.

End ElectionService.

End Elections.

(** ** Requests: the operations of the API together with the organization
    routes that write *)

Inductive request :=
| on_elections (op : operation)
| create_organization (rt : Runtime) (name : string) (description : option string)
    (created_by : string)
| delete_organization (org_id user_id : string).

Definition serve (settings : Settings) (r : request) (db : Database) : Database :=
  match r with
  | on_elections op => exec settings op db
  | create_organization rt n d u =>
      snd (Organizations.OrganizationService.create_organization rt n d u db)
  | delete_organization oid uid =>
      snd (Organizations.OrganizationService.delete_organization oid uid db)
  end.

(** ** Integrity of the database *)

(** The columns of the unique constraint uq_vote_election_token. *)
Definition ledger_key (v : Vote.t) : string * string :=
  (Vote.election_id v, Vote.hashed_voter_token v).

(** What the schema declares: primary keys, the unique constraint of the
    votes table, and the foreign keys between the tables. *)
Record integrity (db : Database) : Prop := mk_integrity
  { organization_ids : NoDup (map Organization.id (organizations db));
    election_ids : NoDup (map Election.id (elections db));
    candidate_ids : NoDup (map Candidate.id (candidates db));
    vote_ids : NoDup (map Vote.id (votes db));
    one_vote_per_token : NoDup (map ledger_key (votes db));
    election_organization :
      forall e, In e (elections db) ->
        In (Election.organization_id e) (map Organization.id (organizations db));
    candidate_election :
      forall c, In c (candidates db) ->
        In (Candidate.election_id c) (map Election.id (elections db));
    vote_election :
      forall v, In v (votes db) ->
        In (Vote.election_id v) (map Election.id (elections db));
    vote_candidate :
      forall v, In v (votes db) ->
        In (Vote.candidate_id v) (map Candidate.id (candidates db)) }.

(** Every vote is for a candidate of the election it was cast in. *)
Definition ballots_consistent (db : Database) : Prop :=
  forall v, In v (votes db) ->
    exists c, In c (candidates db)
              /\ Candidate.id c = Vote.candidate_id v
              /\ Candidate.election_id c = Vote.election_id v.

(** Every active election has at least two candidates. *)
Definition contested (db : Database) : Prop :=
  forall e, In e (elections db) -> Election.status e = "active" ->
    (2 <= List.length (candidates_of db (Election.id e)))%nat.

(** The ways a request changes the database. *)
Inductive effect (db : Database) : Database -> Prop :=
| unchanged : effect db db
| elections_rewritten (f : Election.t -> Election.t) :
    (forall e, Election.id (f e) = Election.id e
               /\ Election.organization_id (f e) = Election.organization_id e) ->
    effect db (set_elections db (map f (elections db)))
| organization_inserted (o : Organization.t) :
    Organizations.OrganizationRepository.violated db o = None ->
    effect db (set_organizations db (organizations db ++ [o]))
| election_inserted (e : Election.t) :
    ElectionRepository.violated db e = None ->
    effect db (set_elections db (elections db ++ [e]))
| candidate_inserted (c : Candidate.t) :
    CandidateRepository.violated db c = None ->
    effect db (set_candidates db (candidates db ++ [c]))
| vote_inserted (v : Vote.t) :
    VoteRepository.violated db v = None ->
    effect db (set_votes db (votes db ++ [v]))
| rows_deleted (keep_o : Organization.t -> bool) (keep_e : Election.t -> bool)
    (keep_c : Candidate.t -> bool) (keep_v : Vote.t -> bool) :
    (forall e o, In e (elections db) -> keep_e e = true -> In o (organizations db) ->
                 Organization.id o = Election.organization_id e -> keep_o o = true) ->
    (forall c e, In c (candidates db) -> keep_c c = true -> In e (elections db) ->
                 Election.id e = Candidate.election_id c -> keep_e e = true) ->
    (forall v e, In v (votes db) -> keep_v v = true -> In e (elections db) ->
                 Election.id e = Vote.election_id v -> keep_e e = true) ->
    (forall v c, In v (votes db) -> keep_v v = true -> In c (candidates db) ->
                 Candidate.id c = Vote.candidate_id v -> keep_c c = true) ->
    effect db (mkDatabase (filter keep_o (organizations db)) (users db)
                 (filter keep_e (elections db)) (filter keep_c (candidates db))
                 (filter keep_v (votes db))).

(** The database after a sequence of requests, served one after the other. *)
Definition serve_all (settings : Settings) (rs : list request) (db : Database) : Database :=
  fold_left (fun db r => serve settings r db) rs db.


(** The number of vote rows of an election. *)
Definition votes_in (db : Database) (election_id : string) : nat :=
  List.length (filter (fun v => Vote.election_id v =? election_id) (votes db)).

(** No vote row belongs to an election that is still a draft. *)
Definition drafts_empty (db : Database) : Prop :=
  forall v e, In v (votes db) ->
    lookup_election db (Vote.election_id v) = Some e -> Election.status e <> "draft".

(** What a served request writes, with the guard of the service that lets
    the write through. *)
Inductive transition (db : Database) : Database -> Prop :=
| nothing_written : transition db db
| election_created (e : Election.t) :
    Election.status e = "draft" ->
    ElectionRepository.violated db e = None ->
    transition db (set_elections db (elections db ++ [e]))
| election_edited (target : Election.t) (f : Election.t -> Election.t) :
    lookup_election db (Election.id target) = Some target ->
    Election.status target = "draft" ->
    (forall e, Election.id (f e) = Election.id e
               /\ Election.status (f e) = Election.status e) ->
    transition db (ElectionRepository.update_row target f db)
| election_activated (target : Election.t) :
    lookup_election db (Election.id target) = Some target ->
    Election.status target = "draft" ->
    (2 <= List.length (candidates_of db (Election.id target)))%nat ->
    transition db
      (ElectionRepository.update_row target
         (fun x => ElectionRepository.set_status x "active") db)
| election_closed (target : Election.t) :
    lookup_election db (Election.id target) = Some target ->
    Election.status target = "active" ->
    transition db
      (ElectionRepository.update_row target
         (fun x => ElectionRepository.set_status x "closed") db)
| election_deleted (target : Election.t) :
    lookup_election db (Election.id target) = Some target ->
    Election.status target = "closed" ->
    transition db (snd (ElectionRepository.delete target db))
| candidate_added (e : Election.t) (c : Candidate.t) :
    lookup_election db (Candidate.election_id c) = Some e ->
    Election.status e = "draft" ->
    CandidateRepository.violated db c = None ->
    transition db (set_candidates db (candidates db ++ [c]))
| candidate_removed (c : Candidate.t) :
    lookup_candidate db (Candidate.id c) = Some c ->
    (forall e, lookup_election db (Candidate.election_id c) = Some e ->
               Election.status e = "draft") ->
    transition db (snd (CandidateRepository.delete c db))
| vote_cast (v : Vote.t) (e : Election.t) (c : Candidate.t) :
    lookup_election db (Vote.election_id v) = Some e ->
    Election.status e = "active" ->
    lookup_candidate db (Vote.candidate_id v) = Some c ->
    Candidate.election_id c = Vote.election_id v ->
    VoteRepository.violated db v = None ->
    transition db (set_votes db (votes db ++ [v]))
| organization_created (o : Organization.t) :
    Organizations.OrganizationRepository.violated db o = None ->
    transition db (set_organizations db (organizations db ++ [o]))
| organization_deleted (o : Organization.t) :
    transition db (snd (Organizations.OrganizationRepository.delete o db)).

(** * Properties *)

(** ** The hash functions agree with the published test vectors *)

Example sha256_abc :
  hashlib.hexdigest (hashlib.sha256 (encode "abc"))
  = "ba7816bf8f01cfea414140de5dae2223b00361a396177a9cb410ff61f20015ad".
Proof. vm_compute. reflexivity. Qed.

Example sha256_empty :
  hashlib.hexdigest (hashlib.sha256 (encode ""))
  = "e3b0c44298fc1c149afbf4c8996fb92427ae41e4649b934ca495991b7852b855".
Proof. vm_compute. reflexivity. Qed.

Example sha256_two_blocks :
  hashlib.hexdigest (hashlib.sha256 (repeat 97%Z 70))
  = "6bd5e5034855a11241f0dee8fc72850ffd9955b28347a86428b5fa19119f6ad0".
Proof. vm_compute. reflexivity. Qed.

Example hmac_rfc4231_case2 :
  hashlib.hexdigest (hmac.new (encode "Jefe") (encode "what do ya want for nothing?"))
  = "5bdcc146bf60754e6a042426089575c75a003f089d2739839dec58b964ec3843".
Proof. vm_compute. reflexivity. Qed.

Example hmac_long_key :
  hashlib.hexdigest (hmac.new (repeat 107%Z 70) (encode "u1:e1"))
  = "4edb1223a8a8bf6b0b4c8f9db9db9ec44a9c487eb221daac8f0749ea3fbfdade".
Proof. vm_compute. reflexivity. Qed.

Example token_of_E42_in_e1 :
  generate_vote_token default_settings "E42" "e1"
  = "3681869292e0e1fcb885decb4c2995e260e95bd33422e08842898cbe6185dc0b".
Proof. vm_compute. reflexivity. Qed.

(** ** Shape of a hexadecimal digest *)

Lemma hexdigest_length (s : hashlib.state) :
  String.length (hashlib.hexdigest s) = 64%nat.
Proof. destruct s; reflexivity. Qed.

Lemma hex_digit_lower_hex (n : Z) : lower_hex (hashlib.hex_digit n) = true.
Proof.
  destruct n as [|p|p]; try reflexivity.
  do 4 (try destruct p as [p|p|]; try reflexivity).
Qed.

Lemma hex_bytes_lower_hex (bs : list Z) :
  all_chars lower_hex (fold_right hashlib.hex_byte EmptyString bs) = true.
Proof.
  induction bs as [|b bs IH]; [reflexivity|].
  cbn [fold_right]. unfold hashlib.hex_byte at 1. cbn [all_chars].
  now rewrite !hex_digit_lower_hex, IH.
Qed.

Lemma hexdigest_lower_hex (s : hashlib.state) :
  all_chars lower_hex (hashlib.hexdigest s) = true.
Proof. apply hex_bytes_lower_hex. Qed.

(** ** Running the steps of a session *)

Lemma find_existsb {A} (p : A -> bool) (l : list A) :
  match find p l with Some _ => true | None => false end = existsb p l.
Proof.
  induction l as [|x l IH]; cbn; [reflexivity|].
  destruct (p x); [reflexivity | exact IH].
Qed.

Lemma check_duplicate_recorded (election_id h : string) (db : Database) :
  VoteRepository.check_duplicate election_id h db = (Return (recorded db election_id h), db).
Proof.
  unfold VoteRepository.check_duplicate, query, recorded.
  now rewrite find_existsb.
Qed.

(** The hash functions are kept folded while the control flow is unfolded. *)
Local Opaque generate_vote_token hash_vote_token.

(** [cast_vote] as a decision list over the database it is called on. *)
Lemma cast_vote_unfold settings rt user_id election_id candidate_id db :
  VoteService.cast_vote settings rt user_id election_id candidate_id db =
  match lookup_election db election_id with
  | None => (Raise (HTTPException HTTP_404_NOT_FOUND "Election not found"), db)
  | Some election =>
      if negb (Election.status election =? "active")
      then (Raise (HTTPException HTTP_400_BAD_REQUEST
                     ("Election is not active (current status: "
                      ++ Election.status election ++ ")")), db)
      else if (now rt <? Election.start_time election)%Z
      then (Raise (HTTPException HTTP_400_BAD_REQUEST "Election has not started yet"), db)
      else if (now rt >? Election.end_time election)%Z
      then (Raise (HTTPException HTTP_400_BAD_REQUEST "Election has ended"), db)
      else if match lookup_candidate db candidate_id with
              | None => true
              | Some c => negb (Candidate.election_id c =? election_id)
              end
      then (Raise InvalidCandidate, db)
      else
        let h := hashed_token_of settings (voter_identifier db user_id) election_id in
        if recorded db election_id h
        then (Raise DuplicateVote, db)
        else insert_and_confirm rt election_id candidate_id h (concurrent rt db)
  end.
Proof.
  unfold VoteService.cast_vote, lookup_election, lookup_candidate.
  unfold bind at 1. unfold ElectionRepository.get_by_id at 1. unfold query at 1.
  destruct (find _ (elections db)) as [election|]; [|reflexivity].
  unfold bind, raise_if, raise, ret, commit, CandidateRepository.get_by_id,
    UserRepository.get_by_id, query.
  destruct (negb (Election.status election =? "active")); [reflexivity|].
  destruct (now rt <? Election.start_time election)%Z; [reflexivity|].
  destruct (now rt >? Election.end_time election)%Z; [reflexivity|].
  destruct (match find _ (candidates db) with None => true | Some c => _ end);
    [reflexivity|].
  rewrite check_duplicate_recorded.
  change (hash_vote_token (generate_vote_token settings ?i election_id))
    with (hashed_token_of settings i election_id).
  fold (voter_identifier db user_id).
  cbv zeta.
  destruct (recorded db election_id _); [reflexivity|].
  unfold insert_and_confirm.
  destruct (VoteRepository.cast_vote rt election_id candidate_id _ (concurrent rt db))
    as [[vote|e] db']; reflexivity.
Qed.

Lemma check_vote_status_unfold settings user_id election_id db :
  VoteService.check_vote_status settings user_id election_id db =
  (Return (VoteStatusResponse.mk election_id
             (recorded db election_id
                (hashed_token_of settings (voter_identifier db user_id) election_id))),
   db).
Proof.
  unfold VoteService.check_vote_status, bind, UserRepository.get_by_id, query, ret.
  rewrite check_duplicate_recorded. reflexivity.
Qed.

(** The two outcomes of the insert: the row is appended, or a constraint
    rejects it and the table is left as it was. *)
Lemma insert_and_confirm_cases rt election_id candidate_id h shared :
  let vote := Vote.mk (uuid4 rt) election_id candidate_id h (created_now rt) in
  (VoteRepository.violated shared vote = None
   /\ insert_and_confirm rt election_id candidate_id h shared =
      (Return (VoteConfirmation.mk "Vote cast successfully" election_id (created_now rt)),
       set_votes shared (votes shared ++ [vote])))
  \/ (exists c, VoteRepository.violated shared vote = Some c
      /\ insert_and_confirm rt election_id candidate_id h shared =
         (Raise (IntegrityError c), shared)).
Proof.
  intros vote. unfold insert_and_confirm, VoteRepository.cast_vote. fold vote.
  destruct (VoteRepository.violated shared vote) as [c|].
  - right. exists c. split; reflexivity.
  - left. split; reflexivity.
Qed.

(** A row with the same election and hashed token makes the insert fail. *)
Lemma recorded_violates rt election_id candidate_id h shared :
  recorded shared election_id h = true ->
  exists c, VoteRepository.violated shared
              (Vote.mk (uuid4 rt) election_id candidate_id h (created_now rt)) = Some c.
Proof.
  intros Hrec. unfold VoteRepository.violated. cbn [Vote.id Vote.election_id
    Vote.hashed_voter_token Vote.candidate_id].
  destruct (existsb (fun x => Vote.id x =? uuid4 rt) (votes shared)); [eauto|].
  unfold recorded in Hrec. rewrite Hrec. eauto.
Qed.

(** The last row of the ledger is found by the duplicate check. *)
Lemma recorded_last db election_id h vote rest :
  votes db = (rest ++ [vote])%list ->
  Vote.election_id vote = election_id -> Vote.hashed_voter_token vote = h ->
  recorded db election_id h = true.
Proof.
  intros Hv He Hh. unfold recorded. rewrite Hv, existsb_app. cbn.
  rewrite He, Hh, !String.eqb_refl. cbn. apply orb_true_r.
Qed.

(** When the ballot is accepted, [cast_vote] is the duplicate check followed
    by the insert. *)
Lemma cast_vote_accepted settings rt user_id election_id candidate_id db :
  ballot_accepted rt election_id candidate_id db ->
  VoteService.cast_vote settings rt user_id election_id candidate_id db =
  let h := hashed_token_of settings (voter_identifier db user_id) election_id in
  if recorded db election_id h then (Raise DuplicateVote, db)
  else insert_and_confirm rt election_id candidate_id h (concurrent rt db).
Proof.
  intros (election & candidate & He & Hs & [Hlo Hhi] & Hc & Hb).
  rewrite cast_vote_unfold, He, Hc, Hs, Hb.
  rewrite String.eqb_refl. cbn [negb].
  replace (now rt <? Election.start_time election)%Z with false
    by (symmetry; apply Z.ltb_ge; lia).
  replace (now rt >? Election.end_time election)%Z with false
    by (symmetry; rewrite Z.gtb_ltb; apply Z.ltb_ge; lia).
  rewrite String.eqb_refl. reflexivity.
Qed.

(** ** Duplicate votes (C1) *)

Lemma sample_ballot_accepted (rt : Runtime) (db : Database) :
  (100 <= now rt <= 200)%Z ->
  elections db = elections Sample.db -> candidates db = candidates Sample.db ->
  ballot_accepted rt "e1" "c2" db.
Proof.
  intros Hnow He Hc.
  exists (Sample.election "e1" "active" 100 200), (Sample.candidate "c2" "e1" 2).
  unfold lookup_election, lookup_candidate. rewrite He, Hc.
  repeat split; try reflexivity; cbn; lia.
Qed.

(** The store as the first request of u1 leaves it. *)
Lemma racing_ledger :
  concurrent Sample.racing Sample.db
  = set_votes Sample.db
      [Vote.mk "v1" "e1" "c1" (hashed_token_of Sample.settings "E42" "e1") 151].
Proof. reflexivity. Qed.

Lemma racing_duplicate :
  recorded (concurrent Sample.racing Sample.db) "e1"
    (hashed_token_of Sample.settings (voter_identifier Sample.db "u1") "e1") = true.
Proof.
  rewrite racing_ledger.
  apply (recorded_last _ _ _ (Vote.mk "v1" "e1" "c1"
                                (hashed_token_of Sample.settings "E42" "e1") 151) []);
    reflexivity.
Qed.

Lemma racing_run :
  VoteService.cast_vote Sample.settings Sample.racing "u1" "e1" "c2" Sample.db
  = (Raise (IntegrityError "uq_vote_election_token"), concurrent Sample.racing Sample.db).
Proof.
  assert (Hacc : ballot_accepted Sample.racing "e1" "c2" Sample.db)
    by (apply sample_ballot_accepted; [cbn; lia | reflexivity | reflexivity]).
  pose proof (cast_vote_accepted Sample.settings Sample.racing "u1" "e1" "c2"
                Sample.db Hacc) as Hrun.
  cbv zeta in Hrun. rewrite Hrun.
  change (voter_identifier Sample.db "u1") with "E42".
  change (recorded Sample.db "e1" (hashed_token_of Sample.settings "E42" "e1")) with false.
  cbv iota. rewrite racing_ledger.
  unfold insert_and_confirm, VoteRepository.cast_vote, VoteRepository.violated.
  cbn [votes set_votes existsb Vote.id Vote.election_id Vote.hashed_voter_token
       uuid4 Sample.racing].
  change ("v1" =? "v2") with false. change ("e1" =? "e1") with true.
  rewrite String.eqb_refl. reflexivity.
Qed.

(** C1, as the specification states it, fails. Account u1 sends two
    requests for election e1; the first commits between the duplicate check
    and the INSERT of the second. For the second request the ledger holds
    no row for the token when the check runs and holds one when the INSERT
    runs, and the call ends in the uncaught [IntegrityError] of the unique
    constraint, not in [DuplicateVote]. *)
Lemma insert_violation_is_not_translated :
  let h := hashed_token_of Sample.settings (voter_identifier Sample.db "u1") "e1" in
  let result :=
    VoteService.cast_vote Sample.settings Sample.racing "u1" "e1" "c2" Sample.db in
  recorded Sample.db "e1" h = false
  /\ recorded (concurrent Sample.racing Sample.db) "e1" h = true
  /\ fst result = Raise (IntegrityError "uq_vote_election_token")
  /\ fst result <> Raise DuplicateVote.
Proof.
  cbv zeta. pose proof racing_run as Hrun.
  split; [reflexivity|].
  split; [exact racing_duplicate|].
  rewrite Hrun. split; [reflexivity | discriminate].
Qed.

(** C1, amended. For a ballot that passes the validations: a row with the
    same hashed token for the election that is already there when the
    duplicate check runs gives [DuplicateVote]; a row that appears only
    after the check, before the INSERT, makes the commit fail on a
    constraint of the votes table, the [IntegrityError] reaches the caller
    untranslated, and the call adds no row. *)
Theorem duplicate_at_check_or_at_insert
    settings rt user_id election_id candidate_id db :
  ballot_accepted rt election_id candidate_id db ->
  let h := hashed_token_of settings (voter_identifier db user_id) election_id in
  let result := VoteService.cast_vote settings rt user_id election_id candidate_id db in
  (recorded db election_id h = true -> result = (Raise DuplicateVote, db))
  /\ (recorded db election_id h = false ->
      recorded (concurrent rt db) election_id h = true ->
      exists c, result = (Raise (IntegrityError c), concurrent rt db)).
Proof.
  intros Hacc h result. subst result.
  rewrite (cast_vote_accepted _ _ _ _ _ _ Hacc). cbv zeta. fold h.
  split.
  - intros ->. reflexivity.
  - intros -> Hshared.
    destruct (recorded_violates rt election_id candidate_id h _ Hshared) as [c Hc].
    destruct (insert_and_confirm_cases rt election_id candidate_id h (concurrent rt db))
      as [[Hnone _]|[c' [Hsome Hrun]]].
    + cbv zeta in Hnone. congruence.
    + exists c'. exact Hrun.
Qed.

Lemma duplicate_at_check_or_at_insert_witness :
  exists c,
    VoteService.cast_vote Sample.settings Sample.racing "u1" "e1" "c2" Sample.db
    = (Raise (IntegrityError c), concurrent Sample.racing Sample.db).
Proof.
  apply (duplicate_at_check_or_at_insert Sample.settings Sample.racing "u1" "e1" "c2"
           Sample.db).
  - apply sample_ballot_accepted; [cbn; lia | reflexivity | reflexivity].
  - reflexivity.
  - exact racing_duplicate.
Defined.

(** ** One vote row or none (C2) *)



(** ** Order of the validations (C3) *)

(** C3. The checks of [cast_vote] are decided in the order election found,
    status active, started, not ended, candidate of the election, token not
    yet recorded; the conclusion of each line depends on the checks before
    it only, so the first failing check fixes the exception whatever the
    later checks would say. When all pass, the result is the one of the
    INSERT. *)
Theorem cast_vote_validation_order
    settings rt user_id election_id candidate_id db :
  let result := VoteService.cast_vote settings rt user_id election_id candidate_id db in
  let h := hashed_token_of settings (voter_identifier db user_id) election_id in
  (lookup_election db election_id = None ->
   result = (Raise (HTTPException HTTP_404_NOT_FOUND "Election not found"), db))
  /\ forall election,
       lookup_election db election_id = Some election ->
       (Election.status election <> "active" ->
        result = (Raise (HTTPException HTTP_400_BAD_REQUEST
                           ("Election is not active (current status: "
                            ++ Election.status election ++ ")")), db))
       /\ (Election.status election = "active" ->
           ((now rt < Election.start_time election)%Z ->
            result = (Raise (HTTPException HTTP_400_BAD_REQUEST
                               "Election has not started yet"), db))
           /\ ((Election.start_time election <= now rt)%Z ->
               ((now rt > Election.end_time election)%Z ->
                result = (Raise (HTTPException HTTP_400_BAD_REQUEST
                                   "Election has ended"), db))
               /\ ((now rt <= Election.end_time election)%Z ->
                   (lookup_candidate db candidate_id = None ->
                    result = (Raise InvalidCandidate, db))
                   /\ forall candidate,
                        lookup_candidate db candidate_id = Some candidate ->
                        (Candidate.election_id candidate <> election_id ->
                         result = (Raise InvalidCandidate, db))
                        /\ (Candidate.election_id candidate = election_id ->
                            (recorded db election_id h = true ->
                             result = (Raise DuplicateVote, db))
                            /\ (recorded db election_id h = false ->
                                result = insert_and_confirm rt election_id candidate_id h
                                           (concurrent rt db)))))).
Proof.
  intros result h. subst result. rewrite cast_vote_unfold. fold h.
  split; [intros ->; reflexivity|].
  intros election ->. split.
  { intros Hs. apply String.eqb_neq in Hs. rewrite Hs. reflexivity. }
  intros Hs. rewrite Hs, String.eqb_refl. cbn [negb]. split.
  { intros Hlt. apply Z.ltb_lt in Hlt. rewrite Hlt. reflexivity. }
  intros Hge. apply Z.ltb_ge in Hge. rewrite Hge. split.
  { intros Hgt. rewrite (proj2 (Z.gtb_gt _ _) Hgt). reflexivity. }
  intros Hle. replace (now rt >? Election.end_time election)%Z with false
    by (symmetry; rewrite Z.gtb_ltb; apply Z.ltb_ge; lia).
  split; [intros ->; reflexivity|].
  intros candidate ->. split.
  { intros Hb. apply String.eqb_neq in Hb. rewrite Hb. reflexivity. }
  intros Hb. rewrite Hb, String.eqb_refl. cbn [negb]. cbv zeta.
  split; intros ->; reflexivity.
Qed.

(** A draft election, a clock reading before its start and an unknown
    candidate: the status check, the first to fail, decides. *)
Lemma cast_vote_validation_order_witness :
  VoteService.cast_vote Sample.settings (alone 50 "v1" 51) "u3" "e2" "nobody" Sample.db
  = (Raise (HTTPException HTTP_400_BAD_REQUEST
              "Election is not active (current status: draft)"), Sample.db).
Proof.
  refine (proj1 (proj2 (cast_vote_validation_order Sample.settings (alone 50 "v1" 51)
                          "u3" "e2" "nobody" Sample.db)
                   (Sample.election "e2" "draft" 100 200) _) _).
  - reflexivity.
  - cbn. discriminate.
Defined.

(** ** Absent election, absent candidate (C6) *)

(** C6, as the specification states it, fails. Election e1 is active and
    open at time 150 and no candidate has the identifier "nobody": the call
    raises [InvalidCandidate] (status 400), the same exception as for a
    candidate of another election, and not [NotFound]. *)
Lemma absent_candidate_is_invalid_candidate :
  let result :=
    fst (VoteService.cast_vote Sample.settings (alone 150 "v1" 151)
           "u3" "e1" "nobody" Sample.db) in
  lookup_candidate Sample.db "nobody" = None
  /\ result = Raise InvalidCandidate
  /\ forall e, result = Raise e -> ~ NotFound e.
Proof.
  cbv zeta.
  assert (Hrun : fst (VoteService.cast_vote Sample.settings (alone 150 "v1" 151)
                        "u3" "e1" "nobody" Sample.db) = Raise InvalidCandidate)
    by (vm_compute; reflexivity).
  split; [reflexivity|]. split; [exact Hrun|].
  intros e He [detail Hd]. rewrite Hrun in He. injection He as <-.
  discriminate Hd.
Qed.

(** C6, amended. [cast_vote] raises [NotFound] when the election is absent.
    For an election that is active and within its time window, an absent
    candidate and a candidate of another election raise the same exception,
    [InvalidCandidate]. *)
Theorem absent_election_or_invalid_candidate
    settings rt user_id election_id candidate_id db :
  let result := VoteService.cast_vote settings rt user_id election_id candidate_id db in
  (lookup_election db election_id = None ->
   result = (Raise (HTTPException HTTP_404_NOT_FOUND "Election not found"), db)
   /\ NotFound (HTTPException HTTP_404_NOT_FOUND "Election not found"))
  /\ forall election,
       lookup_election db election_id = Some election ->
       Election.status election = "active" ->
       (Election.start_time election <= now rt <= Election.end_time election)%Z ->
       (lookup_candidate db candidate_id = None
        \/ exists candidate,
             lookup_candidate db candidate_id = Some candidate
             /\ Candidate.election_id candidate <> election_id) ->
       result = (Raise InvalidCandidate, db).
Proof.
  intros result. subst result. rewrite cast_vote_unfold. split.
  - intros ->. split; [reflexivity|]. eexists. reflexivity.
  - intros election -> Hs [Hlo Hhi] Hcand.
    rewrite Hs, String.eqb_refl. cbn [negb].
    replace (now rt <? Election.start_time election)%Z with false
      by (symmetry; apply Z.ltb_ge; lia).
    replace (now rt >? Election.end_time election)%Z with false
      by (symmetry; rewrite Z.gtb_ltb; apply Z.ltb_ge; lia).
    destruct Hcand as [->|[candidate [-> Hother]]]; [reflexivity|].
    apply String.eqb_neq in Hother. rewrite Hother. reflexivity.
Qed.

(** Candidate c9 exists and belongs to the draft election e2, not to e1. *)
Lemma absent_election_or_invalid_candidate_witness :
  VoteService.cast_vote Sample.settings (alone 150 "v1" 151) "u3" "e1" "c9" Sample.db
  = (Raise InvalidCandidate, Sample.db).
Proof.
  refine (proj2 (absent_election_or_invalid_candidate Sample.settings
                   (alone 150 "v1" 151) "u3" "e1" "c9" Sample.db)
            (Sample.election "e1" "active" 100 200) _ _ _ _).
  - reflexivity.
  - reflexivity.
  - cbn. lia.
  - right. exists (Sample.candidate "c9" "e2" 3). split; [reflexivity|].
    cbn. discriminate.
Defined.

(** ** Token derivation and what reaches the ledger (C4) *)

Local Transparent generate_vote_token hash_vote_token.

(** C4. The vote token of a voter identifier and an election is the
    HMAC-SHA256, under the configured secret key, of the identifier, a
    colon and the election identifier, written as 64 lowercase hexadecimal
    digits; it is a function of the key and these two strings alone, so
    equal inputs give equal tokens. What is stored is the SHA-256 of the
    token, again 64 hexadecimal digits: a successful [cast_vote] writes one
    row (primary key, election, candidate, that digest, timestamp) and
    nothing else, and returns the election identifier and the timestamp;
    [check_vote_status] writes nothing. *)
Theorem vote_token_derivation settings :
  (forall identifier election_id,
     let token := generate_vote_token settings identifier election_id in
     token = hashlib.hexdigest
               (hmac.new (encode (HMAC_SECRET_KEY settings))
                         (encode (identifier ++ ":" ++ election_id)))
     /\ String.length token = 64%nat
     /\ all_chars lower_hex token = true
     /\ (forall identifier' election_id',
           identifier' = identifier -> election_id' = election_id ->
           generate_vote_token settings identifier' election_id' = token)
     /\ hash_vote_token token = hashlib.hexdigest (hashlib.sha256 (encode token))
     /\ String.length (hash_vote_token token) = 64%nat)
  /\ forall rt user_id election_id candidate_id db,
       let token :=
         generate_vote_token settings (voter_identifier db user_id) election_id in
       let shared := concurrent rt db in
       snd (VoteService.check_vote_status settings user_id election_id db) = db
       /\ forall confirmation db',
            VoteService.cast_vote settings rt user_id election_id candidate_id db
            = (Return confirmation, db') ->
            db' = set_votes shared
                    (votes shared
                     ++ [Vote.mk (uuid4 rt) election_id candidate_id
                           (hash_vote_token token) (created_now rt)])
            /\ confirmation
               = VoteConfirmation.mk "Vote cast successfully" election_id
                   (created_now rt).
Proof.
  split.
  - intros identifier election_id token.
    split; [reflexivity|].
    split; [apply hexdigest_length|].
    split; [apply hexdigest_lower_hex|].
    split; [intros ? ? -> ->; reflexivity|].
    split; [reflexivity | apply hexdigest_length].
  - intros rt user_id election_id candidate_id db token shared.
    split; [rewrite check_vote_status_unfold; reflexivity|].
    intros confirmation db'. rewrite cast_vote_unfold.
    destruct (lookup_election db election_id) as [election|]; [|discriminate].
    destruct (negb _); [discriminate|].
    destruct (now rt <? _)%Z; [discriminate|].
    destruct (now rt >? _)%Z; [discriminate|].
    destruct (match lookup_candidate db candidate_id with None => true | Some c => _ end);
      [discriminate|].
    cbv zeta. destruct (recorded db election_id _); [discriminate|].
    destruct (insert_and_confirm_cases rt election_id candidate_id
                (hashed_token_of settings (voter_identifier db user_id) election_id)
                (concurrent rt db)) as [[_ Hrun]|[c [_ Hrun]]];
      rewrite Hrun; [|discriminate].
    intros [= <- <-]. split; reflexivity.
Qed.

Local Opaque generate_vote_token hash_vote_token.

(** Account u1 has the employee identifier E42: the row written for its
    vote in e1 carries the SHA-256 of the token of "E42:e1", and the
    confirmation carries neither. *)
Lemma vote_token_derivation_witness :
  Sample.db_after_u1
  = set_votes Sample.db
      [Vote.mk "v1" "e1" "c1"
         "a6f492c10573038a92a5acff6dc6112312adce7accdbaf9ef0eaae35b7bd5e00" 151]
  /\ fst (VoteService.cast_vote Sample.settings (alone 150 "v1" 151) "u1" "e1" "c1"
            Sample.db)
     = Return (VoteConfirmation.mk "Vote cast successfully" "e1" 151).
Proof.
  assert (Hrun : VoteService.cast_vote Sample.settings (alone 150 "v1" 151)
                   "u1" "e1" "c1" Sample.db
                 = (Return (VoteConfirmation.mk "Vote cast successfully" "e1" 151),
                    Sample.db_after_u1))
    by (vm_compute; reflexivity).
  destruct (proj2 (proj2 (vote_token_derivation Sample.settings)
                     (alone 150 "v1" 151) "u1" "e1" "c1" Sample.db)
              _ _ Hrun) as [Hdb _].
  split; [|now rewrite Hrun].
  rewrite Hdb. vm_compute. reflexivity.
Defined.

(** ** Identifier selection (C5, C10) *)

Lemma voter_identifier_employee db user_id u emp :
  lookup_user db user_id = Some u -> User.emp_id u = Some emp -> emp <> "" ->
  voter_identifier db user_id = emp.
Proof.
  unfold lookup_user, voter_identifier. intros -> -> Hne.
  apply String.eqb_neq in Hne. now rewrite Hne.
Qed.

Lemma voter_identifier_account db user_id u :
  lookup_user db user_id = Some u ->
  User.emp_id u = None \/ User.emp_id u = Some "" ->
  voter_identifier db user_id = user_id.
Proof.
  unfold lookup_user, voter_identifier. intros -> [-> | ->]; reflexivity.
Qed.

Lemma voter_identifier_unknown db user_id :
  lookup_user db user_id = None -> voter_identifier db user_id = user_id.
Proof. unfold lookup_user, voter_identifier. now intros ->. Qed.

(** The row a successful call appends carries the hashed token of the
    selected identifier. *)
Lemma cast_vote_returns settings rt user_id election_id candidate_id db confirmation db' :
  VoteService.cast_vote settings rt user_id election_id candidate_id db
  = (Return confirmation, db') ->
  db' = set_votes (concurrent rt db)
          (votes (concurrent rt db)
           ++ [Vote.mk (uuid4 rt) election_id candidate_id
                 (hashed_token_of settings (voter_identifier db user_id) election_id)
                 (created_now rt)]).
Proof.
  rewrite cast_vote_unfold.
  destruct (lookup_election db election_id) as [election|]; [|discriminate].
  destruct (negb _); [discriminate|].
  destruct (now rt <? _)%Z; [discriminate|].
  destruct (now rt >? _)%Z; [discriminate|].
  destruct (match lookup_candidate db candidate_id with None => true | Some c => _ end);
    [discriminate|].
  cbv zeta. destruct (recorded db election_id _); [discriminate|].
  destruct (insert_and_confirm_cases rt election_id candidate_id
              (hashed_token_of settings (voter_identifier db user_id) election_id)
              (concurrent rt db)) as [[_ Hrun]|[c [_ Hrun]]];
    rewrite Hrun; [|discriminate].
  now intros [= <- <-].
Qed.

(** Two user identifiers that select the same voter identifier are
    interchangeable in both services. *)
Lemma same_identifier_same_calls settings db uid1 uid2 :
  voter_identifier db uid1 = voter_identifier db uid2 ->
  forall rt election_id candidate_id,
    VoteService.cast_vote settings rt uid1 election_id candidate_id db
    = VoteService.cast_vote settings rt uid2 election_id candidate_id db
    /\ VoteService.check_vote_status settings uid1 election_id db
       = VoteService.check_vote_status settings uid2 election_id db.
Proof.
  intros Hid rt election_id candidate_id.
  rewrite !cast_vote_unfold, !check_vote_status_unfold, Hid. split; reflexivity.
Qed.

(** For an accepted ballot the status check answers true exactly when the
    cast is refused as a duplicate. *)
Lemma has_voted_iff_duplicate settings rt user_id election_id candidate_id db :
  ballot_accepted rt election_id candidate_id db ->
  exists has_voted,
    fst (VoteService.check_vote_status settings user_id election_id db)
    = Return (VoteStatusResponse.mk election_id has_voted)
    /\ (has_voted = true <->
        fst (VoteService.cast_vote settings rt user_id election_id candidate_id db)
        = Raise DuplicateVote).
Proof.
  intros Hacc. rewrite check_vote_status_unfold, (cast_vote_accepted _ _ _ _ _ _ Hacc).
  cbv zeta. eexists. split; [reflexivity|].
  destruct (recorded db election_id _).
  - split; reflexivity.
  - split; [discriminate|].
    destruct (insert_and_confirm_cases rt election_id candidate_id
                (hashed_token_of settings (voter_identifier db user_id) election_id)
                (concurrent rt db)) as [[_ Hrun]|[c [_ Hrun]]];
      rewrite Hrun; discriminate.
Qed.

(** Once the cast has returned, the status check of the same user answers
    true, provided no other session rewrote the users table meanwhile. *)
Lemma has_voted_after_cast settings rt user_id election_id candidate_id db confirmation db' :
  users (concurrent rt db) = users db ->
  VoteService.cast_vote settings rt user_id election_id candidate_id db
  = (Return confirmation, db') ->
  fst (VoteService.check_vote_status settings user_id election_id db')
  = Return (VoteStatusResponse.mk election_id true).
Proof.
  intros Husers Hrun. apply cast_vote_returns in Hrun.
  rewrite check_vote_status_unfold. cbn [fst]. do 2 f_equal.
  assert (Hid : voter_identifier db' user_id = voter_identifier db user_id).
  { unfold voter_identifier. rewrite Hrun. cbn [users set_votes]. now rewrite Husers. }
  rewrite Hid.
  eapply recorded_last; [rewrite Hrun; reflexivity | reflexivity | reflexivity].
Qed.

(** C5. Two accounts with the same (non-empty) employee identifier are
    interchangeable: [cast_vote] and [check_vote_status] give the same
    result for either, and the row a successful cast appends carries the
    hashed token of the employee identifier. The account identifier is the
    voter identifier of a user without employee identifier. The status
    check selects the identifier as the cast does: for an accepted ballot
    it answers true exactly when the cast is refused as a duplicate, and it
    answers true once the cast has returned. *)
Theorem employee_identifier_precedence settings db :
  (forall uid1 uid2 u1 u2 emp,
     lookup_user db uid1 = Some u1 -> lookup_user db uid2 = Some u2 ->
     User.emp_id u1 = Some emp -> User.emp_id u2 = Some emp -> emp <> "" ->
     forall rt election_id candidate_id,
       VoteService.cast_vote settings rt uid1 election_id candidate_id db
       = VoteService.cast_vote settings rt uid2 election_id candidate_id db
       /\ VoteService.check_vote_status settings uid1 election_id db
          = VoteService.check_vote_status settings uid2 election_id db
       /\ forall confirmation db',
            VoteService.cast_vote settings rt uid1 election_id candidate_id db
            = (Return confirmation, db') ->
            db' = set_votes (concurrent rt db)
                    (votes (concurrent rt db)
                     ++ [Vote.mk (uuid4 rt) election_id candidate_id
                           (hashed_token_of settings emp election_id) (created_now rt)]))
  /\ (forall user_id u,
        lookup_user db user_id = Some u ->
        User.emp_id u = None \/ User.emp_id u = Some "" ->
        forall rt election_id candidate_id confirmation db',
          VoteService.cast_vote settings rt user_id election_id candidate_id db
          = (Return confirmation, db') ->
          db' = set_votes (concurrent rt db)
                  (votes (concurrent rt db)
                   ++ [Vote.mk (uuid4 rt) election_id candidate_id
                         (hashed_token_of settings user_id election_id) (created_now rt)]))
  /\ (forall rt user_id election_id candidate_id,
        ballot_accepted rt election_id candidate_id db ->
        exists has_voted,
          fst (VoteService.check_vote_status settings user_id election_id db)
          = Return (VoteStatusResponse.mk election_id has_voted)
          /\ (has_voted = true <->
              fst (VoteService.cast_vote settings rt user_id election_id candidate_id db)
              = Raise DuplicateVote))
  /\ (forall rt user_id election_id candidate_id confirmation db',
        users (concurrent rt db) = users db ->
        VoteService.cast_vote settings rt user_id election_id candidate_id db
        = (Return confirmation, db') ->
        fst (VoteService.check_vote_status settings user_id election_id db')
        = Return (VoteStatusResponse.mk election_id true)).
Proof.
  split; [|split; [|split]].
  - intros uid1 uid2 u1 u2 emp H1 H2 He1 He2 Hne rt election_id candidate_id.
    pose proof (voter_identifier_employee _ _ _ _ H1 He1 Hne) as Hid1.
    pose proof (voter_identifier_employee _ _ _ _ H2 He2 Hne) as Hid2.
    destruct (same_identifier_same_calls settings db uid1 uid2
                (eq_trans Hid1 (eq_sym Hid2)) rt election_id candidate_id) as [Hc Hs].
    split; [exact Hc|]. split; [exact Hs|].
    intros confirmation db' Hrun. apply cast_vote_returns in Hrun.
    now rewrite Hid1 in Hrun.
  - intros user_id u Hu Hemp rt election_id candidate_id confirmation db' Hrun.
    apply cast_vote_returns in Hrun.
    now rewrite (voter_identifier_account _ _ _ Hu Hemp) in Hrun.
  - intros rt user_id election_id candidate_id. apply has_voted_iff_duplicate.
  - intros rt user_id election_id candidate_id confirmation db'.
    apply has_voted_after_cast.
Qed.

(** Accounts u1 and u5 share the employee identifier E42: after u1 has
    voted in e1, the cast of u5 for the other candidate is refused as the
    cast of u1 would be. *)
Lemma employee_identifier_precedence_witness :
  VoteService.cast_vote Sample.settings (alone 160 "v2" 161) "u1" "e1" "c2"
    Sample.two_accounts
  = VoteService.cast_vote Sample.settings (alone 160 "v2" 161) "u5" "e1" "c2"
      Sample.two_accounts.
Proof.
  refine (proj1 (proj1 (employee_identifier_precedence Sample.settings Sample.two_accounts)
                   "u1" "u5" (Sample.user "u1" (Some "E42"))
                   (Sample.user "u5" (Some "E42")) "E42" _ _ _ _ _
                   (alone 160 "v2" 161) "e1" "c2")).
  - reflexivity.
  - reflexivity.
  - reflexivity.
  - reflexivity.
  - discriminate.
Defined.

Example second_account_is_refused :
  fst (VoteService.cast_vote Sample.settings (alone 160 "v2" 161) "u5" "e1" "c2"
         Sample.two_accounts)
  = Raise DuplicateVote.
Proof.
  assert (Hacc : ballot_accepted (alone 160 "v2" 161) "e1" "c2" Sample.two_accounts)
    by (apply sample_ballot_accepted; [cbn; lia | reflexivity | reflexivity]).
  pose proof (cast_vote_accepted Sample.settings (alone 160 "v2" 161) "u5" "e1" "c2"
                Sample.two_accounts Hacc) as Hrun.
  cbv zeta in Hrun. rewrite Hrun.
  assert (Hrec : recorded Sample.two_accounts "e1"
                   (hashed_token_of Sample.settings
                      (voter_identifier Sample.two_accounts "u5") "e1") = true)
    by (apply (recorded_last _ _ _
                 (Vote.mk "v1" "e1" "c1"
                    (hashed_token_of Sample.settings "E42" "e1") 151) []);
        reflexivity).
  rewrite Hrec. reflexivity.
Qed.

Example other_employee_may_vote :
  fst (VoteService.cast_vote Sample.settings (alone 160 "v2" 161) "u2" "e1" "c2"
         Sample.two_accounts)
  = Return (VoteConfirmation.mk "Vote cast successfully" "e1" 161).
Proof. vm_compute. reflexivity. Qed.

(** C10. A user identifier that matches no row of the users table does not
    make the services fail: the raw identifier is the voter identifier. The
    status check answers by ledger membership of its hashed token; an
    accepted ballot goes through the duplicate check and the insert with
    that token; and, run alone, both calls give the same result and leave
    the same ledger as in the database where the identifier belongs to a
    user without employee identifier. *)
Theorem unknown_user_votes_under_raw_identifier settings db user_id :
  lookup_user db user_id = None ->
  forall rt election_id candidate_id,
    let h := hashed_token_of settings user_id election_id in
    VoteService.check_vote_status settings user_id election_id db
    = (Return (VoteStatusResponse.mk election_id (recorded db election_id h)), db)
    /\ (ballot_accepted rt election_id candidate_id db ->
        VoteService.cast_vote settings rt user_id election_id candidate_id db
        = if recorded db election_id h then (Raise DuplicateVote, db)
          else insert_and_confirm rt election_id candidate_id h (concurrent rt db))
    /\ forall u,
         User.id u = user_id -> User.emp_id u = None ->
         let known := with_user u db in
         let lone := alone (now rt) (uuid4 rt) (created_now rt) in
         fst (VoteService.check_vote_status settings user_id election_id known)
         = fst (VoteService.check_vote_status settings user_id election_id db)
         /\ fst (VoteService.cast_vote settings lone user_id election_id candidate_id known)
            = fst (VoteService.cast_vote settings lone user_id election_id candidate_id db)
         /\ votes (snd (VoteService.cast_vote settings lone user_id election_id
                          candidate_id known))
            = votes (snd (VoteService.cast_vote settings lone user_id election_id
                            candidate_id db)).
Proof.
  intros Hunknown rt election_id candidate_id h.
  pose proof (voter_identifier_unknown _ _ Hunknown) as Hid.
  split; [|split].
  - rewrite check_vote_status_unfold, Hid. reflexivity.
  - intros Hacc. rewrite (cast_vote_accepted _ _ _ _ _ _ Hacc), Hid. reflexivity.
  - intros u Hu Hemp known lone.
    assert (Hknown : voter_identifier known user_id = user_id).
    { unfold voter_identifier, known, with_user. cbn [users find].
      rewrite Hu, String.eqb_refl, Hemp. reflexivity. }
    rewrite !check_vote_status_unfold, !cast_vote_unfold, Hknown, Hid.
    change (lookup_election known election_id) with (lookup_election db election_id).
    change (lookup_candidate known candidate_id) with (lookup_candidate db candidate_id).
    change (recorded known election_id) with (recorded db election_id).
    split; [reflexivity|].
    destruct (lookup_election db election_id) as [election|]; [|split; reflexivity].
    destruct (negb _); [split; reflexivity|].
    destruct (now lone <? _)%Z; [split; reflexivity|].
    destruct (now lone >? _)%Z; [split; reflexivity|].
    destruct (match lookup_candidate db candidate_id with None => true | Some c => _ end);
      [split; reflexivity|].
    cbv zeta. fold h.
    destruct (recorded db election_id h); [split; reflexivity|].
    unfold insert_and_confirm, VoteRepository.cast_vote.
    change (concurrent lone known) with known.
    change (concurrent lone db) with db.
    change (VoteRepository.violated known) with (VoteRepository.violated db).
    destruct (VoteRepository.violated db _); split; reflexivity.
Qed.

(** No account has the identifier "ghost". *)
Lemma unknown_user_votes_under_raw_identifier_witness :
  VoteService.check_vote_status Sample.settings "ghost" "e1" Sample.db
  = (Return (VoteStatusResponse.mk "e1"
               (recorded Sample.db "e1" (hashed_token_of Sample.settings "ghost" "e1"))),
     Sample.db).
Proof.
  exact (proj1 (unknown_user_votes_under_raw_identifier Sample.settings Sample.db "ghost"
                  eq_refl (alone 150 "v1" 151) "e1" "c1")).
Defined.

Example ghost_may_vote :
  fst (VoteService.cast_vote Sample.settings (alone 150 "v1" 151) "ghost" "e1" "c1"
         Sample.db)
  = Return (VoteConfirmation.mk "Vote cast successfully" "e1" 151).
Proof. vm_compute. reflexivity. Qed.

(** ** The final sort of the tally *)

Section OrderByCount.

Import VoteRepository.

Lemma insert_desc_perm (r : row) (l : list row) :
  Permutation (insert_desc r l) (r :: l).
Proof.
  induction l as [|x l IH]; cbn; [reflexivity|].
  destruct (vote_count x <=? vote_count r)%nat; [reflexivity|].
  rewrite IH. apply perm_swap.
Qed.

Lemma order_by_count_desc_perm (l : list row) :
  Permutation (order_by_count_desc l) l.
Proof.
  induction l as [|r l IH]; cbn; [reflexivity|].
  rewrite insert_desc_perm. now apply perm_skip.
Qed.





End OrderByCount.

(** ** Join and grouping of the tally *)

Section Grouping.

Import VoteRepository.

Variable vs : list Vote.t.

Lemma outerjoin_flat_map cs : outerjoin cs vs = flat_map (joined_rows vs) cs.
Proof. reflexivity. Qed.

Lemma joined_rows_fst c r : In r (joined_rows vs c) -> fst r = c.
Proof.
  unfold joined_rows.
  destruct (filter _ vs) as [|v ms]; cbn.
  - intros [<-|[]]. reflexivity.
  - intros [<-|Hin]; [reflexivity|].
    apply in_map_iff in Hin. destruct Hin as [v' [<- _]]. reflexivity.
Qed.

Lemma joined_rows_keys c :
  exists n, map group_key (joined_rows vs c) = repeat (Candidate.id c, Candidate.name c) (S n).
Proof.
  unfold joined_rows.
  destruct (filter _ vs) as [|v ms]; [exists 0%nat; reflexivity|].
  exists (List.length ms). cbn. f_equal.
  induction ms as [|m ms IH]; [reflexivity|]. cbn. now rewrite IH.
Qed.

Lemma key_eqb_eq k1 k2 : key_eqb k1 k2 = true <-> k1 = k2.
Proof.
  destruct k1 as [a1 b1], k2 as [a2 b2]. unfold key_eqb. cbn.
  rewrite andb_true_iff, !String.eqb_eq. split.
  - intros [-> ->]. reflexivity.
  - intros [= -> ->]. split; reflexivity.
Qed.

Lemma key_eqb_refl k : key_eqb k k = true.
Proof. now apply key_eqb_eq. Qed.

Lemma joined_rows_counted c :
  List.length (filter (counted (Candidate.id c, Candidate.name c)) (joined_rows vs c))
  = List.length (filter (fun v => Vote.candidate_id v =? Candidate.id c) vs).
Proof.
  unfold joined_rows.
  destruct (filter _ vs) as [|v ms].
  { cbn. unfold counted. cbn. now rewrite andb_false_r. }
  generalize (v :: ms). intros l.
  induction l as [|m l IH]; [reflexivity|].
  cbn [map filter]. unfold counted at 1. cbn [group_key fst snd].
  rewrite key_eqb_refl. cbn. now rewrite IH.
Qed.

Lemma joined_rows_other c k :
  fst k <> Candidate.id c ->
  filter (counted k) (joined_rows vs c) = [].
Proof.
  intros Hne.
  assert (Hall : forall r, In r (joined_rows vs c) -> counted k r = false).
  { intros r Hin. apply joined_rows_fst in Hin. unfold counted, key_eqb, group_key.
    rewrite Hin. cbn. apply not_eq_sym in Hne. apply String.eqb_neq in Hne.
    now rewrite Hne. }
  induction (joined_rows vs c) as [|r l IH]; [reflexivity|].
  cbn. rewrite Hall by (now left). apply IH. intros; apply Hall. now right.
Qed.

(** The WHERE clause on the candidate side commutes with the join. *)
Lemma where_election_flat_map election_id cs :
  filter (fun r => Candidate.election_id (fst r) =? election_id) (flat_map (joined_rows vs) cs)
  = flat_map (joined_rows vs)
      (filter (fun c => Candidate.election_id c =? election_id) cs).
Proof.
  induction cs as [|c cs IH]; [reflexivity|].
  cbn [flat_map filter]. rewrite filter_app, IH.
  assert (Hrows : forall b,
             (Candidate.election_id c =? election_id) = b ->
             filter (fun r => Candidate.election_id (fst r) =? election_id) (joined_rows vs c)
             = if b then joined_rows vs c else []).
  { intros b Hb.
    assert (Hall : forall r, In r (joined_rows vs c) ->
                     (Candidate.election_id (fst r) =? election_id) = b).
    { intros r Hin. now rewrite (joined_rows_fst _ _ Hin). }
    induction (joined_rows vs c) as [|r l IHl]; [now destruct b|].
    cbn. rewrite Hall by (now left).
    rewrite IHl by (intros; apply Hall; now right). now destruct b. }
  rewrite (Hrows _ eq_refl).
  destruct (Candidate.election_id c =? election_id); reflexivity.
Qed.

Lemma distinct_in k keys : In k (distinct keys) -> In k keys.
Proof.
  revert k. induction keys as [|k0 keys IH]; cbn; [tauto|].
  intros k [->|Hin]; [now left|].
  apply filter_In in Hin. right. apply IH. tauto.
Qed.

Lemma filter_other_keys k keys :
  ~ In k keys -> filter (fun k' => negb (key_eqb k k')) keys = keys.
Proof.
  induction keys as [|k0 keys IH]; [reflexivity|].
  intros Hnot. cbn.
  destruct (key_eqb k k0) eqn:Heq.
  - apply key_eqb_eq in Heq. subst. exfalso. apply Hnot. now left.
  - cbn. rewrite IH; [reflexivity|]. intros Hin. apply Hnot. now right.
Qed.

Lemma filter_other_keys_idem k keys :
  filter (fun k' => negb (key_eqb k k'))
    (filter (fun k' => negb (key_eqb k k')) keys)
  = filter (fun k' => negb (key_eqb k k')) keys.
Proof.
  induction keys as [|k0 keys IH]; [reflexivity|].
  cbn. destruct (negb (key_eqb k k0)) eqn:Hk; [|exact IH].
  cbn. rewrite Hk. now rewrite IH.
Qed.

Lemma distinct_repeat k n keys :
  distinct (repeat k (S n) ++ keys)
  = k :: filter (fun k' => negb (key_eqb k k')) (distinct keys).
Proof.
  induction n as [|n IH]; [reflexivity|].
  change (repeat k (S (S n)) ++ keys)%list with (k :: (repeat k (S n) ++ keys))%list.
  cbn [distinct]. rewrite IH. cbn [filter].
  rewrite key_eqb_refl. cbn [negb]. now rewrite filter_other_keys_idem.
Qed.

Lemma key_not_in c cs :
  ~ In (Candidate.id c) (map Candidate.id cs) -> ~ In (key c) (map key cs).
Proof.
  intros Hnot Hin. apply Hnot. apply in_map_iff in Hin.
  destruct Hin as [c' [Hk Hin]]. injection Hk as Hid _.
  rewrite <- Hid. now apply in_map.
Qed.

Lemma distinct_keys cs :
  NoDup (map Candidate.id cs) ->
  distinct (map group_key (flat_map (joined_rows vs) cs)) = map key cs.
Proof.
  induction cs as [|c cs IH]; [reflexivity|].
  cbn [map flat_map]. intros Hnd. inversion Hnd as [|? ? Hnot Hnd']; subst.
  rewrite map_app. destruct (joined_rows_keys c) as [n ->].
  rewrite distinct_repeat, (IH Hnd').
  fold (key c). now rewrite (filter_other_keys _ _ (key_not_in _ _ Hnot)).
Qed.

Lemma counted_elsewhere c cs :
  ~ In (Candidate.id c) (map Candidate.id cs) ->
  filter (counted (key c)) (flat_map (joined_rows vs) cs) = [].
Proof.
  induction cs as [|c' cs IH]; [reflexivity|].
  cbn [map flat_map]. intros Hnot. rewrite filter_app.
  rewrite joined_rows_other, IH; [reflexivity | |].
  - intros Hin. apply Hnot. now right.
  - cbn. intros Heq. apply Hnot. now left.
Qed.

Lemma counted_votes cs c :
  NoDup (map Candidate.id cs) -> In c cs ->
  List.length (filter (counted (key c)) (flat_map (joined_rows vs) cs))
  = List.length (filter (fun v => Vote.candidate_id v =? Candidate.id c) vs).
Proof.
  induction cs as [|c' cs IH]; [intros _ []|].
  cbn [map flat_map]. intros Hnd Hin. inversion Hnd as [|? ? Hnot Hnd']; subst.
  rewrite filter_app, length_app.
  destruct Hin as [->|Hin].
  - rewrite (counted_elsewhere _ _ Hnot). unfold key.
    rewrite joined_rows_counted. cbn. lia.
  - rewrite (IH Hnd' Hin), joined_rows_other; [reflexivity|].
    cbn. intros Heq. apply Hnot. rewrite <- Heq. now apply in_map.
Qed.

(** With candidate identifiers unique, the groups are the candidates, in
    table order, each with the number of votes that reference it. *)
Lemma group_by_candidates cs :
  NoDup (map Candidate.id cs) ->
  group_by (flat_map (joined_rows vs) cs)
  = map (fun c =>
           (Candidate.id c, Candidate.name c,
            List.length (filter (fun v => Vote.candidate_id v =? Candidate.id c) vs)))
        cs.
Proof.
  intros Hnd. unfold group_by. rewrite (distinct_keys _ Hnd), map_map.
  apply map_ext_in. intros c Hin. unfold key at 1. f_equal.
  exact (counted_votes cs c Hnd Hin).
Qed.

End Grouping.

(** A selection of candidate rows still has unique identifiers. *)
Lemma selected_ids_unique (keep : Candidate.t -> bool) (cs : list Candidate.t) :
  NoDup (map Candidate.id cs) -> NoDup (map Candidate.id (filter keep cs)).
Proof.
  induction cs as [|c cs IH]; cbn; [trivial|].
  intros Hnd. apply NoDup_cons_iff in Hnd. destruct Hnd as [Hfresh Hrest].
  destruct (keep c); [|exact (IH Hrest)].
  cbn. apply NoDup_cons; [|exact (IH Hrest)].
  intros Hin. apply Hfresh. apply in_map_iff in Hin.
  destruct Hin as [c' [Hid Hin]]. apply filter_In in Hin. destruct Hin as [Hin _].
  rewrite <- Hid. now apply in_map.
Qed.

(** The rows of the tally query before the final sort. *)
Lemma tally_groups db election_id :
  NoDup (map Candidate.id (candidates db)) ->
  VoteRepository.group_by
    (filter (fun r => Candidate.election_id (fst r) =? election_id)
            (VoteRepository.outerjoin (candidates db) (votes db)))
  = map (fun c => (Candidate.id c, Candidate.name c, votes_for db (Candidate.id c)))
        (candidates_of db election_id).
Proof.
  intros Hnd. rewrite outerjoin_flat_map, where_election_flat_map.
  apply group_by_candidates. now apply selected_ids_unique.
Qed.

(** ** The tally (C7, C8) *)

Lemma get_results_unfold scan election_id db :
  VoteService.get_results scan election_id db =
  match lookup_election db election_id with
  | None => (Raise (HTTPException HTTP_404_NOT_FOUND "Election not found"), db)
  | Some election =>
      if negb (Election.status election =? "closed")
      then (Raise (HTTPException HTTP_400_BAD_REQUEST
                     "Results are only available after the election is closed"), db)
      else
        (Return
           (ElectionResults.mk election_id (Election.title election)
              (Election.status election)
              (List.length (filter (fun v => Vote.election_id v =? election_id) (votes db)))
              (map (fun r => CandidateResult.mk (fst (fst r)) (snd (fst r)) (snd r))
                 (VoteRepository.order_by_count_desc
                    (scan (VoteRepository.group_by
                             (filter (fun r => Candidate.election_id (fst r) =? election_id)
                                (VoteRepository.outerjoin (candidates db) (votes db)))))))),
         db)
  end.
Proof.
  unfold VoteService.get_results, lookup_election, bind, ElectionRepository.get_by_id,
    query, raise_if, raise, ret, VoteRepository.get_results,
    VoteRepository.get_total_votes.
  destruct (find _ (elections db)) as [election|]; [|reflexivity].
  destruct (negb _); reflexivity.
Qed.



(** C7. For an election that is not closed the tally fails with the
    invalid-state error (status 400) and reads no votes. For a closed
    election, with unique candidate identifiers and an engine that returns
    every group once, it returns one entry per candidate of the election,
    with the number of votes that reference the candidate (zero included),
    and the total number of vote rows of the election. *)
Theorem tally_of_closed_election_only scan election_id db election :
  lookup_election db election_id = Some election ->
  (Election.status election <> "closed" ->
   VoteService.get_results scan election_id db
   = (Raise (HTTPException HTTP_400_BAD_REQUEST
               "Results are only available after the election is closed"), db))
  /\ (Election.status election = "closed" ->
      (forall rows, Permutation (scan rows) rows) ->
      NoDup (map Candidate.id (candidates db)) ->
      exists tally,
        VoteService.get_results scan election_id db = (Return tally, db)
        /\ Permutation (ElectionResults.results tally)
             (map (tally_entry db) (candidates_of db election_id))
        /\ List.length (ElectionResults.results tally)
           = List.length (candidates_of db election_id)
        /\ ElectionResults.total_votes tally
           = List.length (filter (fun v => Vote.election_id v =? election_id) (votes db))).
Proof.
  intros He. rewrite get_results_unfold, He. split.
  - intros Hs. apply String.eqb_neq in Hs. now rewrite Hs.
  - intros Hs Hscan Hnd. rewrite Hs, String.eqb_refl. cbn [negb].
    eexists. split; [reflexivity|]. cbn [ElectionResults.results ElectionResults.total_votes].
    rewrite (tally_groups _ _ Hnd).
    assert (Hperm : Permutation
              (map (fun r : VoteRepository.row =>
                      CandidateResult.mk (fst (fst r)) (snd (fst r)) (snd r))
                 (VoteRepository.order_by_count_desc
                    (scan (map (fun c => (Candidate.id c, Candidate.name c,
                                          votes_for db (Candidate.id c)))
                             (candidates_of db election_id)))))
              (map (tally_entry db) (candidates_of db election_id))).
    { rewrite order_by_count_desc_perm, Hscan, map_map. reflexivity. }
    split; [exact Hperm|]. split; [|reflexivity].
    etransitivity; [exact (Permutation_length Hperm) | apply length_map].
Qed.

Lemma sample_candidates_unique : NoDup (map Candidate.id (candidates Sample.db_closed)).
Proof. repeat constructor; cbn; intuition discriminate. Qed.

(** The closed election e3, read back by an engine that returns the groups
    in reverse table order. *)
Lemma tally_of_closed_election_only_witness :
  exists tally,
    VoteService.get_results (@rev VoteRepository.row) "e3" Sample.db_closed
    = (Return tally, Sample.db_closed)
    /\ Permutation (ElectionResults.results tally)
         (map (tally_entry Sample.db_closed) (candidates_of Sample.db_closed "e3"))
    /\ List.length (ElectionResults.results tally)
       = List.length (candidates_of Sample.db_closed "e3")
    /\ ElectionResults.total_votes tally
       = List.length (filter (fun v => Vote.election_id v =? "e3") (votes Sample.db_closed)).
Proof.
  refine (proj2 (tally_of_closed_election_only (@rev VoteRepository.row) "e3"
                   Sample.db_closed (Sample.election "e3" "closed" 100 200) _) _ _ _).
  - reflexivity.
  - reflexivity.
  - intros rows. symmetry. apply Permutation_rev.
  - exact sample_candidates_unique.
Defined.

(** Candidates without votes are listed, with a count of zero. *)
Example tally_lists_candidates_without_votes :
  fst (VoteService.get_results (fun rows => rows) "e3"
         (set_votes Sample.db [Vote.mk "v1" "e3" "c4" "aa" 160]))
  = Return (ElectionResults.mk "e3" "Board e3" "closed" 1
              [ CandidateResult.mk "c4" "Candidate c4" 1;
                CandidateResult.mk "c5" "Candidate c5" 0 ]).
Proof. reflexivity. Qed.

Example tally_of_active_election_refused :
  fst (VoteService.get_results (fun rows => rows) "e1" Sample.db_closed)
  = Raise (HTTPException HTTP_400_BAD_REQUEST
             "Results are only available after the election is closed").
Proof. reflexivity. Qed.




(** ** The lifecycle of an election (C9) *)

Lemma lookup_election_id db election_id e :
  lookup_election db election_id = Some e -> Election.id e = election_id.
Proof.
  unfold lookup_election. intros H. apply find_some in H.
  now apply String.eqb_eq.
Qed.

Lemma lookup_update_row db target f election_id :
  (forall e, Election.id (f e) = Election.id e) ->
  lookup_election (ElectionRepository.update_row target f db) election_id
  = option_map (fun e => if Election.id e =? Election.id target then f e else e)
      (lookup_election db election_id).
Proof.
  intros Hid. unfold lookup_election, ElectionRepository.update_row.
  cbn [elections set_elections].
  induction (elections db) as [|x l IH]; [reflexivity|].
  cbn [map find].
  assert (Hx : Election.id (if Election.id x =? Election.id target then f x else x)
               = Election.id x)
    by (destruct (Election.id x =? Election.id target); [apply Hid | reflexivity]).
  rewrite Hx. destruct (Election.id x =? election_id); [reflexivity | exact IH].
Qed.

Lemma find_app_some {A} (p : A -> bool) (l1 l2 : list A) x :
  find p l1 = Some x -> find p (l1 ++ l2) = Some x.
Proof.
  induction l1 as [|y l1 IH]; [discriminate|].
  cbn. destruct (p y); [trivial | exact IH].
Qed.



(** An assignment to another attribute than the key or the status leaves
    both as they are. *)
Lemma setattr_keeps e key v :
  key <> "id" -> key <> "status" ->
  Election.id (ElectionRepository.setattr e key v) = Election.id e
  /\ Election.status (ElectionRepository.setattr e key v) = Election.status e.
Proof.
  intros Hid Hst. apply String.eqb_neq in Hid, Hst.
  destruct e, v; cbn; rewrite ?Hid, ?Hst;
    repeat match goal with
           | |- context [if ?c then _ else _] => destruct c
           end; split; reflexivity.
Qed.

Lemma patch_keeps (kw : kwargs) e :
  Forall (fun kv => fst kv <> "id" /\ fst kv <> "status") kw ->
  let e' := fold_left (fun e kv => match snd kv with
                                   | PyNone => e
                                   | v => ElectionRepository.setattr e (fst kv) v
                                   end) kw e in
  Election.id e' = Election.id e /\ Election.status e' = Election.status e.
Proof.
  intros Hkw. revert e. induction Hkw as [|kv kw [Hid Hst] _ IH]; intros e.
  - split; reflexivity.
  - cbn [fold_left]. cbv zeta in IH |- *.
    destruct (setattr_keeps e (fst kv) (snd kv) Hid Hst) as [H1 H2].
    destruct (snd kv) eqn:Hv.
    + apply IH.
    + destruct (IH (ElectionRepository.setattr e (fst kv) (PyStr s))) as [-> ->].
      now split.
    + destruct (IH (ElectionRepository.setattr e (fst kv) (PyDatetime t))) as [-> ->].
      now split.
Qed.

(** The update request carries the four editable attributes only. *)
Lemma model_dump_keys data :
  Forall (fun kv : string * value => fst kv <> "id" /\ fst kv <> "status")
         (ElectionUpdate.model_dump data).
Proof.
  unfold ElectionUpdate.model_dump.
  destruct data as [[[?|]|] [[?|]|] [[?|]|] [[?|]|]]; cbn;
    repeat constructor; cbn; discriminate.
Qed.

(** [update_status] on the row the session has just loaded, with a new
    status: the row is rewritten and read back. *)
Lemma update_status_of_loaded db election_id e status :
  find (fun x => Election.id x =? election_id) (elections db) = Some e ->
  (Election.status e =? status) = false ->
  ElectionRepository.update_status e status db
  = (Return (ElectionRepository.set_status e status),
     ElectionRepository.update_row e (fun x => ElectionRepository.set_status x status) db).
Proof.
  intros He Hnew. unfold ElectionRepository.update_status. rewrite Hnew.
  destruct (find_some _ _ He) as [_ Hid]. apply String.eqb_eq in Hid.
  now rewrite Hid, He.
Qed.

Lemma activate_election_unfold election_id db :
  ElectionService.activate_election election_id db =
  match lookup_election db election_id with
  | None => (Raise (HTTPException HTTP_404_NOT_FOUND "Election not found"), db)
  | Some e =>
      if negb (Election.status e =? "draft")
      then (Raise (HTTPException HTTP_400_BAD_REQUEST
                     "Can only activate elections in draft status"), db)
      else if (List.length (candidates_of db election_id) <? 2)%nat
      then (Raise (HTTPException HTTP_400_BAD_REQUEST
                     "Election must have at least 2 candidates to activate"), db)
      else (Return (ElectionRepository.set_status e "active"),
            ElectionRepository.update_row e
              (fun x => ElectionRepository.set_status x "active") db)
  end.
Proof.
  unfold ElectionService.activate_election, ElectionService.activate_election_among,
    lookup_election, candidates_of, bind,
    ElectionRepository.get_by_id, CandidateRepository.get_by_election, query,
    raise_if, raise, ret, commit.
  destruct (find _ (elections db)) as [e|] eqn:He; [|reflexivity].
  destruct (Election.status e =? "draft") eqn:Hs; [|reflexivity]. cbn [negb].
  destruct (_ <? 2)%nat; [reflexivity|].
  exact (update_status_of_loaded db election_id e "active" He
           ltac:(apply String.eqb_eq in Hs; rewrite Hs; reflexivity)).
Qed.

Lemma close_election_unfold election_id db :
  ElectionService.close_election election_id db =
  match lookup_election db election_id with
  | None => (Raise (HTTPException HTTP_404_NOT_FOUND "Election not found"), db)
  | Some e =>
      if negb (Election.status e =? "active")
      then (Raise (HTTPException HTTP_400_BAD_REQUEST "Can only close active elections"), db)
      else (Return (ElectionRepository.set_status e "closed"),
            ElectionRepository.update_row e
              (fun x => ElectionRepository.set_status x "closed") db)
  end.
Proof.
  unfold ElectionService.close_election, ElectionService.close_election_among,
    lookup_election, bind,
    ElectionRepository.get_by_id, query, raise_if, raise, ret, commit.
  destruct (find _ (elections db)) as [e|] eqn:He; [|reflexivity].
  destruct (Election.status e =? "active") eqn:Hs; [|reflexivity]. cbn [negb].
  exact (update_status_of_loaded db election_id e "closed" He
           ltac:(apply String.eqb_eq in Hs; rewrite Hs; reflexivity)).
Qed.

(** After [UPDATE elections SET status = s WHERE id = target.id]: the target
    row has the new status, the other rows are as before. *)
Lemma lookup_after_update_status db target s election_id e :
  lookup_election db (Election.id target) = Some target ->
  lookup_election db election_id = Some e ->
  lookup_election
    (ElectionRepository.update_row target (fun x => ElectionRepository.set_status x s) db)
    election_id
  = Some (if election_id =? Election.id target
          then ElectionRepository.set_status target s else e).
Proof.
  intros Ht He. rewrite lookup_update_row by reflexivity. rewrite He. cbn [option_map].
  rewrite (lookup_election_id _ _ _ He).
  destruct (election_id =? Election.id target) eqn:Heq; [|reflexivity].
  apply String.eqb_eq in Heq. subst election_id. congruence.
Qed.




Lemma update_election_unfold election_id kw db :
  ElectionService.update_election election_id kw db =
  let patch (e : Election.t) :=
    fold_left (fun e kv => match snd kv with
                           | PyNone => e
                           | v => ElectionRepository.setattr e (fst kv) v
                           end) kw e in
  match lookup_election db election_id with
  | None => (Raise (HTTPException HTTP_404_NOT_FOUND "Election not found"), db)
  | Some e =>
      if negb (Election.status e =? "draft")
      then (Raise (HTTPException HTTP_400_BAD_REQUEST
                     "Can only update elections in draft status"), db)
      else (Return (patch e), ElectionRepository.update_row e patch db)
  end.
Proof.
  unfold ElectionService.update_election, lookup_election, bind,
    ElectionRepository.get_by_id, query, raise_if, raise, ret,
    ElectionRepository.update, commit.
  destruct (find _ (elections db)) as [e|]; [|reflexivity].
  destruct (negb _); reflexivity.
Qed.









Lemma find_app_none {A} (p : A -> bool) (l1 l2 : list A) :
  find p l1 = None -> find p (l1 ++ l2) = find p l2.
Proof.
  induction l1 as [|y l1 IH]; [reflexivity|].
  cbn. destruct (p y); [discriminate | exact IH].
Qed.









(** With a second candidate the draft e2 is activated, then closed; it
    cannot be activated again. *)
Example e2_runs_through_the_lifecycle :
  let ops := [ op_add_candidate (alone 10 "c8" 10) "e2" "Second" None;
               op_activate_election "e2";
               op_close_election "e2" ] in
  let db' := run Sample.settings ops Sample.db in
  status_of (run Sample.settings (firstn 2 ops) Sample.db) "e2" = Some "active"
  /\ status_of db' "e2" = Some "closed"
  /\ ElectionService.activate_election "e2" db'
     = (Raise (HTTPException HTTP_400_BAD_REQUEST
                 "Can only activate elections in draft status"), db').
Proof. repeat split. Qed.

(** * Further properties of the services *)

Local Opaque generate_vote_token hash_vote_token.

(** * Further properties of the services *)

(** ** How a request changes the database *)

Lemma filter_all {A} (l : list A) : filter (fun _ => true) l = l.
Proof. induction l as [|x l IH]; cbn; [reflexivity | now rewrite IH]. Qed.

Lemma existsb_witness {A} (p : A -> bool) (l : list A) x :
  In x l -> p x = true -> existsb p l = true.
Proof. intros Hin Hp. apply existsb_exists. now exists x. Qed.

Lemma setattr_keeps_owner e key v :
  key <> "id" -> key <> "organization_id" ->
  Election.id (ElectionRepository.setattr e key v) = Election.id e
  /\ Election.organization_id (ElectionRepository.setattr e key v)
     = Election.organization_id e.
Proof.
  intros Hid Horg. apply String.eqb_neq in Hid, Horg.
  destruct e, v; cbn; rewrite ?Hid, ?Horg;
    repeat match goal with
           | |- context [if ?c then _ else _] => destruct c
           end; split; reflexivity.
Qed.

Lemma patch_keeps_owner (kw : kwargs) e :
  Forall (fun kv => fst kv <> "id" /\ fst kv <> "organization_id") kw ->
  let e' := fold_left (fun e kv => match snd kv with
                                   | PyNone => e
                                   | v => ElectionRepository.setattr e (fst kv) v
                                   end) kw e in
  Election.id e' = Election.id e
  /\ Election.organization_id e' = Election.organization_id e.
Proof.
  intros Hkw. revert e. induction Hkw as [|kv kw [Hid Horg] _ IH]; intros e.
  - split; reflexivity.
  - cbn [fold_left]. cbv zeta in IH |- *.
    destruct (setattr_keeps_owner e (fst kv) (snd kv) Hid Horg) as [H1 H2].
    destruct (snd kv) eqn:Hv.
    + apply IH.
    + destruct (IH (ElectionRepository.setattr e (fst kv) (PyStr s))) as [-> ->].
      now split.
    + destruct (IH (ElectionRepository.setattr e (fst kv) (PyDatetime t))) as [-> ->].
      now split.
Qed.

Lemma model_dump_keeps_owner data :
  Forall (fun kv : string * value => fst kv <> "id" /\ fst kv <> "organization_id")
         (ElectionUpdate.model_dump data).
Proof.
  unfold ElectionUpdate.model_dump.
  destruct data as [[[?|]|] [[?|]|] [[?|]|] [[?|]|]]; cbn;
    repeat constructor; cbn; discriminate.
Qed.

(** [UPDATE elections ... WHERE id = target.id] as a rewriting of the table. *)
Lemma update_row_effect db target f :
  (forall e, Election.id (f e) = Election.id e
             /\ Election.organization_id (f e) = Election.organization_id e) ->
  effect db (ElectionRepository.update_row target f db).
Proof.
  intros Hf. unfold ElectionRepository.update_row.
  apply elections_rewritten. intros e.
  destruct (Election.id e =? Election.id target); [apply Hf | now split].
Qed.

Lemma delete_election_effect db target :
  In target (elections db) ->
  effect db (snd (ElectionRepository.delete target db)).
Proof.
  intros Htarget. unfold ElectionRepository.delete, commit. cbn [snd].
  rewrite <- (filter_all (organizations db)) at 1.
  apply rows_deleted.
  - reflexivity.
  - intros c e _ Hc _ He. rewrite He. exact Hc.
  - intros v e _ Hv _ He. rewrite He.
    apply negb_true_iff, orb_false_iff in Hv. now rewrite (proj1 Hv).
  - intros v c _ Hv Hc Hid.
    apply negb_true_iff, orb_false_iff in Hv. destruct Hv as [_ Hv].
    destruct (Candidate.election_id c =? Election.id target) eqn:Hgone; [|reflexivity].
    exfalso. rewrite (existsb_witness _ _ c Hc) in Hv; [discriminate|].
    now rewrite Hid, String.eqb_refl, Hgone.
Qed.

Lemma delete_candidate_effect db target :
  effect db (snd (CandidateRepository.delete target db)).
Proof.
  unfold CandidateRepository.delete, commit. cbn [snd].
  rewrite <- (filter_all (organizations db)) at 1.
  rewrite <- (filter_all (elections db)) at 1.
  apply rows_deleted; try reflexivity.
  intros v c _ Hv _ Hid. now rewrite Hid.
Qed.

Lemma delete_organization_effect db target :
  effect db (snd (Organizations.OrganizationRepository.delete target db)).
Proof.
  unfold Organizations.OrganizationRepository.delete, commit. cbn [snd].
  apply rows_deleted.
  - intros e o _ He _ Hid. now rewrite Hid.
  - intros c e _ Hc He Hid.
    destruct (Election.organization_id e =? Organization.id target) eqn:Hgone;
      [|reflexivity].
    exfalso. apply negb_true_iff in Hc.
    rewrite (existsb_witness _ _ e He) in Hc; [discriminate|].
    now rewrite Hid, String.eqb_refl, Hgone.
  - intros v e _ Hv He Hid.
    apply negb_true_iff, orb_false_iff in Hv. destruct Hv as [Hv _].
    destruct (Election.organization_id e =? Organization.id target) eqn:Hgone;
      [|reflexivity].
    exfalso. rewrite (existsb_witness _ _ e He) in Hv; [discriminate|].
    now rewrite Hid, String.eqb_refl, Hgone.
  - intros v c _ Hv Hc Hid.
    apply negb_true_iff, orb_false_iff in Hv. destruct Hv as [_ Hv].
    apply negb_true_iff.
    destruct (existsb _ (elections db)) eqn:Hgone; [|reflexivity].
    exfalso. rewrite (existsb_witness _ _ c Hc) in Hv; [discriminate|].
    now rewrite Hid, String.eqb_refl, Hgone.
Qed.

Lemma cast_vote_effect settings rt user_id election_id candidate_id db :
  let db' := snd (VoteService.cast_vote settings rt user_id election_id candidate_id db) in
  db' = db \/ effect (concurrent rt db) db'.
Proof.
  cbv zeta. rewrite cast_vote_unfold.
  destruct (lookup_election db election_id) as [election|]; [|now left].
  destruct (negb _); [now left|].
  destruct (_ <? _)%Z; [now left|].
  destruct (_ >? _)%Z; [now left|].
  destruct (match lookup_candidate db candidate_id with None => true | Some c => _ end);
    [now left|].
  cbv zeta. destruct (recorded db election_id _); [now left|].
  right.
  destruct (insert_and_confirm_cases rt election_id candidate_id
              (hashed_token_of settings (voter_identifier db user_id) election_id)
              (concurrent rt db)) as [[Hok Hrun]|[c [_ Hrun]]]; rewrite Hrun; cbn [snd].
  - now apply vote_inserted.
  - apply unchanged.
Qed.

Lemma exec_effect settings op db : effect db (exec settings op db).
Proof.
  destruct op; cbn [exec].
  - unfold ElectionService.create_election, bind, OrganizationRepository.get_by_id,
      query, raise_if, raise, ret, ElectionRepository.create.
    destruct (find _ (organizations db)); [|apply unchanged].
    destruct (datetime.le _ _) as [[|]|]; [apply unchanged| |apply unchanged].
    destruct (ElectionRepository.violated db _) eqn:Hv; [apply unchanged|].
    cbn [snd]. now apply election_inserted.
  - rewrite update_election_unfold. cbv zeta.
    destruct (lookup_election db election_id); [|apply unchanged].
    destruct (negb _); [apply unchanged|]. cbn [snd].
    apply update_row_effect. intros e.
    apply (patch_keeps_owner _ e (model_dump_keeps_owner data)).
  - rewrite activate_election_unfold.
    destruct (lookup_election db election_id); [|apply unchanged].
    destruct (negb _); [apply unchanged|].
    destruct (_ <? 2)%nat; [apply unchanged|]. cbn [snd].
    apply update_row_effect. now split.
  - rewrite close_election_unfold.
    destruct (lookup_election db election_id); [|apply unchanged].
    destruct (negb _); [apply unchanged|]. cbn [snd].
    apply update_row_effect. now split.
  - unfold ElectionService.delete_election, bind, ElectionRepository.get_by_id, query,
      raise_if, raise, ret.
    destruct (find _ (elections db)) as [target|] eqn:Ht; [|apply unchanged].
    destruct (negb _); [apply unchanged|].
    apply find_some in Ht. destruct Ht as [Hin _].
    pose proof (delete_election_effect db target Hin) as Heff.
    destruct (ElectionRepository.delete target db) as [[[]|e] db'] eqn:Hdel;
      cbn [snd] in *; exact Heff.
  - unfold ElectionService.add_candidate, bind, ElectionRepository.get_by_id, query,
      raise_if, raise, ret, CandidateRepository.create.
    destruct (find _ (elections db)); [|apply unchanged].
    destruct (negb _); [apply unchanged|].
    destruct (CandidateRepository.violated db _) eqn:Hv; [apply unchanged|].
    cbn [snd]. now apply candidate_inserted.
  - unfold ElectionService.delete_candidate, bind, CandidateRepository.get_by_id,
      ElectionRepository.get_by_id, query, raise_if, raise, ret.
    destruct (find _ (candidates db)) as [target|]; [|apply unchanged].
    destruct (match find _ (elections db) with Some _ => _ | None => _ end);
      [apply unchanged|].
    pose proof (delete_candidate_effect db target) as Heff.
    destruct (CandidateRepository.delete target db) as [[[]|e] db'] eqn:Hdel;
      cbn [snd] in *; exact Heff.
  - destruct (cast_vote_effect settings (alone (now rt) (uuid4 rt) (created_now rt))
                user_id election_id candidate_id db) as [-> | Heff];
      [apply unchanged | exact Heff].
  - rewrite get_results_unfold.
    destruct (lookup_election db election_id); [|apply unchanged].
    destruct (negb _); apply unchanged.
  - rewrite check_vote_status_unfold. apply unchanged.
Qed.

Lemma serve_effect settings r db : effect db (serve settings r db).
Proof.
  destruct r; cbn [serve].
  - apply exec_effect.
  - unfold Organizations.OrganizationService.create_organization,
      Organizations.OrganizationRepository.create.
    destruct (Organizations.OrganizationRepository.violated db _) eqn:Hv;
      [apply unchanged|].
    cbn [snd]. now apply organization_inserted.
  - unfold Organizations.OrganizationService.delete_organization, bind,
      Organizations.OrganizationRepository.get_by_id, query, raise_if, raise, ret.
    destruct (find _ (organizations db)) as [target|]; [|apply unchanged].
    destruct (negb _); [apply unchanged|].
    pose proof (delete_organization_effect db target) as Heff.
    destruct (Organizations.OrganizationRepository.delete target db) as [[[]|e] db']
      eqn:Hdel; cbn [snd] in *; exact Heff.
Qed.

(** ** The schema constraints hold after every request *)

Section Keys.

Context {A : Type} (key : A -> string).

Lemma existsb_key (rows : list A) (k : string) :
  existsb (fun r => key r =? k) rows = true <-> In k (map key rows).
Proof.
  rewrite existsb_exists, in_map_iff. split.
  - intros [r [Hin Heq]]. apply String.eqb_eq in Heq. now exists r.
  - intros [r [Heq Hin]]. exists r. split; [exact Hin|]. now apply String.eqb_eq.
Qed.

Lemma fresh_key (rows : list A) (k : string) :
  existsb (fun r => key r =? k) rows = false -> ~ In k (map key rows).
Proof. intros Hfalse Hin. apply existsb_key in Hin. congruence. Qed.

End Keys.

Lemma NoDup_snoc {B} (xs : list B) (x : B) :
  NoDup xs -> ~ In x xs -> NoDup (xs ++ [x]).
Proof.
  intros Hxs Hx. apply NoDup_app; [exact Hxs | repeat constructor; intros [] |].
  intros y Hy [<-|[]]. now apply Hx.
Qed.

Lemma kept_keys_unique {A B} (key : A -> B) (keep : A -> bool) (rows : list A) :
  NoDup (map key rows) -> NoDup (map key (filter keep rows)).
Proof.
  induction rows as [|r rows IH]; cbn; [trivial|].
  intros Hnd. apply NoDup_cons_iff in Hnd. destruct Hnd as [Hfresh Hrest].
  destruct (keep r); [|exact (IH Hrest)].
  cbn. apply NoDup_cons; [|exact (IH Hrest)].
  intros Hin. apply Hfresh. apply in_map_iff in Hin.
  destruct Hin as [r' [Hkey Hin]]. apply filter_In in Hin.
  rewrite <- Hkey. apply in_map. tauto.
Qed.

Lemma key_still_there {A} (key : A -> string) (rows : list A) (row : A) (k : string) :
  In k (map key rows) -> In k (map key (rows ++ [row])).
Proof. intros Hin. rewrite map_app. apply in_or_app. now left. Qed.

Lemma recorded_key db v :
  existsb (fun x => (Vote.election_id x =? Vote.election_id v)
                    && (Vote.hashed_voter_token x =? Vote.hashed_voter_token v))
          (votes db) = false ->
  ~ In (ledger_key v) (map ledger_key (votes db)).
Proof.
  intros Hfalse Hin. apply in_map_iff in Hin. destruct Hin as [x [Hkey Hin]].
  injection Hkey as He Hh.
  rewrite (existsb_witness _ _ x Hin) in Hfalse; [discriminate|].
  now rewrite He, Hh, !String.eqb_refl.
Qed.

Lemma effect_keeps_integrity db db' :
  effect db db' -> integrity db -> integrity db'.
Proof.
  intros Heff [Ho He Hc Hv Hl Heo Hce Hve Hvc].
  destruct Heff as [ | f Hf | o Hok | e Hok | c Hok | v Hok
                   | keep_o keep_e keep_c keep_v Keo Kce Kve Kvc ].
  - now constructor.
  - assert (Hids : map Election.id (map f (elections db)) = map Election.id (elections db)).
    { rewrite map_map. apply map_ext. intros e. apply Hf. }
    constructor; cbn [organizations elections candidates votes set_elections];
      rewrite ?Hids; try assumption.
    intros e' Hin. apply in_map_iff in Hin. destruct Hin as [e [<- Hin]].
    rewrite (proj2 (Hf e)). now apply Heo.
  - unfold Organizations.OrganizationRepository.violated in Hok.
    destruct (existsb _ (organizations db)) eqn:Hid; [discriminate|].
    constructor; cbn [organizations elections candidates votes set_organizations];
      try assumption.
    + rewrite map_app. apply NoDup_snoc; [exact Ho|].
      exact (fresh_key Organization.id _ _ Hid).
    + intros e Hin. apply key_still_there. now apply Heo.
  - unfold ElectionRepository.violated in Hok.
    destruct (existsb _ (elections db)) eqn:Hid; [discriminate|].
    destruct (existsb _ (organizations db)) eqn:Horg; [|discriminate].
    constructor; cbn [organizations elections candidates votes set_elections];
      try assumption.
    + rewrite map_app. apply NoDup_snoc; [exact He|].
      exact (fresh_key Election.id _ _ Hid).
    + intros x Hin. apply in_app_or in Hin. destruct Hin as [Hin|[<-|[]]].
      * now apply Heo.
      * now apply (existsb_key Organization.id).
    + intros x Hin. apply key_still_there. now apply Hce.
    + intros x Hin. apply key_still_there. now apply Hve.
  - unfold CandidateRepository.violated in Hok.
    destruct (existsb _ (candidates db)) eqn:Hid; [discriminate|].
    destruct (existsb _ (elections db)) eqn:Hel; [|discriminate].
    constructor; cbn [organizations elections candidates votes set_candidates];
      try assumption.
    + rewrite map_app. apply NoDup_snoc; [exact Hc|].
      exact (fresh_key Candidate.id _ _ Hid).
    + intros x Hin. apply in_app_or in Hin. destruct Hin as [Hin|[<-|[]]].
      * now apply Hce.
      * now apply (existsb_key Election.id).
    + intros x Hin. apply key_still_there. now apply Hvc.
  - unfold VoteRepository.violated in Hok.
    destruct (existsb _ (votes db)) eqn:Hid; [discriminate|].
    destruct (existsb _ (votes db)) eqn:Hkey in Hok; [discriminate|].
    destruct (existsb _ (elections db)) eqn:Hel; [|discriminate].
    destruct (existsb _ (candidates db)) eqn:Hca; [|discriminate].
    constructor; cbn [organizations elections candidates votes set_votes];
      try assumption.
    + rewrite map_app. apply NoDup_snoc; [exact Hv|].
      exact (fresh_key Vote.id _ _ Hid).
    + rewrite map_app. apply NoDup_snoc; [exact Hl|].
      now apply recorded_key.
    + intros x Hin. apply in_app_or in Hin. destruct Hin as [Hin|[<-|[]]].
      * now apply Hve.
      * now apply (existsb_key Election.id).
    + intros x Hin. apply in_app_or in Hin. destruct Hin as [Hin|[<-|[]]].
      * now apply Hvc.
      * now apply (existsb_key Candidate.id).
  - constructor; cbn [organizations elections candidates votes];
      try (now apply kept_keys_unique).
    + intros e Hin. apply filter_In in Hin. destruct Hin as [Hin Hkeep].
      pose proof (Heo e Hin) as Horg. apply in_map_iff in Horg.
      destruct Horg as [o [Hid Ho_in]]. rewrite <- Hid.
      apply in_map, filter_In. split; [exact Ho_in|].
      exact (Keo e o Hin Hkeep Ho_in Hid).
    + intros c Hin. apply filter_In in Hin. destruct Hin as [Hin Hkeep].
      pose proof (Hce c Hin) as Hel. apply in_map_iff in Hel.
      destruct Hel as [e [Hid He_in]]. rewrite <- Hid.
      apply in_map, filter_In. split; [exact He_in|].
      exact (Kce c e Hin Hkeep He_in Hid).
    + intros v Hin. apply filter_In in Hin. destruct Hin as [Hin Hkeep].
      pose proof (Hve v Hin) as Hel. apply in_map_iff in Hel.
      destruct Hel as [e [Hid He_in]]. rewrite <- Hid.
      apply in_map, filter_In. split; [exact He_in|].
      exact (Kve v e Hin Hkeep He_in Hid).
    + intros v Hin. apply filter_In in Hin. destruct Hin as [Hin Hkeep].
      pose proof (Hvc v Hin) as Hca. apply in_map_iff in Hca.
      destruct Hca as [c [Hid Hc_in]]. rewrite <- Hid.
      apply in_map, filter_In. split; [exact Hc_in|].
      exact (Kvc v c Hin Hkeep Hc_in Hid).
Qed.

(** X1. [cast_vote] keeps the schema constraints, in particular one vote
    row per election and hashed token, whatever other sessions commit
    between its duplicate check and its INSERT, as long as what they leave
    satisfies the constraints. *)
Theorem cast_vote_keeps_integrity settings rt user_id election_id candidate_id db :
  integrity db -> integrity (concurrent rt db) ->
  integrity (snd (VoteService.cast_vote settings rt user_id election_id candidate_id db)).
Proof.
  intros Hdb Hshared.
  destruct (cast_vote_effect settings rt user_id election_id candidate_id db)
    as [-> | Heff]; [exact Hdb|].
  exact (effect_keeps_integrity _ _ Heff Hshared).
Qed.

Lemma sample_integrity : integrity Sample.db.
Proof.
  constructor; cbn;
    try (repeat constructor; cbn; intuition discriminate);
    intros x Hin; repeat (destruct Hin as [<-|Hin]; [cbn; tauto|]); destruct Hin.
Qed.

Lemma sample_after_u1 :
  Sample.db_after_u1
  = set_votes Sample.db
      [Vote.mk "v1" "e1" "c1" (hashed_token_of Sample.settings "E42" "e1") 151].
Proof. reflexivity. Qed.

Lemma sample_after_u1_integrity : integrity Sample.db_after_u1.
Proof.
  rewrite sample_after_u1.
  constructor; cbn;
    try (repeat constructor; cbn; intuition discriminate);
    intros x Hin; repeat (destruct Hin as [<-|Hin]; [cbn; tauto|]); destruct Hin.
Qed.

(** The second of two racing requests of account u1. *)
Lemma cast_vote_keeps_integrity_witness :
  integrity (snd (VoteService.cast_vote Sample.settings Sample.racing
                    "u1" "e1" "c2" Sample.db)).
Proof.
  apply cast_vote_keeps_integrity.
  - exact sample_integrity.
  - exact sample_after_u1_integrity.
Defined.

(** X2. Every request (the election, candidate and vote operations of the
    API, creating and deleting an organization), and so every sequence of
    requests, keeps the schema constraints: primary keys stay unique, the
    ledger keeps one row per election and hashed token, and no row refers
    to a deleted organization, election or candidate. *)
Theorem requests_keep_integrity settings rs db :
  integrity db -> integrity (serve_all settings rs db).
Proof.
  revert db. induction rs as [|r rs IH]; intros db Hdb; [exact Hdb|].
  cbn [serve_all fold_left]. apply IH.
  exact (effect_keeps_integrity _ _ (serve_effect settings r db) Hdb).
Qed.

Lemma requests_keep_integrity_witness :
  integrity (serve_all Sample.settings
               [ on_elections (op_cast_vote (alone 150 "v1" 151) "u1" "e1" "c1");
                 on_elections (op_close_election "e1");
                 delete_organization "o1" "u1" ]
               Sample.db).
Proof. apply requests_keep_integrity. exact sample_integrity. Defined.

(** ** When a vote is accepted *)

Lemma lookup_found {A} (key : A -> string) (rows : list A) (k : string) (r : A) :
  find (fun x => key x =? k) rows = Some r -> In r rows /\ key r = k.
Proof.
  intros H. apply find_some in H. destruct H as [Hin Hk].
  split; [exact Hin | now apply String.eqb_eq].
Qed.

(** What a returned [cast_vote] tells about the database it was called on. *)
Lemma cast_vote_return_facts
    settings rt user_id election_id candidate_id db confirmation db' :
  VoteService.cast_vote settings rt user_id election_id candidate_id db
  = (Return confirmation, db') ->
  ballot_accepted rt election_id candidate_id db
  /\ recorded db election_id
       (hashed_token_of settings (voter_identifier db user_id) election_id) = false
  /\ VoteRepository.violated (concurrent rt db)
       (Vote.mk (uuid4 rt) election_id candidate_id
          (hashed_token_of settings (voter_identifier db user_id) election_id)
          (created_now rt)) = None.
Proof.
  rewrite cast_vote_unfold.
  destruct (lookup_election db election_id) as [election|] eqn:He; [|discriminate].
  destruct (Election.status election =? "active") eqn:Hs; [|discriminate].
  cbn [negb].
  destruct (now rt <? Election.start_time election)%Z eqn:Hlo; [discriminate|].
  destruct (now rt >? Election.end_time election)%Z eqn:Hhi; [discriminate|].
  destruct (lookup_candidate db candidate_id) as [candidate|] eqn:Hc; [|discriminate].
  destruct (Candidate.election_id candidate =? election_id) eqn:Hb; [|discriminate].
  cbn [negb]. cbv zeta.
  destruct (recorded db election_id _) eqn:Hrec; [discriminate|].
  destruct (insert_and_confirm_cases rt election_id candidate_id
              (hashed_token_of settings (voter_identifier db user_id) election_id)
              (concurrent rt db)) as [[Hok Hrun]|[c [_ Hrun]]];
    rewrite Hrun; [|discriminate].
  intros _. split; [|split; [reflexivity | exact Hok]].
  exists election, candidate.
  apply String.eqb_eq in Hs, Hb. apply Z.ltb_ge in Hlo.
  rewrite Z.gtb_ltb in Hhi. apply Z.ltb_ge in Hhi.
  repeat split; assumption.
Qed.

(** For an accepted ballot, both foreign keys of the new row are there. *)
Lemma accepted_ballot_inserts settings rt user_id election_id candidate_id db :
  ballot_accepted rt election_id candidate_id db ->
  recorded db election_id
    (hashed_token_of settings (voter_identifier db user_id) election_id) = false ->
  ~ In (uuid4 rt) (map Vote.id (votes db)) ->
  VoteRepository.violated db
    (Vote.mk (uuid4 rt) election_id candidate_id
       (hashed_token_of settings (voter_identifier db user_id) election_id)
       (created_now rt)) = None.
Proof.
  intros (election & candidate & He & _ & _ & Hc & _) Hrec Hfresh.
  unfold VoteRepository.violated.
  cbn [Vote.id Vote.election_id Vote.candidate_id Vote.hashed_voter_token].
  destruct (existsb (fun x => Vote.id x =? uuid4 rt) (votes db)) eqn:Hid.
  { exfalso. apply Hfresh. now apply (existsb_key Vote.id). }
  unfold recorded in Hrec. rewrite Hrec.
  apply (lookup_found Election.id) in He. apply (lookup_found Candidate.id) in Hc.
  rewrite (proj2 (existsb_key Election.id (elections db) election_id)),
          (proj2 (existsb_key Candidate.id (candidates db) candidate_id)).
  - reflexivity.
  - destruct Hc as [Hin <-]. now apply in_map.
  - destruct He as [Hin <-]. now apply in_map.
Qed.

(** An accepted ballot of a voter without row in the election, cast alone
    under an unused identifier, is recorded. *)
Lemma accepted_ballot_is_cast
    settings clock id created user_id election_id candidate_id db :
  let rt := alone clock id created in
  ballot_accepted rt election_id candidate_id db ->
  recorded db election_id
    (hashed_token_of settings (voter_identifier db user_id) election_id) = false ->
  ~ In id (map Vote.id (votes db)) ->
  VoteService.cast_vote settings rt user_id election_id candidate_id db
  = (Return (VoteConfirmation.mk "Vote cast successfully" election_id created),
     set_votes db
       (votes db ++ [Vote.mk id election_id candidate_id
                       (hashed_token_of settings (voter_identifier db user_id) election_id)
                       created])).
Proof.
  intros rt Hacc Hrec Hfresh.
  rewrite (cast_vote_accepted _ _ _ _ _ _ Hacc). cbv zeta. rewrite Hrec.
  destruct (insert_and_confirm_cases rt election_id candidate_id
              (hashed_token_of settings (voter_identifier db user_id) election_id)
              (concurrent rt db)) as [[_ Hrun]|[c [Hbad _]]].
  - exact Hrun.
  - exfalso. cbv zeta in Hbad. change (concurrent rt db) with db in Hbad.
    rewrite (accepted_ballot_inserts settings rt user_id election_id candidate_id db
               Hacc Hrec Hfresh) in Hbad.
    discriminate.
Qed.

(** X3. A [cast_vote] that runs alone returns exactly when the election is
    active, the clock reading lies in its time window, the candidate stands
    in it, no row of the election carries the voter's hashed token, and the
    identifier drawn for the new row is unused. *)
Theorem cast_vote_returns_iff
    settings clock id created user_id election_id candidate_id db :
  let rt := alone clock id created in
  (exists confirmation db',
     VoteService.cast_vote settings rt user_id election_id candidate_id db
     = (Return confirmation, db'))
  <-> ballot_accepted rt election_id candidate_id db
      /\ recorded db election_id
           (hashed_token_of settings (voter_identifier db user_id) election_id) = false
      /\ ~ In id (map Vote.id (votes db)).
Proof.
  intros rt. split.
  - intros (confirmation & db' & Hrun).
    destruct (cast_vote_return_facts _ _ _ _ _ _ _ _ Hrun) as (Hacc & Hrec & Hok).
    split; [exact Hacc|]. split; [exact Hrec|].
    subst rt. unfold VoteRepository.violated, alone in Hok.
    cbn [Vote.id concurrent uuid4] in Hok.
    destruct (existsb (fun x => Vote.id x =? id) (votes db)) eqn:Hid; [discriminate|].
    exact (fresh_key Vote.id _ _ Hid).
  - intros (Hacc & Hrec & Hfresh).
    pose proof (accepted_ballot_is_cast settings clock id created user_id election_id
                  candidate_id db Hacc Hrec Hfresh) as Hrun.
    cbv zeta in Hrun. fold rt in Hrun. rewrite Hrun. eauto.
Qed.

(** Account u3 votes for c2 in the open election e1. *)
Lemma cast_vote_returns_iff_witness :
  exists confirmation db',
    VoteService.cast_vote Sample.settings (alone 150 "v1" 151) "u3" "e1" "c2" Sample.db
    = (Return confirmation, db').
Proof.
  apply (proj2 (cast_vote_returns_iff Sample.settings 150 "v1" 151 "u3" "e1" "c2"
                  Sample.db)).
  split; [|split].
  - apply sample_ballot_accepted; [cbn; lia | reflexivity | reflexivity].
  - reflexivity.
  - cbn. tauto.
Defined.

(** ** One vote per voter and election *)

(** X4. After a [cast_vote] has returned, no further [cast_vote] of the
    same user in the same election returns, for any candidate and at any
    time: it raises and writes nothing, and when the ballot passes the
    validations the exception is [DuplicateVote]. (The users table is the
    one the first call saw.) *)
Theorem second_vote_is_refused
    settings rt1 rt2 user_id election_id candidate1 candidate2 db confirmation db1 :
  users (concurrent rt1 db) = users db ->
  VoteService.cast_vote settings rt1 user_id election_id candidate1 db
  = (Return confirmation, db1) ->
  (exists e,
     VoteService.cast_vote settings rt2 user_id election_id candidate2 db1
     = (Raise e, db1))
  /\ (ballot_accepted rt2 election_id candidate2 db1 ->
      VoteService.cast_vote settings rt2 user_id election_id candidate2 db1
      = (Raise DuplicateVote, db1)).
Proof.
  intros Husers Hrun.
  pose proof (has_voted_after_cast _ _ _ _ _ _ _ _ Husers Hrun) as Hvoted.
  rewrite check_vote_status_unfold in Hvoted. cbn [fst] in Hvoted.
  injection Hvoted as Hrec.
  split.
  - rewrite cast_vote_unfold.
    destruct (lookup_election db1 election_id) as [election|]; [|eauto].
    destruct (negb _); [eauto|].
    destruct (_ <? _)%Z; [eauto|].
    destruct (_ >? _)%Z; [eauto|].
    destruct (match lookup_candidate db1 candidate2 with None => true | Some c => _ end);
      [eauto|].
    cbv zeta. rewrite Hrec. eauto.
  - intros Hacc. rewrite (cast_vote_accepted _ _ _ _ _ _ Hacc). cbv zeta.
    now rewrite Hrec.
Qed.

(** Account u1 has voted for c1 in e1 and tries c2 ten ticks later. *)
Lemma second_vote_is_refused_witness :
  VoteService.cast_vote Sample.settings (alone 160 "v2" 161) "u1" "e1" "c2"
    Sample.db_after_u1
  = (Raise DuplicateVote, Sample.db_after_u1).
Proof.
  refine (proj2 (second_vote_is_refused Sample.settings (alone 150 "v1" 151)
                   (alone 160 "v2" 161) "u1" "e1" "c1" "c2" Sample.db
                   (VoteConfirmation.mk "Vote cast successfully" "e1" 151)
                   Sample.db_after_u1 _ _) _).
  - reflexivity.
  - reflexivity.
  - apply sample_ballot_accepted; [cbn; lia | reflexivity | reflexivity].
Defined.

(** A [cast_vote] that raises leaves the store as it found it. *)
Lemma cast_vote_raise_writes_nothing
    settings rt user_id election_id candidate_id db e db' :
  VoteService.cast_vote settings rt user_id election_id candidate_id db = (Raise e, db') ->
  db' = db \/ db' = concurrent rt db.
Proof.
  rewrite cast_vote_unfold.
  destruct (lookup_election db election_id) as [election|];
    [|intros [= _ <-]; now left].
  destruct (negb _); [intros [= _ <-]; now left|].
  destruct (_ <? _)%Z; [intros [= _ <-]; now left|].
  destruct (_ >? _)%Z; [intros [= _ <-]; now left|].
  destruct (match lookup_candidate db candidate_id with None => true | Some c => _ end);
    [intros [= _ <-]; now left|].
  cbv zeta. destruct (recorded db election_id _); [intros [= _ <-]; now left|].
  destruct (insert_and_confirm_cases rt election_id candidate_id
              (hashed_token_of settings (voter_identifier db user_id) election_id)
              (concurrent rt db)) as [[_ Hrun]|[c [_ Hrun]]];
    rewrite Hrun; [discriminate|].
  intros [= _ <-]. now right.
Qed.

(** ** What a vote changes *)

Lemma filter_snoc {A} (p : A -> bool) (l : list A) (x : A) :
  filter p (l ++ [x]) = (filter p l ++ if p x then [x] else [])%list.
Proof. rewrite filter_app. cbn. now destruct (p x). Qed.

(** X5. A returned [cast_vote] adds one vote to the count of its candidate
    and one to the total of its election, and leaves the count of every
    other candidate and the total of every other election as the other
    sessions left them. *)
Theorem cast_vote_counts_once
    settings rt user_id election_id candidate_id db confirmation db' :
  VoteService.cast_vote settings rt user_id election_id candidate_id db
  = (Return confirmation, db') ->
  let shared := concurrent rt db in
  votes_for db' candidate_id = S (votes_for shared candidate_id)
  /\ votes_in db' election_id = S (votes_in shared election_id)
  /\ (forall c, c <> candidate_id -> votes_for db' c = votes_for shared c)
  /\ (forall e, e <> election_id -> votes_in db' e = votes_in shared e).
Proof.
  intros Hrun shared. apply cast_vote_returns in Hrun. fold shared in Hrun.
  unfold votes_for, votes_in. rewrite Hrun. cbn [votes set_votes].
  repeat split.
  - rewrite filter_snoc. cbn [Vote.candidate_id]. rewrite String.eqb_refl, length_app.
    cbn. lia.
  - rewrite filter_snoc. cbn [Vote.election_id]. rewrite String.eqb_refl, length_app.
    cbn. lia.
  - intros c Hc. rewrite filter_snoc. cbn [Vote.candidate_id].
    apply not_eq_sym, String.eqb_neq in Hc. rewrite Hc, app_nil_r. reflexivity.
  - intros e He. rewrite filter_snoc. cbn [Vote.election_id].
    apply not_eq_sym, String.eqb_neq in He. rewrite He, app_nil_r. reflexivity.
Qed.

Lemma cast_vote_counts_once_witness :
  votes_for Sample.db_after_u1 "c1" = 1%nat
  /\ votes_in Sample.db_after_u1 "e1" = 1%nat
  /\ (forall c, c <> "c1" -> votes_for Sample.db_after_u1 c = votes_for Sample.db c)
  /\ (forall e, e <> "e1" -> votes_in Sample.db_after_u1 e = votes_in Sample.db e).
Proof.
  exact (cast_vote_counts_once Sample.settings (alone 150 "v1" 151) "u1" "e1" "c1"
           Sample.db (VoteConfirmation.mk "Vote cast successfully" "e1" 151)
           Sample.db_after_u1 eq_refl).
Defined.

(** X6. A vote in one election is not seen in another: after any
    [cast_vote] that runs alone, returned or not, the status check of every
    user in every other election answers as before. *)
Theorem other_elections_unaffected
    settings clock id created user_id election_id candidate_id db other_user other :
  other <> election_id ->
  let db' := snd (VoteService.cast_vote settings (alone clock id created)
                    user_id election_id candidate_id db) in
  fst (VoteService.check_vote_status settings other_user other db')
  = fst (VoteService.check_vote_status settings other_user other db).
Proof.
  intros Hother db'. subst db'.
  destruct (VoteService.cast_vote settings (alone clock id created) user_id election_id
              candidate_id db) as [[confirmation|e] db'] eqn:Hrun; cbn [snd].
  - apply cast_vote_returns in Hrun. change (concurrent (alone clock id created) db)
      with db in Hrun.
    assert (Hid : voter_identifier db' other_user = voter_identifier db other_user)
      by (rewrite Hrun; reflexivity).
    assert (Hrec : forall h, recorded db' other h = recorded db other h).
    { intros h. unfold recorded. rewrite Hrun. cbn [votes set_votes].
      rewrite existsb_app. cbn [existsb Vote.election_id].
      apply not_eq_sym, String.eqb_neq in Hother. rewrite Hother. cbn.
      now rewrite orb_false_r. }
    rewrite !check_vote_status_unfold. cbn [fst]. now rewrite Hid, Hrec.
  - destruct (cast_vote_raise_writes_nothing _ _ _ _ _ _ _ _ Hrun) as [-> | ->];
      reflexivity.
Qed.

Lemma other_elections_unaffected_witness :
  fst (VoteService.check_vote_status Sample.settings "u1" "e3" Sample.db_after_u1)
  = fst (VoteService.check_vote_status Sample.settings "u1" "e3" Sample.db).
Proof.
  apply (other_elections_unaffected Sample.settings 150 "v1" 151 "u1" "e1" "c1"
           Sample.db "u1" "e3").
  discriminate.
Defined.

(** ** Votes and candidates of the same election *)

(** The votes after a request are votes that were there, or the vote of an
    accepted ballot. *)
Lemma serve_new_votes settings r db v :
  In v (votes (serve settings r db)) ->
  In v (votes db)
  \/ exists c, In c (candidates db)
               /\ Candidate.id c = Vote.candidate_id v
               /\ Candidate.election_id c = Vote.election_id v.
Proof.
  assert (Hkept : forall keep, In v (filter keep (votes db)) -> In v (votes db))
    by (intros keep Hin; apply filter_In in Hin; tauto).
  destruct r as [op| |]; cbn [serve].
  - destruct op; cbn [exec].
    + unfold ElectionService.create_election, bind, OrganizationRepository.get_by_id,
        query, raise_if, raise, ret, ElectionRepository.create.
      destruct (find _ (organizations db)); [|now left].
      destruct (datetime.le _ _) as [[|]|]; [now left| |now left].
      destruct (ElectionRepository.violated db _); now left.
    + rewrite update_election_unfold. cbv zeta.
      destruct (lookup_election db election_id); [|now left].
      destruct (negb _); now left.
    + rewrite activate_election_unfold.
      destruct (lookup_election db election_id); [|now left].
      destruct (negb _); [now left|].
      destruct (_ <? 2)%nat; now left.
    + rewrite close_election_unfold.
      destruct (lookup_election db election_id); [|now left].
      destruct (negb _); now left.
    + unfold ElectionService.delete_election, bind, ElectionRepository.get_by_id, query,
        raise_if, raise, ret, ElectionRepository.delete, commit.
      destruct (find _ (elections db)); [|now left].
      destruct (negb _); [now left|]. cbn. intros Hin. left. exact (Hkept _ Hin).
    + unfold ElectionService.add_candidate, bind, ElectionRepository.get_by_id, query,
        raise_if, raise, ret, CandidateRepository.create.
      destruct (find _ (elections db)); [|now left].
      destruct (negb _); [now left|].
      destruct (CandidateRepository.violated db _); now left.
    + unfold ElectionService.delete_candidate, bind, CandidateRepository.get_by_id,
        ElectionRepository.get_by_id, query, raise_if, raise, ret,
        CandidateRepository.delete, commit.
      destruct (find _ (candidates db)); [|now left].
      destruct (match find _ (elections db) with Some _ => _ | None => _ end);
        [now left|].
      cbn. intros Hin. left. exact (Hkept _ Hin).
    + destruct (VoteService.cast_vote settings (alone (now rt) (uuid4 rt) (created_now rt))
                  user_id election_id candidate_id db) as [[confirmation|e] db'] eqn:Hrun;
        cbn [snd].
      * destruct (cast_vote_return_facts _ _ _ _ _ _ _ _ Hrun)
          as ((election & candidate & _ & _ & _ & Hc & Hb) & _ & _).
        apply cast_vote_returns in Hrun. rewrite Hrun. cbn [votes set_votes concurrent alone].
        intros Hin. apply in_app_or in Hin. destruct Hin as [Hin|[<-|[]]]; [now left|].
        right. apply (lookup_found Candidate.id) in Hc. destruct Hc as [Hin Hid].
        exists candidate. cbn. tauto.
      * destruct (cast_vote_raise_writes_nothing _ _ _ _ _ _ _ _ Hrun) as [-> | ->];
          now left.
    + rewrite get_results_unfold.
      destruct (lookup_election db election_id); [|now left].
      destruct (negb _); now left.
    + rewrite check_vote_status_unfold. now left.
  - unfold Organizations.OrganizationService.create_organization,
      Organizations.OrganizationRepository.create.
    destruct (Organizations.OrganizationRepository.violated db _); now left.
  - unfold Organizations.OrganizationService.delete_organization, bind,
      Organizations.OrganizationRepository.get_by_id, query, raise_if, raise, ret,
      Organizations.OrganizationRepository.delete, commit.
    destruct (find _ (organizations db)); [|now left].
    destruct (negb _); [now left|]. cbn. intros Hin. left. exact (Hkept _ Hin).
Qed.

Lemma effect_keeps_consistent db db' :
  effect db db' -> ballots_consistent db ->
  (forall v, In v (votes db') ->
     In v (votes db)
     \/ exists c, In c (candidates db)
                  /\ Candidate.id c = Vote.candidate_id v
                  /\ Candidate.election_id c = Vote.election_id v) ->
  ballots_consistent db'.
Proof.
  intros Heff Hcons Hnew v Hin.
  assert (Hold : exists c, In c (candidates db)
                           /\ Candidate.id c = Vote.candidate_id v
                           /\ Candidate.election_id c = Vote.election_id v)
    by (destruct (Hnew v Hin) as [Hv|Hc]; [now apply Hcons | exact Hc]).
  destruct Hold as [c [Hc Hmatch]].
  destruct Heff as [ | f Hf | o Hok | e Hok | c0 Hok | v0 Hok
                   | keep_o keep_e keep_c keep_v Keo Kce Kve Kvc ];
    try (exists c; cbn; tauto).
  - exists c. cbn. split; [apply in_or_app; now left | tauto].
  - cbn [votes] in Hin. apply filter_In in Hin. destruct Hin as [Hv Hkeep].
    exists c. split; [|tauto]. cbn [candidates]. apply filter_In. split; [exact Hc|].
    exact (Kvc v c Hv Hkeep Hc (proj1 Hmatch)).
Qed.

(** X7. Every request, and so every sequence of requests, keeps each vote
    attached to a candidate of the election the vote was cast in. *)
Theorem requests_keep_ballots_consistent settings rs db :
  ballots_consistent db -> ballots_consistent (serve_all settings rs db).
Proof.
  revert db. induction rs as [|r rs IH]; intros db Hdb; [exact Hdb|].
  cbn [serve_all fold_left]. apply IH.
  apply (effect_keeps_consistent db _ (serve_effect settings r db) Hdb).
  intros v. apply serve_new_votes.
Qed.

Lemma sample_ballots_consistent : ballots_consistent Sample.db.
Proof. intros v []. Qed.

Lemma requests_keep_ballots_consistent_witness :
  ballots_consistent
    (serve_all Sample.settings
       [ on_elections (op_cast_vote (alone 150 "v1" 151) "u1" "e1" "c1");
         on_elections (op_cast_vote (alone 151 "v2" 152) "u3" "e1" "c2");
         on_elections (op_close_election "e1") ]
       Sample.db).
Proof. apply requests_keep_ballots_consistent. exact sample_ballots_consistent. Defined.

(** ** The tally adds up *)

Lemma unique_key_row {A} (key : A -> string) (rows : list A) (a b : A) :
  NoDup (map key rows) -> In a rows -> In b rows -> key a = key b -> a = b.
Proof.
  induction rows as [|r rows IH]; [intros _ []|].
  cbn [map]. intros Hnd Ha Hb Hkey. apply NoDup_cons_iff in Hnd.
  destruct Hnd as [Hfresh Hrest].
  destruct Ha as [->|Ha], Hb as [->|Hb].
  - reflexivity.
  - exfalso. apply Hfresh. rewrite Hkey. now apply in_map.
  - exfalso. apply Hfresh. rewrite <- Hkey. now apply in_map.
  - now apply IH.
Qed.






Lemma sample_closed_consistent : ballots_consistent Sample.db_closed.
Proof.
  intros v [<-|[<-|[]]].
  - exists (Sample.candidate "c5" "e3" 4). cbn. tauto.
  - exists (Sample.candidate "c4" "e3" 5). cbn. tauto.
Qed.


(** ** The writes of the services *)

Lemma lookup_target db election_id e :
  lookup_election db election_id = Some e ->
  lookup_election db (Election.id e) = Some e.
Proof. intros H. now rewrite (lookup_election_id _ _ _ H). Qed.

Lemma lookup_candidate_id db candidate_id c :
  lookup_candidate db candidate_id = Some c ->
  lookup_candidate db (Candidate.id c) = Some c.
Proof.
  intros H. destruct (lookup_found Candidate.id _ _ _ H) as [_ Hid]. now rewrite Hid.
Qed.

Lemma serve_transition settings r db : transition db (serve settings r db).
Proof.
  destruct r as [op| |]; cbn [serve].
  - destruct op; cbn [exec].
    + unfold ElectionService.create_election, bind, OrganizationRepository.get_by_id,
        query, raise_if, raise, ret, ElectionRepository.create.
      destruct (find _ (organizations db)); [|constructor].
      destruct (datetime.le _ _) as [[|]|]; [constructor| |constructor].
      destruct (ElectionRepository.violated db _) eqn:Hok; [constructor|].
      cbn [snd]. now apply election_created.
    + rewrite update_election_unfold. cbv zeta.
      destruct (lookup_election db election_id) as [e|] eqn:He; [|constructor].
      destruct (Election.status e =? "draft") eqn:Hs; [|constructor].
      cbn [negb snd]. apply String.eqb_eq in Hs.
      apply election_edited; [exact (lookup_target _ _ _ He) | exact Hs |].
      intros x. exact (patch_keeps _ x (model_dump_keys data)).
    + rewrite activate_election_unfold.
      destruct (lookup_election db election_id) as [e|] eqn:He; [|constructor].
      destruct (Election.status e =? "draft") eqn:Hs; [|constructor].
      cbn [negb]. destruct (_ <? 2)%nat eqn:Hn; [constructor|].
      cbn [snd]. apply String.eqb_eq in Hs. apply Nat.ltb_ge in Hn.
      apply election_activated; [exact (lookup_target _ _ _ He) | exact Hs |].
      now rewrite (lookup_election_id _ _ _ He).
    + rewrite close_election_unfold.
      destruct (lookup_election db election_id) as [e|] eqn:He; [|constructor].
      destruct (Election.status e =? "active") eqn:Hs; [|constructor].
      cbn [negb snd]. apply String.eqb_eq in Hs.
      apply election_closed; [exact (lookup_target _ _ _ He) | exact Hs].
    + unfold ElectionService.delete_election, bind, ElectionRepository.get_by_id, query,
        raise_if, raise, ret.
      destruct (find _ (elections db)) as [e|] eqn:He; [|constructor].
      destruct (Election.status e =? "closed") eqn:Hs; [|constructor].
      cbn [negb]. apply String.eqb_eq in Hs.
      change (transition db (snd (ElectionRepository.delete e db))).
      apply election_deleted; [exact (lookup_target _ _ _ He) | exact Hs].
    + unfold ElectionService.add_candidate, bind, ElectionRepository.get_by_id, query,
        raise_if, raise, ret, CandidateRepository.create.
      destruct (find _ (elections db)) as [e|] eqn:He; [|constructor].
      destruct (Election.status e =? "draft") eqn:Hs; [|constructor].
      cbn [negb]. apply String.eqb_eq in Hs.
      destruct (CandidateRepository.violated db _) eqn:Hok; [constructor|].
      cbn [snd]. now apply (candidate_added db e).
    + unfold ElectionService.delete_candidate, bind, CandidateRepository.get_by_id,
        ElectionRepository.get_by_id, query, raise_if, raise, ret.
      destruct (find _ (candidates db)) as [c|] eqn:Hc; [|constructor].
      destruct (find _ (elections db)) as [e|] eqn:He.
      * destruct (Election.status e =? "draft") eqn:Hs; [|constructor].
        cbn [negb]. apply String.eqb_eq in Hs.
        change (transition db (snd (CandidateRepository.delete c db))).
        apply candidate_removed; [exact (lookup_candidate_id _ _ _ Hc)|].
        unfold lookup_election. rewrite He. now intros e' [= <-].
      * change (transition db (snd (CandidateRepository.delete c db))).
        apply candidate_removed; [exact (lookup_candidate_id _ _ _ Hc)|].
        unfold lookup_election. rewrite He. discriminate.
    + destruct (VoteService.cast_vote settings (alone (now rt) (uuid4 rt) (created_now rt))
                  user_id election_id candidate_id db) as [[confirmation|e] db'] eqn:Hrun;
        cbn [snd].
      * destruct (cast_vote_return_facts _ _ _ _ _ _ _ _ Hrun)
          as ((election & candidate & He & Hs & _ & Hc & Hb) & _ & Hok).
        apply cast_vote_returns in Hrun. rewrite Hrun.
        change (concurrent (alone (now rt) (uuid4 rt) (created_now rt)) db) with db in *.
        now apply (vote_cast db _ election candidate).
      * destruct (cast_vote_raise_writes_nothing _ _ _ _ _ _ _ _ Hrun) as [-> | ->];
          constructor.
    + rewrite get_results_unfold.
      destruct (lookup_election db election_id); [|constructor].
      destruct (negb _); constructor.
    + rewrite check_vote_status_unfold. constructor.
  - unfold Organizations.OrganizationService.create_organization,
      Organizations.OrganizationRepository.create.
    destruct (Organizations.OrganizationRepository.violated db _) eqn:Hok; [constructor|].
    cbn [snd]. now apply organization_created.
  - unfold Organizations.OrganizationService.delete_organization, bind,
      Organizations.OrganizationRepository.get_by_id, query, raise_if, raise, ret.
    destruct (find _ (organizations db)) as [o|]; [|constructor].
    destruct (negb _); [constructor|].
    change (transition db (snd (Organizations.OrganizationRepository.delete o db))).
    apply organization_deleted.
Qed.

(** ** Rows with unique keys *)

Lemma find_unique {A} (key : A -> string) (rows : list A) (r : A) :
  NoDup (map key rows) -> In r rows ->
  find (fun x => key x =? key r) rows = Some r.
Proof.
  intros Hnd Hin.
  destruct (find (fun x => key x =? key r) rows) as [r'|] eqn:Hfind.
  - destruct (lookup_found key _ _ _ Hfind) as [Hin' Hkey].
    f_equal. now apply (unique_key_row key rows).
  - apply (find_none _ _ Hfind) in Hin. rewrite String.eqb_refl in Hin. discriminate.
Qed.

Lemma existsb_unique {A} (key : A -> string) (q : A -> bool) (rows : list A) (r : A) :
  NoDup (map key rows) -> In r rows ->
  existsb (fun x => (key x =? key r) && q x) rows = q r.
Proof.
  intros Hnd Hin. destruct (q r) eqn:Hq.
  - apply existsb_exists. exists r. now rewrite String.eqb_refl, Hq.
  - destruct (existsb _ rows) eqn:Hex; [|reflexivity].
    apply existsb_exists in Hex. destruct Hex as [x [Hx Hboth]].
    apply andb_true_iff in Hboth. destruct Hboth as [Hkey Hqx].
    apply String.eqb_eq in Hkey.
    rewrite (unique_key_row key rows x r Hnd Hx Hin Hkey) in Hqx. congruence.
Qed.

Lemma filter_within {A} (p q : A -> bool) (l : list A) :
  (forall x, In x l -> p x = true -> q x = true) ->
  filter p (filter q l) = filter p l.
Proof.
  induction l as [|x l IH]; [reflexivity|]. intros Hpq.
  specialize (IH (fun y Hy => Hpq y (or_intror Hy))).
  pose proof (Hpq x (or_introl eq_refl)) as Hx.
  cbn [filter]. destruct (q x) eqn:Hq; cbn [filter]; rewrite IH.
  - reflexivity.
  - destruct (p x); [|reflexivity]. now specialize (Hx eq_refl).
Qed.


Lemma find_within {A} (p q : A -> bool) (l : list A) :
  (forall x, In x l -> p x = true -> q x = true) ->
  find p (filter q l) = find p l.
Proof.
  induction l as [|x l IH]; [reflexivity|]. intros Hpq.
  specialize (IH (fun y Hy => Hpq y (or_intror Hy))).
  pose proof (Hpq x (or_introl eq_refl)) as Hx.
  cbn [filter find]. destruct (q x) eqn:Hq; cbn [find].
  - now rewrite IH.
  - destruct (p x); [now specialize (Hx eq_refl) | exact IH].
Qed.

Lemma find_without {A} (p q : A -> bool) (l : list A) :
  (forall x, In x l -> p x = true -> q x = false) ->
  find p (filter q l) = None.
Proof.
  induction l as [|x l IH]; [reflexivity|]. intros Hpq.
  specialize (IH (fun y Hy => Hpq y (or_intror Hy))).
  pose proof (Hpq x (or_introl eq_refl)) as Hx.
  cbn [filter]. destruct (q x) eqn:Hq; [|exact IH].
  cbn [find]. destruct (p x); [now specialize (Hx eq_refl) | exact IH].
Qed.

Lemma lookup_in db election_id e :
  lookup_election db election_id = Some e ->
  In e (elections db) /\ Election.id e = election_id.
Proof. exact (lookup_found Election.id (elections db) election_id e). Qed.

Lemma in_lookup db e :
  NoDup (map Election.id (elections db)) -> In e (elections db) ->
  lookup_election db (Election.id e) = Some e.
Proof. exact (find_unique Election.id (elections db) e). Qed.

Lemma lookup_exists db election_id :
  In election_id (map Election.id (elections db)) ->
  exists e, lookup_election db election_id = Some e.
Proof.
  intros Hin. apply in_map_iff in Hin. destruct Hin as [e [Hid Hin]].
  unfold lookup_election.
  destruct (find _ (elections db)) as [e'|] eqn:Hfind; [now exists e'|].
  apply (find_none _ _ Hfind) in Hin. rewrite Hid, String.eqb_refl in Hin. discriminate.
Qed.

(** The elections an organization takes with it. *)
Lemma gone_with_organization db org_id e :
  NoDup (map Election.id (elections db)) -> In e (elections db) ->
  existsb (fun x => (Election.id x =? Election.id e)
                    && (Election.organization_id x =? org_id)) (elections db)
  = (Election.organization_id e =? org_id).
Proof.
  exact (existsb_unique Election.id (fun x => Election.organization_id x =? org_id)
           (elections db) e).
Qed.

(** The lookup of an election after the rows of its key were rewritten. *)
Lemma lookup_rewritten db target f election_id e :
  (forall x, Election.id (f x) = Election.id x) ->
  lookup_election db (Election.id target) = Some target ->
  lookup_election db election_id = Some e ->
  lookup_election (ElectionRepository.update_row target f db) election_id
  = Some (if election_id =? Election.id target then f target else e).
Proof.
  intros Hf Ht He. rewrite (lookup_update_row _ _ _ _ Hf), He. cbn [option_map].
  rewrite (lookup_election_id _ _ _ He).
  destruct (election_id =? Election.id target) eqn:Heq; [|reflexivity].
  apply String.eqb_eq in Heq. subst election_id. congruence.
Qed.

(** ** Active elections are contested *)

Lemma transition_keeps_contested db db' :
  transition db db' -> integrity db -> contested db -> contested db'.
Proof.
  intros Hstep Hint Hdb e.
  pose proof (election_ids db Hint) as Hne.
  pose proof (candidate_ids db Hint) as Hnc.
  destruct Hstep as [ | e0 Hdraft Hok | target f Ht Hdraft Hf | target Ht Hdraft Hn
                    | target Ht Hact | target Ht Hclosed | e0 c He0 Hdraft Hok
                    | c Hc Hguard | v e0 c He0 Hact Hc Hb Hok | o Hok | o ].
  - apply Hdb.
  - cbn [elections set_elections]. intros Hin Hs. apply in_app_or in Hin.
    destruct Hin as [Hin|[<-|[]]]; [exact (Hdb e Hin Hs) | congruence].
  - unfold ElectionRepository.update_row. cbn [elections set_elections].
    intros Hin Hs. apply in_map_iff in Hin. destruct Hin as [x [<- Hin]].
    destruct (Election.id x =? Election.id target).
    + destruct (Hf x) as [Hid Hst]. rewrite Hid. rewrite Hst in Hs. exact (Hdb x Hin Hs).
    + exact (Hdb x Hin Hs).
  - unfold ElectionRepository.update_row. cbn [elections set_elections].
    intros Hin Hs. apply in_map_iff in Hin. destruct Hin as [x [<- Hin]].
    destruct (Election.id x =? Election.id target) eqn:Hid.
    + apply String.eqb_eq in Hid. cbn [ElectionRepository.set_status Election.id].
      rewrite Hid. exact Hn.
    + exact (Hdb x Hin Hs).
  - unfold ElectionRepository.update_row. cbn [elections set_elections].
    intros Hin Hs. apply in_map_iff in Hin. destruct Hin as [x [<- Hin]].
    destruct (Election.id x =? Election.id target).
    + cbn in Hs. discriminate.
    + exact (Hdb x Hin Hs).
  - unfold ElectionRepository.delete, commit. cbn [snd elections].
    intros Hin Hs. apply filter_In in Hin. destruct Hin as [Hin Hkeep].
    unfold candidates_of. cbn [candidates].
    rewrite filter_within; [exact (Hdb e Hin Hs)|].
    intros x _ Hx. apply String.eqb_eq in Hx. now rewrite Hx.
  - cbn [elections set_candidates]. intros Hin Hs.
    unfold candidates_of. cbn [candidates set_candidates].
    rewrite filter_snoc, length_app.
    pose proof (Hdb e Hin Hs) as Hlen. unfold candidates_of in Hlen. lia.
  - unfold CandidateRepository.delete, commit. cbn [snd elections].
    intros Hin Hs. unfold candidates_of. cbn [candidates].
    rewrite filter_within; [exact (Hdb e Hin Hs)|].
    intros x Hx Hel. apply String.eqb_eq in Hel.
    destruct (Candidate.id x =? Candidate.id c) eqn:Hid; [|reflexivity].
    apply String.eqb_eq in Hid.
    destruct (lookup_found Candidate.id _ _ _ Hc) as [Hcin _].
    assert (x = c) by now apply (unique_key_row Candidate.id (candidates db)).
    subst x. rewrite Hel in Hguard.
    rewrite (Hguard e (in_lookup db e Hne Hin)) in Hs. discriminate.
  - exact (Hdb e).
  - exact (Hdb e).
  - unfold Organizations.OrganizationRepository.delete, commit. cbn [snd elections].
    intros Hin Hs. apply filter_In in Hin. destruct Hin as [Hin Hkeep].
    unfold candidates_of. cbn [candidates].
    rewrite filter_within; [exact (Hdb e Hin Hs)|].
    intros x _ Hx. apply String.eqb_eq in Hx. rewrite Hx.
    now rewrite (gone_with_organization db _ e Hne Hin).
Qed.

(** X9. No request leaves an active election with fewer than two
    candidates: in a database that satisfies the schema constraints, every
    active election keeps at least two candidates through every sequence of
    requests. *)
Theorem requests_keep_contested settings rs db :
  integrity db -> contested db -> contested (serve_all settings rs db).
Proof.
  revert db. induction rs as [|r rs IH]; intros db Hint Hdb; [exact Hdb|].
  cbn [serve_all fold_left]. apply IH.
  - exact (effect_keeps_integrity _ _ (serve_effect settings r db) Hint).
  - exact (transition_keeps_contested _ _ (serve_transition settings r db) Hint Hdb).
Qed.

Lemma sample_contested : contested Sample.db.
Proof.
  intros e [<-|[<-|[<-|[]]]]; cbn; intros Hs; try discriminate. lia.
Qed.

Lemma requests_keep_contested_witness :
  contested
    (serve_all Sample.settings
       [ on_elections (op_remove_candidate "c9");
         on_elections (op_activate_election "e2");
         on_elections (op_remove_candidate "c1") ]
       Sample.db).
Proof.
  apply requests_keep_contested; [exact sample_integrity | exact sample_contested].
Defined.

(** ** Drafts hold no votes *)

Lemma transition_keeps_drafts_empty db db' :
  transition db db' -> integrity db -> drafts_empty db -> drafts_empty db'.
Proof.
  intros Hstep Hint Hdb v e.
  pose proof (election_ids db Hint) as Hne.
  destruct Hstep as [ | e0 Hdraft Hok | target f Ht Hdraft Hf | target Ht Hdraft Hn
                    | target Ht Hact | target Ht Hclosed | e0 c He0 Hdraft Hok
                    | c Hc Hguard | v0 e0 c He0 Hact Hc Hb Hok | o Hok | o ].
  - apply Hdb.
  - cbn [votes set_elections]. intros Hin.
    destruct (lookup_exists db _ (vote_election db Hint v Hin)) as [e1 He1].
    unfold lookup_election in *. cbn [elections set_elections].
    rewrite (find_app_some _ _ _ _ He1). intros [= <-]. exact (Hdb v e1 Hin He1).
  - intros Hin. rewrite (lookup_update_row _ _ _ _ (fun x => proj1 (Hf x))).
    destruct (lookup_election db (Vote.election_id v)) as [e1|] eqn:He1; [|discriminate].
    cbn [option_map]. intros [= <-]. pose proof (Hdb v e1 Hin He1) as Hs.
    destruct (_ =? _); [now rewrite (proj2 (Hf e1)) | exact Hs].
  - intros Hin. rewrite lookup_update_row by reflexivity.
    destruct (lookup_election db (Vote.election_id v)) as [e1|] eqn:He1; [|discriminate].
    cbn [option_map]. intros [= <-]. pose proof (Hdb v e1 Hin He1) as Hs.
    destruct (_ =? _); [cbn; discriminate | exact Hs].
  - intros Hin. rewrite lookup_update_row by reflexivity.
    destruct (lookup_election db (Vote.election_id v)) as [e1|] eqn:He1; [|discriminate].
    cbn [option_map]. intros [= <-]. pose proof (Hdb v e1 Hin He1) as Hs.
    destruct (_ =? _); [cbn; discriminate | exact Hs].
  - unfold ElectionRepository.delete, commit, lookup_election. cbn [snd votes elections].
    intros Hin Hfind. apply filter_In in Hin. destruct Hin as [Hin _].
    apply (Hdb v e Hin). unfold lookup_election.
    destruct (Vote.election_id v =? Election.id target) eqn:Heq.
    + rewrite find_without in Hfind; [discriminate|].
      intros x _ Hx. apply String.eqb_eq in Hx. now rewrite Hx, Heq.
    + rewrite find_within in Hfind; [exact Hfind|].
      intros x _ Hx. apply String.eqb_eq in Hx. now rewrite Hx, Heq.
  - exact (Hdb v e).
  - unfold CandidateRepository.delete, commit, lookup_election. cbn [snd votes elections].
    intros Hin. apply filter_In in Hin. destruct Hin as [Hin _]. exact (Hdb v e Hin).
  - cbn [votes set_votes]. intros Hin. apply in_app_or in Hin.
    destruct Hin as [Hin|[<-|[]]]; [exact (Hdb v e Hin)|].
    unfold lookup_election in *. cbn [elections set_votes]. rewrite He0.
    intros [= <-]. rewrite Hact. discriminate.
  - exact (Hdb v e).
  - unfold Organizations.OrganizationRepository.delete, commit, lookup_election.
    cbn [snd votes elections].
    intros Hin Hfind. apply filter_In in Hin. destruct Hin as [Hin _].
    apply (Hdb v e Hin).
    destruct (lookup_found Election.id _ _ _ Hfind) as [He Hid].
    apply filter_In in He. rewrite <- Hid. exact (in_lookup db e Hne (proj1 He)).
Qed.

(** X10. A draft election holds no votes: in a database that satisfies the
    schema constraints, no sequence of requests leaves a vote row in an
    election whose status is draft. *)
Theorem requests_keep_drafts_empty settings rs db :
  integrity db -> drafts_empty db -> drafts_empty (serve_all settings rs db).
Proof.
  revert db. induction rs as [|r rs IH]; intros db Hint Hdb; [exact Hdb|].
  cbn [serve_all fold_left]. apply IH.
  - exact (effect_keeps_integrity _ _ (serve_effect settings r db) Hint).
  - exact (transition_keeps_drafts_empty _ _ (serve_transition settings r db) Hint Hdb).
Qed.

Lemma sample_drafts_empty : drafts_empty Sample.db.
Proof. intros v e []. Qed.

Lemma requests_keep_drafts_empty_witness :
  drafts_empty
    (serve_all Sample.settings
       [ on_elections (op_cast_vote (alone 150 "v1" 151) "u1" "e2" "c9");
         on_elections (op_cast_vote (alone 150 "v2" 151) "u1" "e1" "c1") ]
       Sample.db).
Proof.
  apply requests_keep_drafts_empty; [exact sample_integrity | exact sample_drafts_empty].
Defined.

(** ** What is fixed once an election has left draft *)

Lemma transition_keeps_rows db db' election_id e :
  transition db db' -> integrity db ->
  lookup_election db election_id = Some e -> Election.status e <> "draft" ->
  lookup_election db' election_id <> None ->
  candidates_of db' election_id = candidates_of db election_id
  /\ (Election.status e = "closed" -> ballots_consistent db ->
      lookup_election db' election_id = Some e
      /\ filter (fun v => Vote.election_id v =? election_id) (votes db')
         = filter (fun v => Vote.election_id v =? election_id) (votes db)).
Proof.
  intros Hstep Hint He Hleft Hthere.
  pose proof (election_ids db Hint) as Hne.
  pose proof (candidate_ids db Hint) as Hnc.
  destruct (lookup_in _ _ _ He) as [Hin Hid].
  destruct Hstep as [ | e0 Hdraft Hok | target f Ht Hdraft Hf | target Ht Hdraft Hn
                    | target Ht Hact | target Ht Hclosed | e0 c He0 Hdraft Hok
                    | c Hc Hguard | v0 e0 c He0 Hact Hc Hb Hok | o Hok | o ].
  - split; [reflexivity|]. intros _ _. split; [exact He | reflexivity].
  - split; [reflexivity|]. intros _ _. split; [|reflexivity].
    unfold lookup_election in *. cbn [elections set_elections]. now apply find_app_some.
  - split; [reflexivity|]. intros _ _. split; [|reflexivity].
    rewrite (lookup_rewritten db target f election_id e (fun x => proj1 (Hf x)) Ht He).
    destruct (election_id =? Election.id target) eqn:Heq; [|reflexivity].
    apply String.eqb_eq in Heq. subst election_id. congruence.
  - split; [reflexivity|]. intros _ _. split; [|reflexivity].
    rewrite (lookup_rewritten db target
               (fun x => ElectionRepository.set_status x "active") election_id e
               (fun x => eq_refl) Ht He).
    destruct (election_id =? Election.id target) eqn:Heq; [|reflexivity].
    apply String.eqb_eq in Heq. subst election_id. congruence.
  - split; [reflexivity|]. intros Hcl _. split; [|reflexivity].
    rewrite (lookup_rewritten db target
               (fun x => ElectionRepository.set_status x "closed") election_id e
               (fun x => eq_refl) Ht He).
    destruct (election_id =? Election.id target) eqn:Heq; [|reflexivity].
    apply String.eqb_eq in Heq. subst election_id. congruence.
  - unfold ElectionRepository.delete, commit, lookup_election in Hthere.
    cbn [snd elections] in Hthere.
    destruct (election_id =? Election.id target) eqn:Heq.
    { exfalso. apply Hthere. apply find_without.
      intros x _ Hx. apply String.eqb_eq in Hx. now rewrite Hx, Heq. }
    split.
    + unfold candidates_of, ElectionRepository.delete, commit. cbn [snd candidates].
      apply filter_within. intros x _ Hx. apply String.eqb_eq in Hx. now rewrite Hx, Heq.
    + intros _ Hcons. split.
      * unfold lookup_election, ElectionRepository.delete, commit. cbn [snd elections].
        rewrite find_within; [exact He|].
        intros x _ Hx. apply String.eqb_eq in Hx. now rewrite Hx, Heq.
      * unfold ElectionRepository.delete, commit. cbn [snd votes].
        apply filter_within. intros v Hv Hel. apply String.eqb_eq in Hel.
        rewrite Hel, Heq. cbn [orb].
        destruct (Hcons v Hv) as [c0 [Hc0 [Hcid Hcel]]]. rewrite <- Hcid.
        rewrite (existsb_unique Candidate.id
                   (fun c => Candidate.election_id c =? Election.id target)
                   (candidates db) c0 Hnc Hc0).
        now rewrite Hcel, Hel, Heq.
  - assert (Hother : (Candidate.election_id c =? election_id) = false).
    { destruct (Candidate.election_id c =? election_id) eqn:Heq; [|reflexivity].
      apply String.eqb_eq in Heq. rewrite Heq in He0. congruence. }
    split.
    + unfold candidates_of. cbn [candidates set_candidates].
      rewrite filter_snoc, Hother. apply app_nil_r.
    + intros _ _. split; [exact He | reflexivity].
  - assert (Hother : (Candidate.election_id c =? election_id) = false).
    { destruct (Candidate.election_id c =? election_id) eqn:Heq; [|reflexivity].
      apply String.eqb_eq in Heq. rewrite Heq in Hguard. now specialize (Hguard e He). }
    destruct (lookup_found Candidate.id _ _ _ Hc) as [Hcin _].
    split.
    + unfold candidates_of, CandidateRepository.delete, commit. cbn [snd candidates].
      apply filter_within. intros x Hx Hel.
      destruct (Candidate.id x =? Candidate.id c) eqn:Hxc; [|reflexivity].
      apply String.eqb_eq in Hxc.
      assert (x = c) by now apply (unique_key_row Candidate.id (candidates db)).
      subst x. congruence.
    + intros _ Hcons. split; [exact He|].
      unfold CandidateRepository.delete, commit. cbn [snd votes].
      apply filter_within. intros v Hv Hel. apply String.eqb_eq in Hel.
      destruct (Vote.candidate_id v =? Candidate.id c) eqn:Hvc; [|reflexivity].
      apply String.eqb_eq in Hvc.
      destruct (Hcons v Hv) as [c0 [Hc0 [Hcid Hcel]]].
      assert (c0 = c)
        by (apply (unique_key_row Candidate.id (candidates db)); congruence).
      subst c0. rewrite Hcel, Hel, String.eqb_refl in Hother. discriminate.
  - split; [reflexivity|]. intros Hcl _. split; [exact He|].
    cbn [votes set_votes]. rewrite filter_snoc.
    destruct (Vote.election_id v0 =? election_id) eqn:Heq; [|apply app_nil_r].
    apply String.eqb_eq in Heq. rewrite Heq in He0. congruence.
  - split; [reflexivity|]. intros _ _. split; [exact He | reflexivity].
  - pose proof (gone_with_organization db (Organization.id o) e Hne Hin) as Hgone.
    rewrite Hid in Hgone.
    assert (Hsame : forall x, In x (elections db) ->
                      (Election.id x =? election_id) = true -> x = e).
    { intros x Hx Hkey. apply String.eqb_eq in Hkey.
      apply (unique_key_row Election.id (elections db)); congruence. }
    unfold Organizations.OrganizationRepository.delete, commit, lookup_election in Hthere.
    cbn [snd elections] in Hthere.
    destruct (Election.organization_id e =? Organization.id o) eqn:Horg.
    { exfalso. apply Hthere. apply find_without.
      intros x Hx Hkey. rewrite (Hsame x Hx Hkey), Horg. reflexivity. }
    split.
    + unfold candidates_of, Organizations.OrganizationRepository.delete, commit.
      cbn [snd candidates].
      apply filter_within. intros x _ Hx. apply String.eqb_eq in Hx.
      now rewrite Hx, Hgone.
    + intros _ Hcons. split.
      * unfold lookup_election, Organizations.OrganizationRepository.delete, commit.
        cbn [snd elections].
        rewrite find_within; [exact He|].
        intros x Hx Hkey. rewrite (Hsame x Hx Hkey), Horg. reflexivity.
      * unfold Organizations.OrganizationRepository.delete, commit. cbn [snd votes].
        apply filter_within. intros v Hv Hel. apply String.eqb_eq in Hel.
        rewrite Hel, Hgone. cbn [orb].
        destruct (Hcons v Hv) as [c0 [Hc0 [Hcid Hcel]]]. rewrite <- Hcid.
        rewrite (existsb_unique Candidate.id
                   (fun c => existsb
                               (fun x => (Election.id x =? Candidate.election_id c)
                                         && (Election.organization_id x =? Organization.id o))
                               (elections db))
                   (candidates db) c0 Hnc Hc0).
        now rewrite Hcel, Hel, Hgone.
Qed.

(** X11. Once an election has left draft its list of candidates is fixed:
    whatever request is served next, as long as the election still exists
    afterwards, [get_candidates] returns the same list. *)
Theorem candidates_fixed_after_draft settings r db election_id e :
  integrity db ->
  lookup_election db election_id = Some e -> Election.status e <> "draft" ->
  lookup_election (serve settings r db) election_id <> None ->
  fst (Elections.ElectionService.get_candidates election_id (serve settings r db))
  = fst (Elections.ElectionService.get_candidates election_id db).
Proof.
  intros Hint He Hleft Hthere.
  destruct (transition_keeps_rows db _ election_id e (serve_transition settings r db)
              Hint He Hleft Hthere) as [Hsame _].
  unfold Elections.ElectionService.get_candidates, CandidateRepository.get_by_election,
    query. cbn [fst]. f_equal. exact Hsame.
Qed.

Lemma candidates_fixed_after_draft_witness :
  fst (Elections.ElectionService.get_candidates "e1"
         (serve Sample.settings (on_elections (op_remove_candidate "c1")) Sample.db))
  = fst (Elections.ElectionService.get_candidates "e1" Sample.db).
Proof.
  apply (candidates_fixed_after_draft Sample.settings
           (on_elections (op_remove_candidate "c1")) Sample.db "e1"
           (Sample.election "e1" "active" 100 200)).
  - exact sample_integrity.
  - reflexivity.
  - discriminate.
  - discriminate.
Defined.

(** With consistent ballots, the votes for a candidate are votes of the
    candidate's election. *)
Lemma votes_for_in_election db c :
  NoDup (map Candidate.id (candidates db)) -> ballots_consistent db ->
  In c (candidates db) ->
  votes_for db (Candidate.id c)
  = List.length
      (filter (fun v => Vote.candidate_id v =? Candidate.id c)
         (filter (fun v => Vote.election_id v =? Candidate.election_id c) (votes db))).
Proof.
  intros Hnc Hcons Hc. unfold votes_for. f_equal. symmetry.
  apply filter_within. intros v Hv Hvc. apply String.eqb_eq in Hvc.
  destruct (Hcons v Hv) as [c0 [Hc0 [Hcid Hcel]]].
  assert (c0 = c) by (apply (unique_key_row Candidate.id (candidates db)); congruence).
  subst c0. rewrite Hcel. apply String.eqb_refl.
Qed.

Lemma serve_keeps_consistent settings r db :
  ballots_consistent db -> ballots_consistent (serve settings r db).
Proof.
  intros Hdb. apply (effect_keeps_consistent db _ (serve_effect settings r db) Hdb).
  intros v. apply serve_new_votes.
Qed.

(** X12. The tally of a closed election is final: whatever request is served
    next, as long as the election still exists afterwards, [get_results]
    answers as before. *)
Theorem closed_tally_is_final settings r scan db election_id e :
  integrity db -> ballots_consistent db ->
  lookup_election db election_id = Some e -> Election.status e = "closed" ->
  lookup_election (serve settings r db) election_id <> None ->
  fst (VoteService.get_results scan election_id (serve settings r db))
  = fst (VoteService.get_results scan election_id db).
Proof.
  intros Hint Hcons He Hcl Hthere.
  assert (Hleft : Election.status e <> "draft") by (rewrite Hcl; discriminate).
  destruct (transition_keeps_rows db _ election_id e (serve_transition settings r db)
              Hint He Hleft Hthere) as [Hcands Hrest].
  destruct (Hrest Hcl Hcons) as [He' Hvotes].
  pose proof (effect_keeps_integrity _ _ (serve_effect settings r db) Hint) as Hint'.
  pose proof (serve_keeps_consistent settings r db Hcons) as Hcons'.
  set (db' := serve settings r db) in *.
  rewrite !get_results_unfold, He, He', Hcl. cbn [String.eqb negb fst].
  rewrite (tally_groups db' _ (candidate_ids db' Hint')).
  rewrite (tally_groups db _ (candidate_ids db Hint)).
  rewrite Hcands, Hvotes.
  assert (Hrows :
    map (fun c => (Candidate.id c, Candidate.name c, votes_for db' (Candidate.id c)))
        (candidates_of db election_id)
    = map (fun c => (Candidate.id c, Candidate.name c, votes_for db (Candidate.id c)))
        (candidates_of db election_id)).
  { apply map_ext_in. intros c Hc. f_equal.
    assert (Hc' : In c (candidates_of db' election_id)) by (now rewrite Hcands).
    apply filter_In in Hc, Hc'. destruct Hc as [Hc Hel], Hc' as [Hc' _].
    apply String.eqb_eq in Hel.
    rewrite (votes_for_in_election db' c (candidate_ids db' Hint') Hcons' Hc').
    rewrite (votes_for_in_election db c (candidate_ids db Hint) Hcons Hc).
    now rewrite Hel, Hvotes. }
  now rewrite Hrows.
Qed.

Lemma sample_closed_integrity : integrity Sample.db_closed.
Proof.
  constructor; cbn;
    try (repeat constructor; cbn; intuition discriminate);
    intros x Hin; repeat (destruct Hin as [<-|Hin]; [cbn; tauto|]); destruct Hin.
Qed.

Lemma closed_tally_is_final_witness :
  fst (VoteService.get_results (fun rows => rows) "e3"
         (serve Sample.settings (on_elections (op_remove_candidate "c5")) Sample.db_closed))
  = fst (VoteService.get_results (fun rows => rows) "e3" Sample.db_closed).
Proof.
  apply (closed_tally_is_final Sample.settings (on_elections (op_remove_candidate "c5"))
           (fun rows => rows) Sample.db_closed "e3" (Sample.election "e3" "closed" 100 200)).
  - exact sample_closed_integrity.
  - exact sample_closed_consistent.
  - reflexivity.
  - reflexivity.
  - discriminate.
Defined.



(** ** Creating, editing and deleting elections *)

Lemma find_absent {A} (p : A -> bool) (l : list A) :
  existsb p l = false -> find p l = None.
Proof.
  intros Hex. pose proof (find_existsb p l) as H. rewrite Hex in H.
  now destruct (find p l).
Qed.

Lemma filter_nothing {A} (p : A -> bool) (l : list A) :
  (forall x, In x l -> p x = false) -> filter p l = [].
Proof.
  induction l as [|x l IH]; [reflexivity|]. intros Hp.
  cbn [filter]. rewrite (Hp x (or_introl eq_refl)). apply IH.
  intros y Hy. apply Hp. now right.
Qed.

Lemma filter_without {A} (p q : A -> bool) (l : list A) :
  (forall x, In x l -> p x = true -> q x = false) ->
  filter p (filter q l) = [].
Proof.
  intros Hpq. apply filter_nothing. intros x Hx. apply filter_In in Hx.
  destruct Hx as [Hx Hq]. destruct (p x) eqn:Hp; [|reflexivity].
  rewrite (Hpq x Hx Hp) in Hq. discriminate.
Qed.

(** An election without vote rows has no recorded token. *)
Lemma nothing_recorded db election_id h :
  filter (fun v => Vote.election_id v =? election_id) (votes db) = [] ->
  recorded db election_id h = false.
Proof.
  intros Hnone. unfold recorded.
  destruct (existsb _ (votes db)) eqn:Hex; [|reflexivity].
  apply existsb_exists in Hex. destruct Hex as [v [Hv Hboth]].
  apply andb_true_iff in Hboth. destruct Hboth as [Hel _].
  assert (Hin : In v (filter (fun v => Vote.election_id v =? election_id) (votes db)))
    by (apply filter_In; now split).
  rewrite Hnone in Hin. destruct Hin.
Qed.

(** X14. A returned [create_election] has stored a draft under an
    identifier that was unused, with the wall-clock fields of the two times
    it was given. Its check that the end lies after the start compares the
    times as Python does, on the time line when both carry an offset; so
    the stored end lies after the stored start when the two times carry
    the same offset or none. [get_election] finds exactly the returned
    election, the elections that were there are found as before, and the
    new election has no candidates and no votes. *)
Theorem create_election_round_trip
    rt organization_id title description start_time end_time created_by db election db' :
  integrity db ->
  ElectionService.create_election rt organization_id title description
    start_time end_time created_by db = (Return election, db') ->
  election = Election.mk (uuid4 rt) organization_id title description
               (datetime.wall start_time) (datetime.wall end_time)
               "draft" created_by (created_now rt)
  /\ datetime.le end_time start_time = Some false
  /\ (datetime.utcoffset start_time = datetime.utcoffset end_time ->
      (Election.start_time election < Election.end_time election)%Z)
  /\ lookup_election db (uuid4 rt) = None
  /\ Elections.ElectionService.get_election (uuid4 rt) db' = (Return election, db')
  /\ (forall k e, lookup_election db k = Some e -> lookup_election db' k = Some e)
  /\ candidates_of db' (uuid4 rt) = []
  /\ votes_in db' (uuid4 rt) = 0%nat.
Proof.
  intros Hint.
  unfold ElectionService.create_election, bind, OrganizationRepository.get_by_id,
    query, raise_if, raise, ret, ElectionRepository.create.
  destruct (find _ (organizations db)); [|discriminate].
  destruct (datetime.le end_time start_time) as [[|]|] eqn:Hwindow;
    [discriminate| |discriminate].
  destruct (ElectionRepository.violated db _) eqn:Hok; [discriminate|].
  intros [= <- <-].
  unfold ElectionRepository.violated in Hok. cbn [Election.id] in Hok.
  destruct (existsb (fun x => Election.id x =? uuid4 rt) (elections db)) eqn:Hex;
    [discriminate|].
  pose proof (find_absent _ _ Hex) as Hnew.
  pose proof (fresh_key Election.id _ _ Hex) as Hfresh.
  split; [reflexivity|]. split; [reflexivity|]. split; [|split; [exact Hnew|]].
  { cbn [Election.start_time Election.end_time]. unfold datetime.le in Hwindow.
    intros Hsame. rewrite Hsame in Hwindow.
    destruct (datetime.utcoffset end_time) as [offset|];
      injection Hwindow as Hwindow; apply Z.leb_gt in Hwindow; lia. }
  split; [|split; [|split]].
  - unfold Elections.ElectionService.get_election, bind, ElectionRepository.get_by_id,
      query, raise, ret. cbn [elections set_elections].
    rewrite (find_app_none _ _ _ Hnew). cbn [find Election.id].
    now rewrite String.eqb_refl.
  - intros k e He. unfold lookup_election in *. cbn [elections set_elections].
    now apply find_app_some.
  - unfold candidates_of. cbn [candidates set_elections].
    apply filter_nothing. intros c Hc.
    destruct (Candidate.election_id c =? uuid4 rt) eqn:Heq; [|reflexivity].
    apply String.eqb_eq in Heq. exfalso. apply Hfresh. rewrite <- Heq.
    exact (candidate_election db Hint c Hc).
  - unfold votes_in. cbn [votes set_elections].
    rewrite filter_nothing; [reflexivity|]. intros v Hv.
    destruct (Vote.election_id v =? uuid4 rt) eqn:Heq; [|reflexivity].
    apply String.eqb_eq in Heq. exfalso. apply Hfresh. rewrite <- Heq.
    exact (vote_election db Hint v Hv).
Qed.

(** An election from 12:00+00:00 to 11:00-05:00 (in minutes of the day): the
    end is four hours after the start on the time line, and the stored end
    lies an hour before the stored start. *)
Lemma create_election_round_trip_witness :
  Elections.ElectionService.get_election "e7"
    (snd (ElectionService.create_election (alone 10 "e7" 11) "o1" "Audit" None
            (datetime.mk 720 (Some 0)) (datetime.mk 660 (Some (-300))) "u2" Sample.db))
  = (Return (Election.mk "e7" "o1" "Audit" None 720 660 "draft" "u2" 11),
     snd (ElectionService.create_election (alone 10 "e7" 11) "o1" "Audit" None
            (datetime.mk 720 (Some 0)) (datetime.mk 660 (Some (-300))) "u2" Sample.db)).
Proof.
  refine (proj1 (proj2 (proj2 (proj2 (proj2
    (create_election_round_trip (alone 10 "e7" 11) "o1" "Audit" None
       (datetime.mk 720 (Some 0)) (datetime.mk 660 (Some (-300))) "u2"
       Sample.db (Election.mk "e7" "o1" "Audit" None 720 660 "draft" "u2" 11)
       _ sample_integrity _)))))).
  reflexivity.
Defined.

(** A naive start with an aware end: the comparison raises before anything
    is written. *)
Lemma create_election_mixed_times
    rt organization_id title description start_time end_time created_by db org :
  find (fun o => Organization.id o =? organization_id) (organizations db) = Some org ->
  datetime.utcoffset start_time = None -> datetime.utcoffset end_time <> None ->
  ElectionService.create_election rt organization_id title description
    start_time end_time created_by db = (Raise TypeError, db).
Proof.
  intros Horg Hnaive Haware.
  unfold ElectionService.create_election, bind, OrganizationRepository.get_by_id,
    query, raise. rewrite Horg. unfold datetime.le. rewrite Hnaive.
  now destruct (datetime.utcoffset end_time).
Qed.

(** X15. [update_election] on a draft writes the fields the request gives
    and no other: a field that is unset or null keeps its value (so a
    description cannot be cleared), identifier, organization, status and
    creator stay, and the new times are stored as given, whatever their
    order. The stored row is the returned one. *)
Theorem update_election_writes_given_fields election_id data db e :
  lookup_election db election_id = Some e -> Election.status e = "draft" ->
  let given {A} (field : option (option A)) (old : A) : A :=
    match field with Some (Some x) => x | _ => old end in
  let updated :=
    Election.mk (Election.id e) (Election.organization_id e)
      (given (ElectionUpdate.title data) (Election.title e))
      (match ElectionUpdate.description data with
       | Some (Some d) => Some d
       | _ => Election.description e
       end)
      (given (ElectionUpdate.start_time data) (Election.start_time e))
      (given (ElectionUpdate.end_time data) (Election.end_time e))
      (Election.status e) (Election.created_by e) (Election.created_at e) in
  let result :=
    ElectionService.update_election election_id (ElectionUpdate.model_dump data) db in
  fst result = Return updated
  /\ lookup_election (snd result) election_id = Some updated.
Proof.
  intros He Hs given updated result. subst result.
  rewrite update_election_unfold. cbv zeta. rewrite He, Hs. cbn [String.eqb negb fst snd].
  assert (Hpatch :
    fold_left (fun e kv => match snd kv with
                           | PyNone => e
                           | v => ElectionRepository.setattr e (fst kv) v
                           end) (ElectionUpdate.model_dump data) e = updated).
  { subst updated given. destruct data as [[[t|]|] [[d|]|] [[s|]|] [[n|]|]], e; reflexivity. }
  split; [now rewrite Hpatch|].
  pose proof (lookup_rewritten db e
                (fun x => fold_left (fun e kv => match snd kv with
                                                 | PyNone => e
                                                 | v => ElectionRepository.setattr e (fst kv) v
                                                 end) (ElectionUpdate.model_dump data) x)
                election_id e
                (fun x => proj1 (patch_keeps _ x (model_dump_keys data)))
                (lookup_target _ _ _ He) He) as Hrow.
  cbv beta in Hrow. rewrite Hpatch in Hrow.
  rewrite (lookup_election_id _ _ _ He), String.eqb_refl in Hrow.
  exact Hrow.
Qed.

(** The draft e2 gets an end that lies before its start. *)
Lemma update_election_writes_given_fields_witness :
  fst (ElectionService.update_election "e2"
         (ElectionUpdate.model_dump
            (ElectionUpdate.mk None (Some None) None (Some (Some 50)))) Sample.db)
  = Return (Election.mk "e2" "o1" "Board e2" None 100 50 "draft" "u1" 0).
Proof.
  exact (proj1 (update_election_writes_given_fields "e2"
                  (ElectionUpdate.mk None (Some None) None (Some (Some 50))) Sample.db
                  (Sample.election "e2" "draft" 100 200) eq_refl eq_refl)).
Defined.

(** X16. [delete_election] returns only for a closed election, and then
    nothing of it is left: the election is not found, it has no candidates
    and no votes, and the status check tells every user that they have not
    voted in it. *)
Theorem delete_election_leaves_nothing election_id db message db' :
  ElectionService.delete_election election_id db = (Return message, db') ->
  status_of db election_id = Some "closed"
  /\ lookup_election db' election_id = None
  /\ candidates_of db' election_id = []
  /\ votes_in db' election_id = 0%nat
  /\ forall settings user_id,
       fst (VoteService.check_vote_status settings user_id election_id db')
       = Return (VoteStatusResponse.mk election_id false).
Proof.
  unfold ElectionService.delete_election, bind, ElectionRepository.get_by_id, query,
    raise_if, raise, ret, status_of, lookup_election.
  destruct (find _ (elections db)) as [e|] eqn:He; [|discriminate].
  destruct (Election.status e =? "closed") eqn:Hs; [|discriminate].
  cbn [negb]. intros [= _ <-]. apply String.eqb_eq in Hs.
  destruct (lookup_found Election.id _ _ _ He) as [_ Hid].
  unfold ElectionRepository.delete, commit. cbn [snd elections option_map].
  assert (Hvotes :
    filter (fun v => Vote.election_id v =? election_id)
      (filter (fun v => negb ((Vote.election_id v =? Election.id e)
                              || existsb (fun c => (Candidate.id c =? Vote.candidate_id v)
                                                   && (Candidate.election_id c
                                                       =? Election.id e))
                                   (candidates db)))
         (votes db)) = []).
  { apply filter_without. intros v _ Hv. apply String.eqb_eq in Hv.
    now rewrite Hv, Hid, String.eqb_refl. }
  split; [now rewrite Hs|]. split; [|split; [|split]].
  - apply find_without. intros x _ Hx. apply String.eqb_eq in Hx.
    now rewrite Hx, Hid, String.eqb_refl.
  - unfold candidates_of. cbn [candidates].
    apply filter_without. intros c _ Hc. apply String.eqb_eq in Hc.
    now rewrite Hc, Hid, String.eqb_refl.
  - unfold votes_in. cbn [votes]. now rewrite Hvotes.
  - intros settings user_id. rewrite check_vote_status_unfold. cbn [fst].
    rewrite nothing_recorded; [reflexivity|]. exact Hvotes.
Qed.

Lemma delete_election_leaves_nothing_witness :
  status_of Sample.db_closed "e3" = Some "closed"
  /\ lookup_election (snd (ElectionService.delete_election "e3" Sample.db_closed)) "e3"
     = None
  /\ candidates_of (snd (ElectionService.delete_election "e3" Sample.db_closed)) "e3" = []
  /\ votes_in (snd (ElectionService.delete_election "e3" Sample.db_closed)) "e3" = 0%nat
  /\ forall settings user_id,
       fst (VoteService.check_vote_status settings user_id "e3"
              (snd (ElectionService.delete_election "e3" Sample.db_closed)))
       = Return (VoteStatusResponse.mk "e3" false).
Proof.
  exact (delete_election_leaves_nothing "e3" Sample.db_closed "Election deleted"
           (snd (ElectionService.delete_election "e3" Sample.db_closed)) eq_refl).
Defined.

(** X17. [delete_organization] is refused with status 403 for anyone but
    the creator. For the creator it deletes the organization together with
    every election of the organization, whatever the election's status, and
    with the candidates and votes of these elections; the elections of other
    organizations stay. *)
Theorem delete_organization_takes_its_elections org_id user_id db org :
  integrity db ->
  find (fun o => Organization.id o =? org_id) (organizations db) = Some org ->
  let result := Organizations.OrganizationService.delete_organization org_id user_id db in
  (Organization.created_by org <> user_id ->
   result = (Raise (HTTPException HTTP_403_FORBIDDEN
                      "Only the organization creator can delete it"), db))
  /\ (Organization.created_by org = user_id ->
      fst result = Return "Organization deleted"
      /\ fst (Organizations.OrganizationService.get_organization org_id (snd result))
         = Raise (HTTPException HTTP_404_NOT_FOUND "Organization not found")
      /\ forall e, In e (elections db) ->
           (Election.organization_id e = org_id ->
            lookup_election (snd result) (Election.id e) = None
            /\ candidates_of (snd result) (Election.id e) = []
            /\ votes_in (snd result) (Election.id e) = 0%nat)
           /\ (Election.organization_id e <> org_id ->
               lookup_election (snd result) (Election.id e) = Some e)).
Proof.
  intros Hint Horg result. subst result.
  pose proof (election_ids db Hint) as Hne.
  destruct (lookup_found Organization.id _ _ _ Horg) as [_ Hid].
  unfold Organizations.OrganizationService.delete_organization, bind,
    Organizations.OrganizationRepository.get_by_id, query, raise_if, raise, ret.
  rewrite Horg. split.
  - intros Hother. apply String.eqb_neq in Hother. now rewrite Hother.
  - intros Hcreator. rewrite Hcreator, String.eqb_refl. cbn [negb].
    unfold Organizations.OrganizationRepository.delete, commit. cbn [fst snd].
    split; [reflexivity|]. split.
    + unfold Organizations.OrganizationService.get_organization, bind,
        Organizations.OrganizationRepository.get_by_id, query, raise, ret.
      cbn [organizations]. rewrite find_without; [reflexivity|].
      intros x _ Hx. apply String.eqb_eq in Hx. now rewrite Hx, Hid, String.eqb_refl.
    + intros e He.
      assert (Hsame : forall x, In x (elections db) ->
                        (Election.id x =? Election.id e) = true -> x = e).
      { intros x Hx Hkey. apply String.eqb_eq in Hkey.
        now apply (unique_key_row Election.id (elections db)). }
      pose proof (gone_with_organization db (Organization.id org) e Hne He) as Hgone.
      rewrite Hid in *. split.
      * intros Hof. rewrite Hof, String.eqb_refl in Hgone. split; [|split].
        -- unfold lookup_election. cbn [elections]. apply find_without.
           intros x Hx Hkey. rewrite (Hsame x Hx Hkey), Hof, String.eqb_refl. reflexivity.
        -- unfold candidates_of. cbn [candidates]. apply filter_without.
           intros c _ Hc. apply String.eqb_eq in Hc. now rewrite Hc, Hgone.
        -- unfold votes_in. cbn [votes]. rewrite filter_without; [reflexivity|].
           intros v _ Hv. apply String.eqb_eq in Hv. now rewrite Hv, Hgone.
      * intros Hof. apply String.eqb_neq in Hof.
        unfold lookup_election. cbn [elections].
        rewrite find_within; [exact (in_lookup db e Hne He)|].
        intros x Hx Hkey. now rewrite (Hsame x Hx Hkey), Hof.
Qed.

(** The creator u1 deletes organization o1 and with it the active election
    e1. *)
Lemma delete_organization_takes_its_elections_witness :
  lookup_election
    (snd (Organizations.OrganizationService.delete_organization "o1" "u1" Sample.db)) "e1"
  = None.
Proof.
  refine (proj1 (proj1 (proj2 (proj2 (proj2
    (delete_organization_takes_its_elections "o1" "u1" Sample.db
       (Organization.mk "o1" "Org" None "u1" 0) sample_integrity eq_refl)
    eq_refl)) (Sample.election "e1" "active" 100 200) _) eq_refl)).
  cbn. tauto.
Defined.

(** ** Candidates *)



(** ** Opening and closing the vote *)



(** X20. Activating an election opens the vote: after a returned
    [activate_election] of an election that held no votes, a ballot cast
    alone for a candidate of the election, at a time within the election's
    window and under an unused row identifier, is recorded, whoever the user
    is. *)
Theorem activation_opens_the_vote election_id db active db' :
  drafts_empty db ->
  ElectionService.activate_election election_id db = (Return active, db') ->
  forall settings clock id created user_id candidate_id c,
    lookup_candidate db candidate_id = Some c ->
    Candidate.election_id c = election_id ->
    (Election.start_time active <= clock <= Election.end_time active)%Z ->
    ~ In id (map Vote.id (votes db)) ->
    VoteService.cast_vote settings (alone clock id created) user_id election_id
      candidate_id db'
    = (Return (VoteConfirmation.mk "Vote cast successfully" election_id created),
       set_votes db'
         (votes db' ++ [Vote.mk id election_id candidate_id
                          (hashed_token_of settings (voter_identifier db' user_id)
                             election_id)
                          created])).
Proof.
  intros Hdrafts. rewrite activate_election_unfold.
  destruct (lookup_election db election_id) as [e|] eqn:He; [|discriminate].
  destruct (Election.status e =? "draft") eqn:Hs; [|discriminate].
  cbn [negb]. destruct (_ <? 2)%nat; [discriminate|].
  intros [= <- <-]. apply String.eqb_eq in Hs.
  intros settings clock id created user_id candidate_id c Hc Hb Hwindow Hfresh.
  pose proof (lookup_after_update_status db e "active" election_id e
                (lookup_target _ _ _ He) He) as Hrow.
  rewrite (lookup_election_id _ _ _ He), String.eqb_refl in Hrow.
  apply accepted_ballot_is_cast.
  - exists (ElectionRepository.set_status e "active"), c.
    split; [exact Hrow|]. split; [reflexivity|]. split; [exact Hwindow|].
    split; [exact Hc | exact Hb].
  - apply nothing_recorded. apply filter_nothing. intros v Hv.
    destruct (Vote.election_id v =? election_id) eqn:Hel; [|reflexivity].
    apply String.eqb_eq in Hel. exfalso.
    apply (Hdrafts v e Hv); [now rewrite Hel | exact Hs].
  - exact Hfresh.
Qed.

(** The draft e2 gets a second candidate and is activated; account u3 then
    votes for c9. *)
Lemma activation_opens_the_vote_witness :
  fst (VoteService.cast_vote Sample.settings (alone 150 "v1" 151) "u3" "e2" "c9"
         (snd (ElectionService.activate_election "e2"
                 (snd (ElectionService.add_candidate (alone 5 "c8" 6) "e2" "Ada" None
                         Sample.db)))))
  = Return (VoteConfirmation.mk "Vote cast successfully" "e2" 151).
Proof.
  rewrite (activation_opens_the_vote "e2"
             (snd (ElectionService.add_candidate (alone 5 "c8" 6) "e2" "Ada" None
                     Sample.db))
             (Sample.election "e2" "active" 100 200)
             (snd (ElectionService.activate_election "e2"
                     (snd (ElectionService.add_candidate (alone 5 "c8" 6) "e2" "Ada" None
                             Sample.db))))
             ltac:(intros v e [])
             eq_refl
             Sample.settings 150 "v1" 151 "u3" "c9" (Sample.candidate "c9" "e2" 3)
             eq_refl eq_refl ltac:(cbn; lia) ltac:(cbn; tauto)).
  reflexivity.
Defined.

(** ** Organizations *)

(** X21. A returned [create_organization] has stored the organization
    under an unused identifier, for a creator that is a user:
    [get_organization] finds exactly the returned organization,
    [get_my_organizations] lists it last among those of its creator, and
    the lists of the other users are as before. *)
Theorem create_organization_round_trip rt name description created_by db org db' :
  Organizations.OrganizationService.create_organization rt name description created_by db
  = (Return org, db') ->
  org = Organization.mk (uuid4 rt) name description created_by (created_now rt)
  /\ lookup_user db created_by <> None
  /\ fst (Organizations.OrganizationService.get_organization (uuid4 rt) db)
     = Raise (HTTPException HTTP_404_NOT_FOUND "Organization not found")
  /\ Organizations.OrganizationService.get_organization (uuid4 rt) db' = (Return org, db')
  /\ fst (Organizations.OrganizationService.get_my_organizations created_by db')
     = Return (filter (fun o => Organization.created_by o =? created_by) (organizations db)
               ++ [org])%list
  /\ forall other, other <> created_by ->
       fst (Organizations.OrganizationService.get_my_organizations other db')
       = fst (Organizations.OrganizationService.get_my_organizations other db).
Proof.
  unfold Organizations.OrganizationService.create_organization,
    Organizations.OrganizationRepository.create.
  destruct (Organizations.OrganizationRepository.violated db _) eqn:Hok; [discriminate|].
  intros [= <- <-].
  unfold Organizations.OrganizationRepository.violated in Hok.
  cbn [Organization.id Organization.created_by] in Hok.
  destruct (existsb (fun x => Organization.id x =? uuid4 rt) (organizations db)) eqn:Hex;
    [discriminate|].
  destruct (existsb (fun u => User.id u =? created_by) (users db)) eqn:Huser;
    [|discriminate].
  pose proof (find_absent _ _ Hex) as Hnew.
  split; [reflexivity|]. split; [|split; [|split; [|split]]].
  - unfold lookup_user. intros Hnone.
    pose proof (find_existsb (fun u => User.id u =? created_by) (users db)) as H.
    rewrite Hnone, Huser in H. discriminate.
  - unfold Organizations.OrganizationService.get_organization, bind,
      Organizations.OrganizationRepository.get_by_id, query, raise, ret.
    now rewrite Hnew.
  - unfold Organizations.OrganizationService.get_organization, bind,
      Organizations.OrganizationRepository.get_by_id, query, raise, ret.
    cbn [organizations set_organizations].
    rewrite (find_app_none _ _ _ Hnew). cbn [find Organization.id].
    now rewrite String.eqb_refl.
  - unfold Organizations.OrganizationService.get_my_organizations,
      Organizations.OrganizationRepository.get_by_creator, query.
    cbn [fst organizations set_organizations].
    rewrite filter_snoc. cbn [Organization.created_by]. now rewrite String.eqb_refl.
  - intros other Hother.
    unfold Organizations.OrganizationService.get_my_organizations,
      Organizations.OrganizationRepository.get_by_creator, query.
    cbn [fst organizations set_organizations].
    rewrite filter_snoc. cbn [Organization.created_by].
    apply not_eq_sym in Hother. apply String.eqb_neq in Hother. rewrite Hother.
    now rewrite app_nil_r.
Qed.

Lemma create_organization_round_trip_witness :
  Organizations.OrganizationService.get_organization "o2"
    (snd (Organizations.OrganizationService.create_organization (alone 5 "o2" 6)
            "Guild" None "u2" Sample.db))
  = (Return (Organization.mk "o2" "Guild" None "u2" 6),
     snd (Organizations.OrganizationService.create_organization (alone 5 "o2" 6)
            "Guild" None "u2" Sample.db)).
Proof.
  exact (proj1 (proj2 (proj2 (proj2
    (create_organization_round_trip (alone 5 "o2" 6) "Guild" None "u2" Sample.db
       (Organization.mk "o2" "Guild" None "u2" 6)
       (snd (Organizations.OrganizationService.create_organization (alone 5 "o2" 6)
               "Guild" None "u2" Sample.db))
       eq_refl))))).
Defined.
